(** * llms-txt-generator: a shallow embedding of the crawl / extract /
    categorize / render pipeline, and the properties of its specification.

    Layout.  Part I holds the definitions, one module per source file:
    - [Py]: the Python [str] methods and the [sorted] the sources call;
    - [Pathlib]: what the sources pass to [open];
    - [Urllib]: a model of [urllib.parse.urlparse] and [urljoin];
    - [Http]: responses, and what a request can come to;
    - [Bs4]: the parse tree of BeautifulSoup and the queries the sources make;
    - [Xml]: what the sources read of a parsed sitemap;
    - [Env]: the record of everything outside the repository;
    - [ContentProcessor]: [src/utils/content_processor.py];
    - [Generator]: [src/core/generator.py];
    - [SitemapExtractor]: [src/utils/sitemap_extractor.py];
    - [Traverser]: [src/utils/advanced_traversal.py];
    - [Spec]: the properties of the specification, in its own words;
    - [Scenarios]: the concrete inputs the examples run on.
    Part II holds the lemmas and the theorems of the claims C1 to C10.

    Conventions.  A Python [str] is a Rocq [string]: the sequence of the
    bytes of its UTF-8 encoding.  Substring search and lexicographic
    comparison on these bytes agree with Python's on code points; [len]
    counts the code points and [strip] removes the white space of Unicode.
    The case mappings of Unicode are no part of this file: [str.lower] and
    [str.title] on a title or a path are taken from the environment, and
    only where a lower-cased URL or header is searched for fixed ASCII
    markers is the lower-casing of the letters A to Z written out.  What
    lies outside the repository (the interpreter's case mappings, the file
    system, the network, the HTML and XML parsers, [urllib]) is gathered in
    the record [Env] and passed explicitly; a call that can raise returns a
    [result]. *)

From Stdlib Require Import ZArith Ascii String.
From stdpp Require Import gmap strings list sorting.

Open Scope string_scope.
Open Scope list_scope.

(* ===================================================================== *)
(** * Part I: definitions                                                 *)
(* ===================================================================== *)

(** ** Exceptions

    Every [try] of the sources ends in [except Exception], so the class of
    the exception raised never matters: a computation either returns a
    value or raises. *)

Inductive result (A : Type) : Type :=
| Ok (a : A)
| Raise.

Arguments Ok {A} a.
Arguments Raise {A}.

#[global] Instance result_ret : MRet result := fun A a => Ok a.

#[global] Instance result_bind : MBind result := fun A B k r =>
  match r with
  | Ok a => k a
  | Raise => Raise
  end.

(** [try: r except Exception: d]. *)
Definition try_except {A : Type} (r : result A) (d : A) : A :=
  match r with
  | Ok a => a
  | Raise => d
  end.

(** The mapping of a list through a step that can raise: the first raise
    ends the loop (a [for] with a raising body). *)
Fixpoint mapM {A B : Type} (f : A → result B) (l : list A) : result (list B) :=
  match l with
  | [] => Ok []
  | a :: l' => b ← f a; bs ← mapM f l'; mret (b :: bs)
  end.

(** ** Python [str] methods *)

Module Py.

Definition LF : ascii := "010"%char.

(** ["\n"] *)
Definition nl : string := String LF "".

Definition code (c : ascii) : nat := nat_of_ascii c.

(** The letters A to Z, and below a to z. *)
Definition is_upper (c : ascii) : bool := (65 <=? code c)%nat && (code c <=? 90)%nat.

Definition is_lower (c : ascii) : bool := (97 <=? code c)%nat && (code c <=? 122)%nat.

Definition is_alpha (c : ascii) : bool := is_upper c || is_lower c.

Definition is_digit (c : ascii) : bool := (48 <=? code c)%nat && (code c <=? 57)%nat.

(** [str.isspace] on ASCII: TAB, LF, VT, FF, CR, FS, GS, RS, US, SPACE. *)
Definition is_space (c : ascii) : bool :=
  ((9 <=? code c)%nat && (code c <=? 13)%nat) || ((28 <=? code c)%nat && (code c <=? 32)%nat).

Definition lower_char (c : ascii) : ascii :=
  if is_upper c then ascii_of_nat (code c + 32) else c.

Definition upper_char (c : ascii) : ascii :=
  if is_lower c then ascii_of_nat (code c - 32) else c.

Fixpoint map_chars (f : ascii → ascii) (s : string) : string :=
  match s with
  | EmptyString => EmptyString
  | String c s' => String (f c) (map_chars f s')
  end.

(** [s.lower()] on the letters A to Z, every other byte kept.  The
    sources that use it search the lower-cased text of a URL or a header
    for fixed ASCII markers, and for these the search has the answer it
    has on [str.lower]: outside ASCII only the Kelvin sign lower-cases to
    an ASCII letter (k, which no marker holds) and the dotted capital I to
    an i with a combining dot after it (no marker ends in i).  The
    lower-casing of a title, which is searched for configured patterns, is
    [str_lower] of the environment. *)
Definition lower (s : string) : string := map_chars lower_char s.

(** A byte that continues a code point in UTF-8: 10xxxxxx. *)
Definition is_continuation (c : ascii) : bool :=
  (128 <=? code c)%nat && (code c <? 192)%nat.

(** [len(s)]: the number of code points of [s], which is the number of
    the bytes that start one. *)
Fixpoint len (s : string) : nat :=
  match s with
  | EmptyString => 0
  | String c s' => ((if is_continuation c then 0 else 1) + len s')%nat
  end.

(** [s.startswith(p)] *)
Definition startswith (s p : string) : bool := String.prefix p s.

(** [pat in s]: [pat] occurs in [s] as a substring. *)
Fixpoint str_in (pat s : string) : bool :=
  String.prefix pat s ||
  match s with
  | EmptyString => false
  | String _ s' => str_in pat s'
  end.

(** What [pat in s] decides: [s] is [a + pat + b] for some [a] and [b]. *)
Definition occurs_in (pat s : string) : Prop :=
  ∃ a b : string, s = a +:+ pat +:+ b.

(** [any(p in s for p in pats)] *)
Definition any_in (pats : list string) (s : string) : bool :=
  existsb (fun p => str_in p s) pats.

(** [sep.join(l)] for the empty separator, which is also what a sequence
    of [f.write] calls leaves in a file. *)
Definition concat (l : list string) : string := foldr String.append "" l.

(** [s.lstrip(chars)], [s.rstrip(chars)] and [s.strip(chars)] for a set
    [drop] of ASCII characters. *)
Fixpoint lstrip_by (drop : ascii → bool) (s : string) : string :=
  match s with
  | EmptyString => EmptyString
  | String c s' => if drop c then lstrip_by drop s' else s
  end.

Definition rstrip_by (drop : ascii → bool) (s : string) : string :=
  String.rev (lstrip_by drop (String.rev s)).

Definition strip_by (drop : ascii → bool) (s : string) : string :=
  rstrip_by drop (lstrip_by drop s).

(** [str.isspace] outside ASCII, on the UTF-8 bytes of the code point:
    U+0085 and U+00A0 (C2 85, C2 A0); U+1680 (E1 9A 80); U+2000 to U+200A,
    U+2028, U+2029 and U+202F (E2 80 80 to 8A, A8, A9, AF); U+205F
    (E2 81 9F); U+3000 (E3 80 80). *)
Definition is_space2 (c d : ascii) : bool :=
  (code c =? 194)%nat && ((code d =? 133)%nat || (code d =? 160)%nat).

Definition is_space3 (c d e : ascii) : bool :=
  ((code c =? 225)%nat && (code d =? 154)%nat && (code e =? 128)%nat) ||
  ((code c =? 226)%nat && (code d =? 128)%nat &&
   (((128 <=? code e)%nat && (code e <=? 138)%nat) ||
    (code e =? 168)%nat || (code e =? 169)%nat || (code e =? 175)%nat)) ||
  ((code c =? 226)%nat && (code d =? 129)%nat && (code e =? 159)%nat) ||
  ((code c =? 227)%nat && (code d =? 128)%nat && (code e =? 128)%nat).

(** [s.lstrip()]: the white space at the start is dropped, one code point
    of one, two or three bytes at a time. *)
Fixpoint lstrip (s : string) : string :=
  match s with
  | EmptyString => EmptyString
  | String c s1 =>
      if is_space c then lstrip s1
      else
        match s1 with
        | EmptyString => s
        | String d s2 =>
            if is_space2 c d then lstrip s2
            else
              match s2 with
              | EmptyString => s
              | String e s3 => if is_space3 c d e then lstrip s3 else s
              end
        end
  end.

(** [lstrip] on a reversed text, whose code points read last byte first. *)
Fixpoint lstrip_reversed (s : string) : string :=
  match s with
  | EmptyString => EmptyString
  | String e s1 =>
      if is_space e then lstrip_reversed s1
      else
        match s1 with
        | EmptyString => s
        | String d s2 =>
            if is_space2 d e then lstrip_reversed s2
            else
              match s2 with
              | EmptyString => s
              | String c s3 => if is_space3 c d e then lstrip_reversed s3 else s
              end
        end
  end.

(** [s.rstrip()] *)
Definition rstrip (s : string) : string :=
  String.rev (lstrip_reversed (String.rev s)).

(** [s.strip()] *)
Definition strip (s : string) : string := rstrip (lstrip s).

(** [s.strip(c)] for a one-character argument. *)
Definition strip_char (c : ascii) (s : string) : string :=
  strip_by (Ascii.eqb c) s.

(** [s.split(sep)[0]] for a non-empty [sep]: the part of [s] before the
    first occurrence of [sep], all of [s] when there is none. *)
Fixpoint split_head (sep s : string) : string :=
  if String.prefix sep s then EmptyString
  else match s with
       | EmptyString => EmptyString
       | String c s' => String c (split_head sep s')
       end.

(** [s.replace(old, new)] for one-character [old] and [new]. *)
Definition replace_char (old new : ascii) (s : string) : string :=
  map_chars (fun c => if Ascii.eqb c old then new else c) s.

(** [s.title()] on a text whose letters are ASCII: a letter is upper-cased
    when the character before it is not a letter and lower-cased when it
    is.  It is what [str_title] of the environment is on the scenarios. *)
Fixpoint title_from (previous_is_cased : bool) (s : string) : string :=
  match s with
  | EmptyString => EmptyString
  | String c s' =>
      let c' :=
        if is_lower c then (if previous_is_cased then c else upper_char c)
        else if is_upper c then (if previous_is_cased then lower_char c else c)
        else c in
      String c' (title_from (is_alpha c) s')
  end.

Definition title (s : string) : string := title_from false s.

(** [bool(s)]: a string is true when it is not empty. *)
Definition truthy (s : string) : bool :=
  match s with
  | EmptyString => false
  | String _ _ => true
  end.

(** [s.find(c)] and the two halves of [s.split(c, 1)], for a character. *)
Fixpoint before_char (c : ascii) (s : string) : string :=
  match s with
  | EmptyString => EmptyString
  | String d s' => if Ascii.eqb d c then EmptyString else String d (before_char c s')
  end.

Fixpoint after_char (c : ascii) (s : string) : option string :=
  match s with
  | EmptyString => None
  | String d s' => if Ascii.eqb d c then Some s' else after_char c s'
  end.

(** [s.split(c)] for a character: the pieces between the occurrences. *)
Fixpoint split_char (c : ascii) (s : string) : list string :=
  match s with
  | EmptyString => [EmptyString]
  | String d s' =>
      if Ascii.eqb d c then EmptyString :: split_char c s'
      else match split_char c s' with
           | piece :: pieces => String d piece :: pieces
           | [] => [String d EmptyString]
           end
  end.

Fixpoint all_chars (p : ascii → bool) (s : string) : bool :=
  match s with
  | EmptyString => true
  | String c s' => p c && all_chars p s'
  end.

Definition has_char (c : ascii) (s : string) : bool :=
  negb (all_chars (fun d => negb (Ascii.eqb d c)) s).

(** Some character of [s] is one of the letters A to Z. *)
Definition has_ascii_upper (s : string) : bool :=
  negb (all_chars (fun c => negb (is_upper c)) s).

(** [sorted(l, key=key)]: Python's sort is stable, and a stable sort has
    one result, which insertion from the right computes. *)
Fixpoint insert_by {A : Type} (key : A → string) (x : A) (l : list A) : list A :=
  match l with
  | [] => [x]
  | y :: l' =>
      if String.leb (key x) (key y) then x :: y :: l'
      else y :: insert_by key x l'
  end.

Fixpoint sorted {A : Type} (key : A → string) (l : list A) : list A :=
  match l with
  | [] => []
  | x :: l' => insert_by key x (sorted key l')
  end.

(** The order [sorted] puts a list in: by key, lexicographically. *)
Definition by_key {A : Type} (key : A → string) (x y : A) : Prop :=
  String.le (key x) (key y).

End Py.

(** ** Paths and files

    The sources write a file by [open(path, "w")], where [path] is a name
    or [Path(directory) / name].  Which file that is depends on pathlib
    (the path [./out/llms.txt] is [out/llms.txt]) and on the operating
    system (the working directory, links): the sources below take it from
    the environment [Env], and the theorems hold however paths are
    resolved.  [posix] is what the scenarios resolve them with. *)

Module Pathlib.

(** What the sources pass to [open]. *)
Inductive PathLike :=
(** a [str] *)
| Name (name : string)
(** [Path(directory) / name] *)
| Join (directory name : string).

(** A file of the disk, under a name of its own that the sources never
    see. *)
Definition File : Type := string.

(** The parts of a path: the pieces between the slashes, the empty ones
    and the dots left out. *)
Definition parts (path : string) : list string :=
  List.filter (fun part => negb (String.eqb part "" || String.eqb part "."))
    (Py.split_char "/" path).

(** The root of a POSIX path: one slash, or two when the path starts with
    exactly two. *)
Definition root (path : string) : string :=
  if Py.startswith path "//" && negb (Py.startswith path "///") then "//"
  else if Py.startswith path "/" then "/"
  else "".

(** ["/".join(parts)] *)
Fixpoint join_parts (parts : list string) : string :=
  match parts with
  | [] => ""
  | [part] => part
  | part :: parts' => part +:+ "/" +:+ join_parts parts'
  end.

(** The text of the path of a root and parts. *)
Definition render (root : string) (parts : list string) : string :=
  match root, parts with
  | EmptyString, [] => "."
  | _, _ => root +:+ join_parts parts
  end.

(** [str(PurePosixPath(path))] *)
Definition str (path : string) : string := render (root path) (parts path).

(** The text of a path as [PurePosixPath] writes it, which names the file
    on a disk without links when the path has no [..] component: a name
    that starts with a slash replaces the directory. *)
Definition posix (path : PathLike) : File :=
  match path with
  | Name name => str name
  | Join directory name =>
      if Py.startswith name "/" then str name
      else render (root directory) (parts directory ++ parts name)
  end.

End Pathlib.

(** ** [urllib.parse]

    The standard library is no part of the repository: the sources below
    take [urlparse] and [urljoin] from the environment [Env], and the
    theorems hold for every such pair.  The model here is what the
    scenarios instantiate them with.  It follows CPython's [urlsplit]:
    leading control characters and spaces are dropped, TAB, CR and LF are
    removed, the scheme is the text before the first colon when that text
    is a letter followed by letters, digits, [+], [-] or [.], the network
    location follows [//] up to the next [/], [?] or [#], and a location
    with an unmatched square bracket raises [ValueError].  The validation
    of a bracketed IPv6 literal and of non-ASCII hosts is not modelled. *)

Module Urllib.

Record ParseResult := {
  scheme : string;
  netloc : string;
  path : string;
  params : string;
  query : string;
  fragment : string;
}.

Definition is_c0_or_space (c : ascii) : bool := (Py.code c <=? 32)%nat.

Definition is_unsafe (c : ascii) : bool :=
  Ascii.eqb c "009" || Ascii.eqb c "010" || Ascii.eqb c "013".

Fixpoint remove_chars (drop : ascii → bool) (s : string) : string :=
  match s with
  | EmptyString => EmptyString
  | String c s' =>
      if drop c then remove_chars drop s' else String c (remove_chars drop s')
  end.

Definition scheme_char (c : ascii) : bool :=
  Py.is_alpha c || Py.is_digit c ||
  Ascii.eqb c "+" || Ascii.eqb c "-" || Ascii.eqb c ".".

(** [(scheme, rest)] *)
Definition split_scheme (url : string) : string * string :=
  match Py.after_char ":" url with
  | Some rest =>
      let head := Py.before_char ":" url in
      match head with
      | String c _ =>
          if Py.is_alpha c && Py.all_chars scheme_char head
          then (Py.lower head, rest)
          else (EmptyString, url)
      | EmptyString => (EmptyString, url)
      end
  | None => (EmptyString, url)
  end.

Definition is_delim (c : ascii) : bool :=
  Ascii.eqb c "/" || Ascii.eqb c "?" || Ascii.eqb c "#".

(** [_splitnetloc(url, 2)] on the text after [//]. *)
Fixpoint splitnetloc (s : string) : string * string :=
  match s with
  | EmptyString => (EmptyString, EmptyString)
  | String c s' =>
      if is_delim c then (EmptyString, s)
      else let '(n, rest) := splitnetloc s' in (String c n, rest)
  end.

(** [(netloc, rest)], or [ValueError] on an unmatched bracket. *)
Definition split_netloc (url : string) : result (string * string) :=
  match url with
  | String "/" (String "/" s) =>
      let '(n, rest) := splitnetloc s in
      if xorb (Py.has_char "[" n) (Py.has_char "]" n) then Raise
      else Ok (n, rest)
  | _ => Ok (EmptyString, url)
  end.

(** [url.split(c, 1)] when [c] occurs in [url]. *)
Definition split_once (c : ascii) (url : string) : string * string :=
  match Py.after_char c url with
  | Some rest => (Py.before_char c url, rest)
  | None => (url, EmptyString)
  end.

(** [_splitparams]: the parameters follow the first [;] of the last
    segment of the path. *)
Definition splitparams (url : string) : string * string :=
  let last := String.rev (Py.before_char "/" (String.rev url)) in
  match Py.after_char ";" last with
  | Some ps =>
      (substring 0 (String.length url - String.length last) url
         +:+ Py.before_char ";" last, ps)
  | None => (url, EmptyString)
  end.

Definition uses_params : list string :=
  [""; "ftp"; "hdl"; "prospero"; "http"; "imap"; "https"; "shttp"; "rtsp";
   "rtspu"; "sip"; "sips"; "mms"; "sftp"; "tel"].

Definition urlparse (url : string) : result ParseResult :=
  let url := Py.lstrip_by is_c0_or_space url in
  let url := remove_chars is_unsafe url in
  let '(scheme, url) := split_scheme url in
  '(netloc, url) ← split_netloc url;
  let '(url, fragment) := split_once "#" url in
  let '(url, query) := split_once "?" url in
  let '(url, params) :=
    if existsb (String.eqb scheme) uses_params then splitparams url
    else (url, EmptyString) in
  mret {| scheme := scheme; netloc := netloc; path := url;
          params := params; query := query; fragment := fragment |}.

(** [urljoin(base, url)] for the two kinds of reference the scenarios
    use: an absolute [http] or [https] URL, which is the result, and an
    absolute path without dot segments, which replaces the path of
    [base].  A reference of another form is resolved against the
    directory of the base path, without the removal of dot segments that
    CPython performs. *)
Definition urljoin (base url : string) : result string :=
  if negb (Py.truthy base) then Ok url
  else if negb (Py.truthy url) then Ok base
  else
    b ← urlparse base;
    u ← urlparse url;
    if Py.truthy (scheme u) then Ok url
    else if Py.truthy (netloc u) then Ok (scheme b +:+ ":" +:+ url)
    else
      let origin := scheme b +:+ "://" +:+ netloc b in
      if Py.startswith url "/" then Ok (origin +:+ url)
      else
        let file := String.rev (Py.before_char "/" (String.rev (path b))) in
        let dir := substring 0 (String.length (path b) - String.length file) (path b) in
        Ok (origin +:+ (if Py.truthy dir then dir else "/") +:+ url).

End Urllib.

(** ** The network: [requests] and [aiohttp] *)

Module Http.

Record Response := {
  status_code : Z;
  (** [headers.get("content-type", "")] *)
  content_type : string;
  text : string;
}.

(** What a request comes to: a response of whatever status, or one of the
    exceptions the client raises. *)
Inductive Outcome :=
| Responded (r : Response)
| ConnectionError
| Timeout.

(** [requests.Response.raise_for_status]: raises [HTTPError] for a client
    error (4xx) or a server error (5xx), and for no other status. *)
Definition raise_for_status (r : Response) : result unit :=
  if (400 <=? status_code r)%Z && (status_code r <? 600)%Z then Raise else Ok ().

(** The response of a request that the client made without raising. *)
Definition responded (o : Outcome) : result Response :=
  match o with
  | Responded r => Ok r
  | ConnectionError | Timeout => Raise
  end.

End Http.

(** ** BeautifulSoup: the parse tree and its queries *)

Module Bs4.

#[warnings="-register-all"]
Inductive Node :=
| NavigableString (text : string)
(** [attrs] is the dictionary of the attributes: its keys are distinct. *)
| Tag (name : string) (attrs : list (string * string)) (contents : list Node).

(** A [BeautifulSoup] object: the top-level nodes of the document. *)
Definition Soup := list Node.

(** The descendants of a node, in document order. *)
Fixpoint descendants (n : Node) : list Node :=
  match n with
  | NavigableString _ => []
  | Tag _ _ cs => flat_map (fun c => c :: descendants c) cs
  end.

Definition all_nodes (soup : Soup) : list Node :=
  flat_map (fun c => c :: descendants c) soup.

(** [tag.get_text()] *)
Fixpoint get_text (n : Node) : string :=
  match n with
  | NavigableString s => s
  | Tag _ _ cs => Py.concat (map get_text cs)
  end.

(** [tag.get(key)] *)
Definition get (n : Node) (key : string) : option string :=
  match n with
  | NavigableString _ => None
  | Tag _ attrs _ => snd <$> List.find (fun kv => String.eqb (fst kv) key) attrs
  end.

Definition is_tag (name : string) (n : Node) : bool :=
  match n with
  | NavigableString _ => false
  | Tag name' _ _ => String.eqb name' name
  end.

(** [soup.find_all(name)] *)
Definition find_all (soup : Soup) (name : string) : list Node :=
  List.filter (is_tag name) (all_nodes soup).

(** [soup.find(name)] *)
Definition find (soup : Soup) (name : string) : option Node :=
  head (find_all soup name).

(** [soup.find(name, attrs={key: value})] *)
Definition find_attrs (soup : Soup) (name key value : string) : option Node :=
  head (List.filter (fun n => bool_decide (get n key = Some value))
          (find_all soup name)).

(** [[link["href"] for link in soup.find_all("a", href=True)]] *)
Definition hrefs (soup : Soup) : list string :=
  omap (fun n => get n "href") (find_all soup "a").

(** [soup.find_all(names)] and [soup(names)] for a list of tag names. *)
Definition find_all_names (soup : Soup) (names : list string) : list Node :=
  List.filter (fun n => existsb (fun name => is_tag name n) names) (all_nodes soup).

(** [for element in soup(names): element.decompose()]: the elements of
    these names are taken out of the tree, with all they contain. *)
Fixpoint decompose (names : list string) (n : Node) : list Node :=
  match n with
  | NavigableString _ => [n]
  | Tag name attrs cs =>
      if existsb (String.eqb name) names then []
      else [Tag name attrs (flat_map (decompose names) cs)]
  end.

Definition decompose_all (names : list string) (soup : Soup) : Soup :=
  flat_map (decompose names) soup.

End Bs4.

(** ** [xml.etree.ElementTree]: what the sources read of a parsed sitemap *)

Module Xml.

Record Root := {
  (** [root.tag] *)
  tag : string;
  (** [[e.text for e in root.findall(".//sm:sitemap/sm:loc", namespaces)]],
      an element without text giving the empty string *)
  sitemap_locs : list string;
  (** [[e.text for e in root.findall(".//sm:url/sm:loc", namespaces)]] *)
  url_locs : list string;
}.

End Xml.

(** ** The environment: everything outside the repository *)

Record Env := {
  (** [str.lower], with the case mappings of the interpreter's Unicode *)
  str_lower : string → string;
  (** [str.title] *)
  str_title : string → string;
  (** The file that [open(path, "w")] opens. *)
  file_at : Pathlib.PathLike → Pathlib.File;
  (** [urllib.parse.urlparse]; [Raise] is its [ValueError]. *)
  urlparse : string → result Urllib.ParseResult;
  (** [urllib.parse.urljoin] *)
  urljoin : string → string → result string;
  (** [session.get(url, timeout=t)] *)
  session_get : string → Z → Http.Outcome;
  (** [session.head(url, timeout=t)] *)
  session_head : string → Z → Http.Outcome;
  (** [BeautifulSoup(html, "html.parser")] *)
  html_parser : string → result Bs4.Soup;
  (** [ET.fromstring(xml)]; [Raise] is its [ParseError]. *)
  xml_fromstring : string → result Xml.Root;
}.

(** ** [src/utils/content_processor.py] *)

Module ContentProcessor.

Import Bs4.

Record Heading := { h_level : Z; h_text : string; h_id : string }.

Record CodeBlock := { c_type : string; c_language : string; c_content : string }.

Record Link := { l_url : string; l_text : string; l_type : string }.

(** The dictionary [process_content] returns. *)
Record Processed := {
  url : string;
  title : string;
  description : string;
  main_content : string;
  headings : list Heading;
  code_blocks : list CodeBlock;
  links : list Link;
  metadata : list (string * string);
}.

(** The [ContentProcessor] object.  [html_cleaners] is the list its
    constructor stores; the other fields are the extraction methods that
    [process_content] calls and whose bodies no claim depends on
    ([_extract_title] is defined below).  Each may raise. *)
Record Self := {
  html_cleaners : list (Soup → string → result Soup);
  _extract_description : Soup → result string;
  _extract_main_content_text : Soup → result string;
  _extract_headings : Soup → result (list Heading);
  _extract_code_blocks : Soup → result (list CodeBlock);
  _extract_relevant_links : Soup → string → result (list Link);
  _extract_metadata : Soup → result (list (string * string));
}.

Definition title_suffixes : list string := [" | "; " - "; " — "; " :: "].

(** The loop [for suffix in ...: if suffix in title: title =
    title.split(suffix)[0].strip()]. *)
Definition clean_suffixes (title : string) : string :=
  fold_left
    (fun title suffix =>
       if Py.str_in suffix title then Py.strip (Py.split_head suffix title)
       else title)
    title_suffixes title.

(** [title and len(title) > 3] *)
Definition long_enough (title : string) : bool :=
  Py.truthy title && (3 <? Py.len title)%nat.

(** The last two steps of [_extract_title]: the title made from the path
    of the URL, then the literal. *)
Definition title_from_url (E : Env) (url : string) : result string :=
  parsed ← urlparse E url;
  let path := Urllib.path parsed in
  if Py.truthy path && negb (String.eqb path "/") then
    let title :=
      str_title E
        (Py.replace_char "_" " "
           (Py.replace_char "-" " " (Py.strip_char "/" path))) in
    if Py.truthy title then mret title else mret "Untitled"
  else mret "Untitled".

(** The meta title: [soup.find("meta", attrs={"name": "title"})] with a
    non-empty [content]. *)
Definition meta_title (soup : Soup) : option string :=
  meta ← find_attrs soup "meta" "name" "title";
  content ← get meta "content";
  if Py.truthy content then Some (Py.strip content) else None.

(** The first [<h1>] whose stripped text is long enough. *)
Definition h1_title (soup : Soup) : option string :=
  List.find long_enough (map (fun h1 => Py.strip (get_text h1)) (find_all soup "h1")).

(** The cleaned text of the [<title>] tag, when long enough. *)
Definition tag_title (soup : Soup) : option string :=
  title_tag ← find soup "title";
  let title := clean_suffixes (Py.strip (get_text title_tag)) in
  if long_enough title then Some title else None.

Definition _extract_title (E : Env) (soup : Soup) (url : string) : result string :=
  match tag_title soup with
  | Some title => mret title
  | None =>
      match h1_title soup with
      | Some title => mret title
      | None =>
          match meta_title soup with
          | Some title => mret title
          | None => title_from_url E url
          end
      end
  end.

(** The body of the [try] of [process_content]. *)
Definition process_body (E : Env) (self : Self) (html_content url : string)
  : result Processed :=
  soup ← html_parser E html_content;
  soup ← foldl (fun soup cleaner => s ← soup; cleaner s url) (Ok soup)
           (html_cleaners self);
  title ← _extract_title E soup url;
  description ← _extract_description self soup;
  main_content ← _extract_main_content_text self soup;
  headings ← _extract_headings self soup;
  code_blocks ← _extract_code_blocks self soup;
  links ← _extract_relevant_links self soup url;
  metadata ← _extract_metadata self soup;
  mret {| url := url; title := title; description := description;
          main_content := main_content; headings := headings;
          code_blocks := code_blocks; links := links; metadata := metadata |}.

(** The record of the [except] branch. *)
Definition error_record (url : string) : Processed :=
  {| url := url;
     title := "Error Processing Content";
     description := "Failed to process content";
     main_content := "";
     headings := [];
     code_blocks := [];
     links := [];
     metadata := [] |}.

Definition process_content (E : Env) (self : Self) (html_content url : string)
  : Processed :=
  try_except (process_body E self html_content url) (error_record url).

End ContentProcessor.

(** ** [src/core/generator.py] *)

Module Generator.

Import Bs4.

(** One entry of [category_rules]: [rules.get("url_patterns", [])] and
    [rules.get("title_patterns", [])]. *)
Record Rules := {
  url_patterns : list string;
  title_patterns : list string;
}.

(** The configuration dictionary.  A key read with [config.get(key,
    default)] whose default is empty is a plain field, empty when the key
    is absent; [max_pages] and [output_dir] keep their defaults apart.
    [category_rules] is a dictionary in insertion order. *)
Record Config := {
  name : string;
  description : string;
  additional_info : string;
  urls : list string;
  max_pages : option Z;
  include_patterns : list string;
  exclude_patterns : list string;
  category_rules : list (string * Rules);
  output_dir : option string;
}.

(** An entry of the list [discover_pages] returns. *)
Record Discovered := {
  d_url : string;
  d_source : string;
}.

(** A Page Record: an entry of [pages_data]. *)
Record Page := {
  url : string;
  title : string;
  p_description : string;
  content : string;
  category : string;
  source : string;
}.

Inductive FileContent :=
| Text (s : string)
(** [json.dump(pages_data, f, indent=2, ensure_ascii=False)] *)
| Json (pages : list Page).

(** The generator object ([self.config], [self.pages_data]) and the
    content of the files on disk. *)
Record State := {
  config : Config;
  pages_data : list Page;
  files : gmap Pathlib.File FileContent;
}.

Definition set_pages_data (st : State) (pages : list Page) : State :=
  {| config := config st; pages_data := pages; files := files st |}.

(** [with open(path, "w") as f: f.write(text)], [path] being the file
    that [open] resolves its argument to. *)
Definition write_file (st : State) (path : Pathlib.File) (c : FileContent) : State :=
  {| config := config st; pages_data := pages_data st;
     files := <[path := c]> (files st) |}.

Definition skip_patterns : list string :=
  ["#"; "javascript:"; "mailto:"; "tel:"; "ftp://";
   ".pdf"; ".jpg"; ".jpeg"; ".png"; ".gif"; ".svg";
   ".css"; ".js"; ".xml"; ".zip"; ".tar"; ".gz"].

Definition _is_valid_url (E : Env) (cfg : Config) (url base_url : string) : bool :=
  try_except
    (parsed_url ← urlparse E url;
     parsed_base ← urlparse E base_url;
     if negb (existsb (String.eqb (Urllib.scheme parsed_url)) ["http"; "https"])
     then mret false
     else if negb (String.eqb (Urllib.netloc parsed_url) (Urllib.netloc parsed_base))
     then mret false
     else if Py.any_in skip_patterns (Py.lower url)
     then mret false
     else if Py.any_in (exclude_patterns cfg) url
     then mret false
     else match include_patterns cfg with
          | [] => mret true
          | _ :: _ => mret (Py.any_in (include_patterns cfg) url)
          end)
    false.

Definition get_page_content (E : Env) (url : string) : string :=
  try_except
    (response ← Http.responded (session_get E url 30);
     _ ← Http.raise_for_status response;
     mret (Http.text response))
    "".

(** The loop over the links of [_simple_link_discovery]; an exception
    raised by [urljoin] leaves the [try] with the list as it stands. *)
Fixpoint link_loop (E : Env) (cfg : Config) (base_url : string) (max_pages : Z)
    (hrefs : list string) (discovered_urls : list string) : list string :=
  match hrefs with
  | [] => discovered_urls
  | href :: hrefs' =>
      if (max_pages <=? Z.of_nat (length discovered_urls))%Z then discovered_urls
      else
        match urljoin E base_url href with
        | Raise => discovered_urls
        | Ok full_url =>
            link_loop E cfg base_url max_pages hrefs'
              (if _is_valid_url E cfg full_url base_url
               then discovered_urls ++ [full_url]
               else discovered_urls)
        end
  end.

Definition _simple_link_discovery (E : Env) (cfg : Config)
    (base_url : string) (max_pages : Z) : list string :=
  let html_content := get_page_content E base_url in
  let discovered_urls :=
    if Py.truthy html_content then
      match html_parser E html_content with
      | Ok soup => link_loop E cfg base_url max_pages (hrefs soup) []
      | Raise => []
      end
    else [] in
  match discovered_urls with
  | [] => [base_url]
  | _ :: _ => discovered_urls
  end.

(** The inner loop of [discover_pages]. *)
Fixpoint add_discovered (max_pages : Z) (discovered_urls : list string)
    (discovered_pages : list Discovered) : list Discovered :=
  match discovered_urls with
  | [] => discovered_pages
  | url :: rest =>
      if (max_pages <=? Z.of_nat (length discovered_pages))%Z then discovered_pages
      else
        add_discovered max_pages rest
          (if existsb (String.eqb url) (map d_url discovered_pages)
           then discovered_pages
           else discovered_pages ++
                  [{| d_url := url; d_source := "link_discovery" |}])
  end.

Definition discover_pages (E : Env) (cfg : Config) : list Discovered :=
  let max_pages := default 100%Z (max_pages cfg) in
  foldl
    (fun discovered_pages base_url =>
       let discovered_urls := _simple_link_discovery E cfg base_url max_pages in
       let discovered_urls :=
         if existsb (String.eqb base_url) discovered_urls then discovered_urls
         else base_url :: discovered_urls in
       add_discovered max_pages discovered_urls discovered_pages)
    [] (urls cfg).

(** The first category one of whose patterns matches, in the order of the
    rules. *)
Fixpoint first_match (rules : list (string * Rules)) (url title : string) : string :=
  match rules with
  | [] => "Other"
  | (category, r) :: rules' =>
      if Py.any_in (url_patterns r) url then category
      else if Py.any_in (title_patterns r) title then category
      else first_match rules' url title
  end.

Definition _categorize_page (E : Env) (cfg : Config)
    (processed : ContentProcessor.Processed) : string :=
  let url := ContentProcessor.url processed in
  let title := str_lower E (ContentProcessor.title processed) in
  first_match (category_rules cfg) url title.

(** The body of the loop of [process_pages]: the pages [page_info] adds
    to [pages_data]. *)
Definition process_page (E : Env) (cp : ContentProcessor.Self) (cfg : Config)
    (page_info : Discovered) : list Page :=
  let url := d_url page_info in
  let html_content := get_page_content E url in
  if Py.truthy html_content then
    let processed := ContentProcessor.process_content E cp html_content url in
    let category := _categorize_page E cfg processed in
    [{| url := url;
        title := ContentProcessor.title processed;
        p_description := ContentProcessor.description processed;
        content := ContentProcessor.main_content processed;
        category := category;
        source := d_source page_info |}]
  else [].

Definition process_pages (E : Env) (cp : ContentProcessor.Self) (st : State)
    (discovered_pages : list Discovered) : State :=
  foldl
    (fun st page_info =>
       set_pages_data st (pages_data st ++ process_page E cp (config st) page_info))
    st discovered_pages.

(** [categories]: the dictionary from a category to its pages, in the
    order of [pages_data]. *)
Definition group_by_category (pages : list Page) : gmap string (list Page) :=
  foldl
    (fun categories page =>
       <[category page := default [] (categories !! category page) ++ [page]]>
         categories)
    ∅ pages.

(** [sorted(categories.keys())] *)
Definition sorted_categories (categories : gmap string (list Page)) : list string :=
  Py.sorted id (elements (dom categories)).

(** [sorted(categories[category], key=lambda x: x["title"])] *)
Definition sorted_pages (categories : gmap string (list Page)) (category : string)
  : list Page :=
  Py.sorted title (default [] (categories !! category)).

(** What the three Markdown writers put first. *)
Definition markdown_header (cfg : Config) : string :=
  "# " +:+ name cfg +:+ Py.nl +:+ Py.nl +:+
  "> " +:+ description cfg +:+ Py.nl +:+ Py.nl +:+
  (if Py.truthy (additional_info cfg)
   then additional_info cfg +:+ Py.nl +:+ Py.nl else "").

Definition h2 (category : string) : string :=
  if String.eqb category "Other" then "## Optional" +:+ Py.nl +:+ Py.nl
  else "## " +:+ category +:+ Py.nl +:+ Py.nl.

(** [- [title](url)] and, when there is a description, [: description]. *)
Definition link_item (page : Page) : string :=
  "- [" +:+ title page +:+ "](" +:+ url page +:+ ")" +:+
  (if Py.truthy (p_description page) then ": " +:+ p_description page else "").

Definition index_item (page : Page) : string := link_item page +:+ Py.nl.

Definition index_section (categories : gmap string (list Page)) (category : string)
  : string :=
  h2 category +:+
  Py.concat (map index_item (sorted_pages categories category)) +:+ Py.nl.

(** The text [generate_llms_txt] writes. *)
Definition llms_txt (cfg : Config) (pages : list Page) : string :=
  let categories := group_by_category pages in
  markdown_header cfg +:+
  Py.concat (map (index_section categories) (sorted_categories categories)).

Definition generate_llms_txt (st : State) (output_file : Pathlib.File) : State :=
  write_file st output_file (Text (llms_txt (config st) (pages_data st))).

Definition full_item (page : Page) : string :=
  link_item page +:+ Py.nl +:+ Py.nl +:+
  content page +:+ Py.nl +:+ Py.nl +:+ "---" +:+ Py.nl +:+ Py.nl.

Definition full_section (categories : gmap string (list Page)) (category : string)
  : string :=
  h2 category +:+
  Py.concat (map full_item (sorted_pages categories category)).

(** The text [generate_llms_full_txt] writes. *)
Definition llms_full_txt (cfg : Config) (pages : list Page) : string :=
  let categories := group_by_category pages in
  markdown_header cfg +:+
  Py.concat (map (full_section categories) (sorted_categories categories)).

Definition generate_llms_full_txt (st : State) (output_file : Pathlib.File)
  : State :=
  write_file st output_file (Text (llms_full_txt (config st) (pages_data st))).

Definition quote : string := String "034" "".

Definition ctx_page (page : Page) : string :=
  "<page title=" +:+ quote +:+ title page +:+ quote +:+
  " url=" +:+ quote +:+ url page +:+ quote +:+ ">" +:+ Py.nl +:+
  "<content>" +:+ content page +:+ "</content>" +:+ Py.nl +:+
  "</page>" +:+ Py.nl.

Definition ctx_section (categories : gmap string (list Page)) (category : string)
  : string :=
  "<section name=" +:+ quote +:+ category +:+ quote +:+ ">" +:+ Py.nl +:+
  Py.concat (map ctx_page (sorted_pages categories category)) +:+
  "</section>" +:+ Py.nl.

(** The categories [_generate_ctx_file] writes a section for. *)
Definition ctx_categories (categories : gmap string (list Page))
    (include_optional : bool) : list string :=
  List.filter
    (fun category => negb (String.eqb category "Other" && negb include_optional))
    (sorted_categories categories).

(** The text [_generate_ctx_file] writes. *)
Definition llms_ctx (cfg : Config) (pages : list Page) (include_optional : bool)
  : string :=
  let categories := group_by_category pages in
  "<project title=" +:+ quote +:+ name cfg +:+ quote +:+
  " summary=" +:+ quote +:+ description cfg +:+ quote +:+ ">" +:+ Py.nl +:+
  Py.concat
    (map (ctx_section categories) (ctx_categories categories include_optional)) +:+
  "</project>".

(** [output_file] is a name here: the method is called with
    ["llms-ctx.txt"] and ["llms-ctx-full.txt"]. *)
Definition _generate_ctx_file (E : Env) (st : State) (output_file : string)
    (include_optional : bool) : State :=
  write_file st (file_at E (Pathlib.Name output_file))
    (Text (llms_ctx (config st) (pages_data st) include_optional)).

Definition generate_llms_ctx_files (E : Env) (st : State) : State :=
  let st := _generate_ctx_file E st "llms-ctx.txt" false in
  _generate_ctx_file E st "llms-ctx-full.txt" true.

Definition save_data (st : State) (output_file : Pathlib.File) : State :=
  write_file st output_file (Json (pages_data st)).

Definition run (E : Env) (cp : ContentProcessor.Self) (st : State) : State :=
  let discovered_pages := discover_pages E (config st) in
  let st := process_pages E cp st discovered_pages in
  let output_dir := default "." (output_dir (config st)) in
  let st := generate_llms_txt st (file_at E (Pathlib.Join output_dir "llms.txt")) in
  let st :=
    generate_llms_full_txt st (file_at E (Pathlib.Join output_dir "llms-full.txt")) in
  save_data st (file_at E (Pathlib.Join output_dir "documentation_data.json")).

End Generator.

(** ** [src/utils/sitemap_extractor.py] *)

Module SitemapExtractor.

Import Bs4.

Definition exclude_patterns : list string :=
  ["#"; "mailto:"; "javascript:"; "tel:"; "ftp:";
   ".pdf"; ".zip"; ".exe"; ".jpg"; ".jpeg"; ".png"; ".gif";
   ".css"; ".js"; ".xml"; ".json"].

Definition _is_valid_url (E : Env) (url base_url : string) : bool :=
  try_except
    (parsed_url ← urlparse E url;
     parsed_base ← urlparse E base_url;
     if negb (existsb (String.eqb (Urllib.scheme parsed_url)) ["http"; "https"])
     then mret false
     else if negb (String.eqb (Urllib.netloc parsed_url) (Urllib.netloc parsed_base))
     then mret false
     else if Py.any_in exclude_patterns (Py.lower url)
     then mret false
     else mret true)
    false.

(** [full_url.startswith(("http://", "https://"))] *)
Definition is_http (full_url : string) : bool :=
  Py.startswith full_url "http://" || Py.startswith full_url "https://".

(** The loop of [_parse_html_sitemap]; an exception leaves the [try] with
    the list as it stands. *)
Fixpoint html_link_loop (E : Env) (sitemap_url : string) (hrefs : list string)
    (urls : list string) : list string :=
  match hrefs with
  | [] => urls
  | href :: hrefs' =>
      match urljoin E sitemap_url href with
      | Raise => urls
      | Ok full_url =>
          html_link_loop E sitemap_url hrefs'
            (if is_http full_url then urls ++ [full_url] else urls)
      end
  end.

Definition _parse_html_sitemap (E : Env) (html_content sitemap_url : string)
  : list string :=
  match html_parser E html_content with
  | Raise => []
  | Ok soup => html_link_loop E sitemap_url (hrefs soup) []
  end.

(** [_parse_xml_sitemap], with [self._extract_urls_from_sitemap_url] as
    the argument [recurse]. *)
Definition _parse_xml_sitemap (E : Env) (recurse : string → list string)
    (xml_content sitemap_url : string) : list string :=
  match xml_fromstring E xml_content with
  | Raise => []
  | Ok root =>
      if Py.str_in "sitemapindex" (Xml.tag root) then
        flat_map
          (fun sub_sitemap_url =>
             if Py.truthy sub_sitemap_url then recurse sub_sitemap_url else [])
          (Xml.sitemap_locs root)
      else List.filter Py.truthy (Xml.url_locs root)
  end.

(** [depth] is the room the interpreter's recursion limit leaves: a
    sitemap index can name itself, and the call that exceeds the limit
    raises [RecursionError], which the [except Exception] around it turns
    into no URLs. *)
Fixpoint _extract_urls_from_sitemap_url (E : Env) (depth : nat)
    (sitemap_url : string) : list string :=
  match depth with
  | O => []
  | S depth' =>
      try_except
        (response ← Http.responded (session_get E sitemap_url 15);
         _ ← Http.raise_for_status response;
         let content_type := Py.lower (Http.content_type response) in
         let xml :=
           _parse_xml_sitemap E (_extract_urls_from_sitemap_url E depth')
             (Http.text response) sitemap_url in
         let html := _parse_html_sitemap E (Http.text response) sitemap_url in
         if Py.str_in "xml" content_type then mret xml
         else if Py.str_in "html" content_type then mret html
         else if Py.startswith (Py.strip (Http.text response)) "<?xml" then mret xml
         else mret html)
        []
  end.

(** The sitemap a line of [robots.txt] names, if it names one. *)
Definition robots_line (line : string) : list string :=
  let line := Py.strip line in
  if Py.startswith (Py.lower line) "sitemap:" then
    let sitemap_url := Py.strip (default "" (Py.after_char ":" line)) in
    if Py.truthy sitemap_url then [sitemap_url] else []
  else [].

(** [urljoin] stands before the [try]: its exception leaves the method. *)
Definition _extract_from_robots_txt (E : Env) (base_url : string)
  : result (list string) :=
  robots_url ← urljoin E base_url "/robots.txt";
  mret
    match session_get E robots_url 10 with
    | Http.Responded response =>
        if (Http.status_code response =? 200)%Z
        then flat_map robots_line (Py.split_char Py.LF (Http.text response))
        else []
    | _ => []
    end.

Definition common_paths : list string :=
  ["/sitemap.xml"; "/sitemap_index.xml"; "/sitemap/sitemap.xml";
   "/sitemaps/sitemap.xml"; "/sitemap1.xml"; "/sitemap_news.xml";
   "/sitemap_products.xml"].

Definition _try_common_sitemap_locations (E : Env) (base_url : string)
  : result (list string) :=
  found ← mapM
    (fun path =>
       sitemap_url ← urljoin E base_url path;
       mret
         match session_head E sitemap_url 5 with
         | Http.Responded response =>
             if (Http.status_code response =? 200)%Z then [sitemap_url] else []
         | _ => []
         end)
    common_paths;
  mret (concat found).

Definition html_sitemap_paths : list string :=
  ["/sitemap"; "/sitemap.html"; "/sitemap.htm"; "/site-map";
   "/site-map.html"; "/links"; "/all-pages"; "/directory"].

Definition _find_html_sitemap (E : Env) (base_url : string)
  : result (list string) :=
  found ← mapM
    (fun path =>
       sitemap_url ← urljoin E base_url path;
       mret
         match session_get E sitemap_url 10 with
         | Http.Responded response =>
             if (Http.status_code response =? 200)%Z
             then _parse_html_sitemap E (Http.text response) sitemap_url
             else []
         | _ => []
         end)
    html_sitemap_paths;
  mret (concat found).

(** [all_urls] of [extract_urls_from_sitemap]: everything collected,
    before the duplicates are removed. *)
Definition collect_urls (E : Env) (depth : nat) (base_url : string)
  : result (list string) :=
  robots_sitemaps ← _extract_from_robots_txt E base_url;
  common_sitemaps ← _try_common_sitemap_locations E base_url;
  let sitemap_urls := robots_sitemaps ++ common_sitemaps in
  let all_urls := flat_map (_extract_urls_from_sitemap_url E depth) sitemap_urls in
  html_sitemap_urls ← _find_html_sitemap E base_url;
  mret (all_urls ++ html_sitemap_urls).

(** [list(set(all_urls))]: the elements of the set, in an order the
    language leaves open. *)
Definition unique (all_urls : list string) : list string :=
  elements (list_to_set all_urls : gset string).

Definition extract_urls_from_sitemap (E : Env) (depth : nat) (base_url : string)
  : result (list string) :=
  all_urls ← collect_urls E depth base_url;
  let unique_urls := unique all_urls in
  mret (List.filter (fun url => _is_valid_url E url base_url) unique_urls).

(** The dictionary [_categorize_urls] returns. *)
Record UrlsByType := {
  documentation : list string;
  api : list string;
  guides : list string;
  tutorials : list string;
  blog : list string;
  other : list string;
}.

Definition no_urls : UrlsByType :=
  {| documentation := []; api := []; guides := []; tutorials := [];
     blog := []; other := [] |}.

(** The body of the loop of [_categorize_urls]. *)
Definition categorize_url (categories : UrlsByType) (url : string) : UrlsByType :=
  let url_lower := Py.lower url in
  if Py.any_in ["/docs/"; "/documentation/"; "/guide/"] url_lower then
    {| documentation := documentation categories ++ [url];
       api := api categories; guides := guides categories;
       tutorials := tutorials categories; blog := blog categories;
       other := other categories |}
  else if Py.any_in ["/api/"; "/reference/"] url_lower then
    {| documentation := documentation categories;
       api := api categories ++ [url]; guides := guides categories;
       tutorials := tutorials categories; blog := blog categories;
       other := other categories |}
  else if Py.any_in ["/guides/"; "/how-to/"] url_lower then
    {| documentation := documentation categories;
       api := api categories; guides := guides categories ++ [url];
       tutorials := tutorials categories; blog := blog categories;
       other := other categories |}
  else if Py.any_in ["/tutorial/"; "/tutorials/"] url_lower then
    {| documentation := documentation categories;
       api := api categories; guides := guides categories;
       tutorials := tutorials categories ++ [url]; blog := blog categories;
       other := other categories |}
  else if Py.any_in ["/blog/"; "/news/"; "/articles/"] url_lower then
    {| documentation := documentation categories;
       api := api categories; guides := guides categories;
       tutorials := tutorials categories; blog := blog categories ++ [url];
       other := other categories |}
  else
    {| documentation := documentation categories;
       api := api categories; guides := guides categories;
       tutorials := tutorials categories; blog := blog categories;
       other := other categories ++ [url] |}.

Definition _categorize_urls (urls : list string) : UrlsByType :=
  foldl categorize_url no_urls urls.

(** The dictionary [extract_sitemap_info] returns. *)
Record SitemapInfo := {
  info_base_url : string;
  info_sitemap_urls : list string;
  info_robots_txt_sitemaps : list string;
  info_html_sitemaps : list string;
  info_total_urls : nat;
  info_urls_by_type : UrlsByType;
}.

Definition info_html_sitemap_paths : list string :=
  ["/sitemap"; "/sitemap.html"; "/site-map"; "/links"; "/all-pages"].

Definition extract_sitemap_info (E : Env) (depth : nat) (base_url : string)
  : result SitemapInfo :=
  robots_sitemaps ← _extract_from_robots_txt E base_url;
  common_sitemaps ← _try_common_sitemap_locations E base_url;
  let sitemap_urls := robots_sitemaps ++ common_sitemaps in
  found ← mapM
    (fun path =>
       sitemap_url ← urljoin E base_url path;
       mret
         match session_head E sitemap_url 5 with
         | Http.Responded response =>
             if (Http.status_code response =? 200)%Z then [sitemap_url] else []
         | _ => []
         end)
    info_html_sitemap_paths;
  let html_sitemaps := concat found in
  let all_urls :=
    flat_map (_extract_urls_from_sitemap_url E depth) sitemap_urls ++
    flat_map (_extract_urls_from_sitemap_url E depth) html_sitemaps in
  let unique_urls := unique all_urls in
  let filtered_urls :=
    List.filter (fun url => _is_valid_url E url base_url) unique_urls in
  mret {| info_base_url := base_url;
          info_sitemap_urls := sitemap_urls;
          info_robots_txt_sitemaps := robots_sitemaps;
          info_html_sitemaps := html_sitemaps;
          info_total_urls := length filtered_urls;
          info_urls_by_type := _categorize_urls filtered_urls |}.

End SitemapExtractor.

(** ** [src/utils/advanced_traversal.py] *)

Module Traverser.

Import Bs4.

(** The dictionary [_fetch_page] returns. *)
Record Fetched := {
  f_url : string;
  f_title : string;
  f_html : string;
  f_content : string;
  f_links : list string;
}.

(** An entry of the list a traversal returns: the fetched page with its
    [depth] and [traversal_mode]. *)
Record PageData := {
  page : Fetched;
  depth : Z;
  traversal_mode : string;
}.

(** The methods [_fetch_page] fills the dictionary with; no claim depends
    on their bodies.  Each may raise. *)
Record Methods := {
  _extract_title : Soup → string → result string;
  _extract_main_content : Soup → result string;
  _extract_all_links : Soup → string → result (list string);
}.

Definition _fetch_page (E : Env) (M : Methods) (url : string) : option Fetched :=
  try_except
    (response ← Http.responded (session_get E url 30);
     if (Http.status_code response =? 200)%Z then
       let html := Http.text response in
       soup ← html_parser E html;
       title ← _extract_title M soup url;
       content ← _extract_main_content M soup;
       links ← _extract_all_links M soup url;
       mret (Some {| f_url := url; f_title := title; f_html := html;
                     f_content := content; f_links := links |})
     else mret None)
    None.

Definition doc_patterns : list string :=
  ["/docs/"; "/documentation/"; "/guide/"; "/tutorial/"; "/api/"; "/reference/"].

Definition _extract_documentation_links (E : Env) (html base_url : string)
  : result (list string) :=
  soup ← html_parser E html;
  full_urls ← mapM (urljoin E base_url) (hrefs soup);
  mret (List.filter (fun full_url => Py.any_in doc_patterns (Py.lower full_url))
          full_urls).

(** The variables of the loop of [_traverse_documentation], and with
    them the list of the URLs requested so far, which the code does not
    keep: it is what the claim about fetching speaks of. *)
Record Loop := {
  pages : list PageData;
  queue : list (string * Z);
  visited_urls : gset string;
  requested : list string;
}.

(** [for link in doc_links[:10]: if link not in self.visited_urls:
    queue.append((link, depth + 1))] *)
Definition enqueue (visited : gset string) (depth : Z) (doc_links : list string)
    (queue : list (string * Z)) : list (string * Z) :=
  queue ++
  map (fun link => (link, (depth + 1)%Z))
    (List.filter (fun link => bool_decide (link ∉ visited)) (take 10 doc_links)).

(** One turn of the loop, [(url, depth)] being the pair popped from the
    queue, which [st] no longer holds. *)
Definition turn (E : Env) (M : Methods) (max_depth : Z) (url : string) (depth : Z)
    (st : Loop) : Loop :=
  if (max_depth <? depth)%Z || bool_decide (url ∈ visited_urls st) then st
  else
    let visited := {[url]} ∪ visited_urls st in
    match _fetch_page E M url with
    | Some page_data =>
        {| pages := pages st ++
                      [{| page := page_data; depth := depth;
                          traversal_mode := "documentation" |}];
           queue :=
             if (depth <? max_depth)%Z then
               match _extract_documentation_links E (f_html page_data) url with
               | Ok doc_links => enqueue visited depth doc_links (queue st)
               | Raise => queue st
               end
             else queue st;
           visited_urls := visited;
           requested := requested st ++ [url] |}
    | None =>
        {| pages := pages st; queue := queue st; visited_urls := visited;
           requested := requested st ++ [url] |}
    end.

(** [while queue and len(pages) < max_pages], [fuel] bounding the number
    of turns: [None] when it runs out. *)
Fixpoint loop (E : Env) (M : Methods) (max_pages max_depth : Z) (fuel : nat)
    (st : Loop) : option Loop :=
  match queue st with
  | [] => Some st
  | (url, depth) :: queue' =>
      if (Z.of_nat (length (pages st)) <? max_pages)%Z then
        match fuel with
        | O => None
        | S fuel' =>
            loop E M max_pages max_depth fuel'
              (turn E M max_depth url depth
                 {| pages := pages st; queue := queue';
                    visited_urls := visited_urls st;
                    requested := requested st |})
        end
      else Some st
  end.

(** Turns enough for any run: a turn that adds a page adds at most ten
    pairs to the queue, and every other turn shortens it. *)
Definition enough_fuel (max_pages : Z) : nat := S (10 * Z.to_nat max_pages).

(** [visited] is [self.visited_urls] when the method is called; the
    result is the loop at its end: the pages returned, the set as the
    call leaves it, and the requests made. *)
Definition _traverse_documentation (E : Env) (M : Methods) (visited : gset string)
    (docs_url : string) (max_pages max_depth : Z) : option Loop :=
  loop E M max_pages max_depth (enough_fuel max_pages)
    {| pages := []; queue := [(docs_url, 0%Z)]; visited_urls := visited;
       requested := [] |}.

End Traverser.

(** ** [src/utils/content_processor.py]: cleaners and extraction methods

    The methods of [ContentProcessor] that read or rewrite the parse tree
    by tag name and attribute.  The cleaners that select by CSS class
    ([_remove_boilerplate], [_extract_main_content]) are not modelled. *)

Module ContentMethods.

Import Bs4.

Definition _remove_scripts_and_styles (soup : Soup) (url : string) : Soup :=
  decompose_all ["script"; "style"; "noscript"] soup.

Definition _remove_navigation_elements (soup : Soup) (url : string) : Soup :=
  decompose_all ["nav"; "header"; "footer"; "aside"; "menu"] soup.

(** [soup.find("meta", attrs={key: value})] with a non-empty [content],
    stripped. *)
Definition meta_content (soup : Soup) (key value : string) : option string :=
  meta ← find_attrs soup "meta" key value;
  content ← get meta "content";
  if Py.truthy content then Some (Py.strip content) else None.

(** [len(text) > 50 and len(text) < 300] *)
Definition fits_description (text : string) : bool :=
  (50 <? Py.len text)%nat && (Py.len text <? 300)%nat.

Definition _extract_description (soup : Soup) : string :=
  match meta_content soup "name" "description" with
  | Some description => description
  | None =>
      match meta_content soup "property" "og:description" with
      | Some description => description
      | None =>
          default ""
            (List.find fits_description
               (map (fun p => Py.strip (get_text p)) (find_all soup "p")))
      end
  end.

Definition heading_names : list string := ["h1"; "h2"; "h3"; "h4"; "h5"; "h6"].

(** [int(tag.name[1])] for a tag whose name is a letter and a digit. *)
Definition level_of (name : string) : Z :=
  match name with
  | String _ (String digit _) => Z.of_nat (Py.code digit - 48)
  | _ => 0
  end.

Definition tag_name (n : Node) : string :=
  match n with
  | NavigableString _ => ""
  | Tag name _ _ => name
  end.

(** The body of the loop of [_extract_headings]. *)
Definition heading_of (tag : Node) : list ContentProcessor.Heading :=
  let level := level_of (tag_name tag) in
  let text := Py.strip (get_text tag) in
  if Py.truthy text then
    [{| ContentProcessor.h_level := level; ContentProcessor.h_text := text;
        ContentProcessor.h_id := default "" (get tag "id") |}]
  else [].

Definition _extract_headings (soup : Soup) : list ContentProcessor.Heading :=
  flat_map heading_of (find_all_names soup heading_names).

End ContentMethods.

(** ** [server.py] and [generate_llms_txt.py]: the normalisation of the URL *)

Module Server.

(** The file system, as the normalisation reads it: [os.path.exists] and
    [os.path.abspath]. *)
Record Os := {
  path_exists : string → bool;
  abspath : string → string;
}.

(** [url.startswith(('http://', 'https://', 'file://'))] *)
Definition has_scheme (url : string) : bool :=
  Py.startswith url "http://" || Py.startswith url "https://" ||
  Py.startswith url "file://".

(** [url[1:]] *)
Definition tail (url : string) : string :=
  match url with
  | EmptyString => EmptyString
  | String _ rest => rest
  end.

(** The lines under "Normalize URL" of [handle_call_tool] and of [main]. *)
Definition normalize_url (os : Os) (url : string) : string :=
  let url := if Py.startswith url "@" then tail url else url in
  if negb (has_scheme url) then
    if path_exists os url then "file://" +:+ abspath os url
    else "https://" +:+ url
  else url.

End Server.

(** ** The properties the specification states, in its own words *)

Module Spec.

(** The rules of the URL validator (4.1): scheme, host, denylist,
    exclude patterns, include patterns. *)
Definition in_scope (E : Env) (cfg : Generator.Config) (url base_url : string)
  : Prop :=
  ∃ parsed_url parsed_base,
    urlparse E url = Ok parsed_url ∧
    urlparse E base_url = Ok parsed_base ∧
    (Urllib.scheme parsed_url = "http" ∨ Urllib.scheme parsed_url = "https") ∧
    Urllib.netloc parsed_url = Urllib.netloc parsed_base ∧
    (∀ marker, marker ∈ Generator.skip_patterns →
       ¬ Py.occurs_in marker (Py.lower url)) ∧
    (∀ pattern, pattern ∈ Generator.exclude_patterns cfg →
       ¬ Py.occurs_in pattern url) ∧
    (Generator.include_patterns cfg = [] ∨
     ∃ pattern, pattern ∈ Generator.include_patterns cfg ∧
       Py.occurs_in pattern url).

(** A rule of the categorizer (4.4) matches a page: one of its URL
    patterns occurs in the URL, or one of its title patterns occurs in
    the lower-cased title. *)
Definition rule_matches (E : Env) (r : Generator.Rules) (url title : string)
  : Prop :=
  (∃ pattern, pattern ∈ Generator.url_patterns r ∧ Py.occurs_in pattern url) ∨
  (∃ pattern, pattern ∈ Generator.title_patterns r ∧
     Py.occurs_in pattern (str_lower E title)).

(** [str.lower] returns no letter from A to Z: it maps each of them to
    its lower-case letter, and no other character to one of them. *)
Definition lower_has_no_ascii_upper (E : Env) : Prop :=
  ∀ s, Py.all_chars (fun c => negb (Py.is_upper c)) (str_lower E s) = true.

(** The rules without the title patterns that hold a letter from A to Z. *)
Definition without_upper_title_patterns (rules : list (string * Generator.Rules))
  : list (string * Generator.Rules) :=
  map
    (fun cr =>
       (fst cr,
        {| Generator.url_patterns := Generator.url_patterns (snd cr);
           Generator.title_patterns :=
             List.filter (fun pattern => negb (Py.has_ascii_upper pattern))
               (Generator.title_patterns (snd cr)) |}))
    rules.

(** The filter of the sitemap resolver (4.5): scheme, host, and the
    markers of the resolver's own list; no include or exclude pattern. *)
Definition sitemap_in_scope (E : Env) (url base_url : string) : Prop :=
  ∃ parsed_url parsed_base,
    urlparse E url = Ok parsed_url ∧
    urlparse E base_url = Ok parsed_base ∧
    (Urllib.scheme parsed_url = "http" ∨ Urllib.scheme parsed_url = "https") ∧
    Urllib.netloc parsed_url = Urllib.netloc parsed_base ∧
    (∀ marker, marker ∈ SitemapExtractor.exclude_patterns →
       ¬ Py.occurs_in marker (Py.lower url)).

(** What holds of the loop of a traversal at every turn (4.6), [visited]
    being the visited set the traversal started with: the pages are within
    the maximum, no URL was requested twice, every requested URL is marked
    visited and was not visited before, and every page came from a
    request. *)
Definition traversal_invariant (max_pages : Z) (visited : gset string)
    (st : Traverser.Loop) : Prop :=
  (Z.of_nat (length (Traverser.pages st)) ≤ Z.max 0 max_pages)%Z ∧
  NoDup (Traverser.requested st) ∧
  (∀ url, url ∈ Traverser.requested st →
          url ∈ Traverser.visited_urls st ∧ url ∉ visited) ∧
  visited ⊆ Traverser.visited_urls st ∧
  (∀ p, p ∈ Traverser.pages st →
        Traverser.f_url (Traverser.page p) ∈ Traverser.requested st).

(** The turns the loop of a traversal can still take. *)
Definition turns_left (max_pages : Z) (st : Traverser.Loop) : nat :=
  length (Traverser.queue st) +
  10 * Z.to_nat (max_pages - Z.of_nat (length (Traverser.pages st))).

(** What a docs-mode traversal from [docs_url] keeps true of its loop:
    a queued URL is the seed or holds a documentation pattern, and so does
    every requested URL; queued depths are not negative, and the depth of
    a page is between 0 and the maximal depth. *)
Definition documentation_url (docs_url url : string) : Prop :=
  url = docs_url ∨ Py.any_in Traverser.doc_patterns (Py.lower url) = true.

Definition docs_invariant (docs_url : string) (max_depth : Z)
    (st : Traverser.Loop) : Prop :=
  (∀ url depth, (url, depth) ∈ Traverser.queue st →
                documentation_url docs_url url ∧ (0 ≤ depth)%Z) ∧
  (∀ url, url ∈ Traverser.requested st → documentation_url docs_url url) ∧
  (∀ p, p ∈ Traverser.pages st →
        (0 ≤ Traverser.depth p ≤ max_depth)%Z ∧
        Traverser.traversal_mode p = "documentation").

(** The key of the list [_categorize_urls] puts a URL in: the first of
    the six whose patterns occur in the lower-cased URL. *)
Definition url_type (url : string) : string :=
  let url_lower := Py.lower url in
  if Py.any_in ["/docs/"; "/documentation/"; "/guide/"] url_lower then "documentation"
  else if Py.any_in ["/api/"; "/reference/"] url_lower then "api"
  else if Py.any_in ["/guides/"; "/how-to/"] url_lower then "guides"
  else if Py.any_in ["/tutorial/"; "/tutorials/"] url_lower then "tutorials"
  else if Py.any_in ["/blog/"; "/news/"; "/articles/"] url_lower then "blog"
  else "other".

End Spec.

(** ** Scenarios: the concrete inputs of the examples *)

Module Scenarios.

(** A document a site serves: its URL, the response to a request for it,
    and what the parsers make of the text of that response. *)
Record Document := {
  doc_url : string;
  doc_response : Http.Response;
  doc_soup : Bs4.Soup;
  doc_xml : result Xml.Root;
}.

Definition not_found : Http.Response :=
  {| Http.status_code := 404; Http.content_type := "text/html";
     Http.text := "Not Found" |}.

Definition serve (docs : list Document) (url : string) : Http.Outcome :=
  match List.find (fun d => String.eqb (doc_url d) url) docs with
  | Some d => Http.Responded (doc_response d)
  | None => Http.Responded not_found
  end.

Definition parsed_as {A : Type} (docs : list Document) (parse : Document → A)
    (text : string) : option A :=
  parse <$> List.find (fun d => String.eqb (Http.text (doc_response d)) text) docs.

(** The environment of a site: requests are answered from its documents
    and by 404 elsewhere, and the parsers know its texts.  The texts of
    the scenarios hold no letter outside ASCII that has another case, so
    on them [str.lower] and [str.title] are [Py.lower] and [Py.title]; the
    disk has no links, and the paths are POSIX paths. *)
Definition site (docs : list Document) : Env :=
  {| str_lower := Py.lower;
     str_title := Py.title;
     file_at := Pathlib.posix;
     urlparse := Urllib.urlparse;
     urljoin := Urllib.urljoin;
     session_get := fun url _ => serve docs url;
     session_head := fun url _ => serve docs url;
     html_parser := fun html =>
       Ok (default [Bs4.NavigableString html] (parsed_as docs doc_soup html));
     xml_fromstring := fun xml => default Raise (parsed_as docs doc_xml xml) |}.

(** The environment in which no host can be reached. *)
Definition offline : Env :=
  {| str_lower := Py.lower;
     str_title := Py.title;
     file_at := Pathlib.posix;
     urlparse := Urllib.urlparse;
     urljoin := Urllib.urljoin;
     session_get := fun _ _ => Http.ConnectionError;
     session_head := fun _ _ => Http.ConnectionError;
     html_parser := fun html => Ok [Bs4.NavigableString html];
     xml_fromstring := fun _ => Raise |}.

(** A configuration with the defaults of [create_default_config]. *)
Definition default_config : Generator.Config :=
  {| Generator.name := "Website Documentation";
     Generator.description := "Documentation generated from website";
     Generator.additional_info := "";
     Generator.urls := ["https://example.com"];
     Generator.max_pages := Some 100%Z;
     Generator.include_patterns := [];
     Generator.exclude_patterns := [];
     Generator.category_rules := [];
     Generator.output_dir := Some "./output" |}.

(** A content processor without cleaners, whose extraction methods find
    nothing but the text of the document. *)
Definition plain_processor : ContentProcessor.Self :=
  {| ContentProcessor.html_cleaners := [];
     ContentProcessor._extract_description := fun _ => Ok "";
     ContentProcessor._extract_main_content_text := fun soup =>
       Ok (Py.concat (map Bs4.get_text soup));
     ContentProcessor._extract_headings := fun _ => Ok [];
     ContentProcessor._extract_code_blocks := fun _ => Ok [];
     ContentProcessor._extract_relevant_links := fun _ _ => Ok [];
     ContentProcessor._extract_metadata := fun _ => Ok [] |}.

(** A generator as its constructor leaves it, and an empty disk. *)
Definition fresh (cfg : Generator.Config) : Generator.State :=
  {| Generator.config := cfg; Generator.pages_data := []; Generator.files := ∅ |}.

(** A page answered with status 300 (Multiple Choices), which [requests]
    neither follows nor reports as an error, and a body. *)
Definition choices_url : string := "https://example.com/choices".

Definition choices_html : string :=
  "<html><body><p>Choose a version</p></body></html>".

Definition choices : Document :=
  {| doc_url := choices_url;
     doc_response :=
       {| Http.status_code := 300; Http.content_type := "text/html";
          Http.text := choices_html |};
     doc_soup :=
       [Bs4.Tag "html" []
          [Bs4.Tag "body" []
             [Bs4.Tag "p" [] [Bs4.NavigableString "Choose a version"]]]];
     doc_xml := Raise |}.

(** A page answered with status 200 and an empty body. *)
Definition blank_url : string := "https://example.com/blank".

Definition blank : Document :=
  {| doc_url := blank_url;
     doc_response :=
       {| Http.status_code := 200; Http.content_type := "text/html";
          Http.text := "" |};
     doc_soup := [];
     doc_xml := Raise |}.

(** The site of the end-to-end scenario of the specification: a seed page
    with two links, one under /api/ and one under /guide/. *)
Definition html_page (title : string) (body : list Bs4.Node) : Bs4.Soup :=
  [Bs4.Tag "html" []
     [Bs4.Tag "head" [] [Bs4.Tag "title" [] [Bs4.NavigableString title]];
      Bs4.Tag "body" [] body]].

Definition ok_html (text : string) : Http.Response :=
  {| Http.status_code := 200; Http.content_type := "text/html";
     Http.text := text |}.

Definition docs_home : Document :=
  {| doc_url := "https://docs.example.com";
     doc_response := ok_html "<html>Example Docs: Foo API, Bar Guide</html>";
     doc_soup :=
       html_page "Example Docs"
         [Bs4.Tag "a" [("href", "/api/foo")] [Bs4.NavigableString "Foo API"];
          Bs4.Tag "a" [("href", "/guide/bar")] [Bs4.NavigableString "Bar Guide"]];
     doc_xml := Raise |}.

Definition docs_foo : Document :=
  {| doc_url := "https://docs.example.com/api/foo";
     doc_response := ok_html "<html>Foo API</html>";
     doc_soup := html_page "Foo API" [Bs4.NavigableString "foo"];
     doc_xml := Raise |}.

Definition docs_bar : Document :=
  {| doc_url := "https://docs.example.com/guide/bar";
     doc_response := ok_html "<html>Bar Guide</html>";
     doc_soup := html_page "Bar Guide" [Bs4.NavigableString "bar"];
     doc_xml := Raise |}.

Definition docs_site : Env := site [docs_home; docs_foo; docs_bar].

Definition docs_config : Generator.Config :=
  {| Generator.name := "Example Docs";
     Generator.description := "The documentation of Example";
     Generator.additional_info := "";
     Generator.urls := ["https://docs.example.com"];
     Generator.max_pages := Some 3%Z;
     Generator.include_patterns := [];
     Generator.exclude_patterns := [];
     Generator.category_rules :=
       [("API", {| Generator.url_patterns := ["/api/"];
                   Generator.title_patterns := [] |});
        ("Guides", {| Generator.url_patterns := ["/guide/"];
                      Generator.title_patterns := [] |})];
     Generator.output_dir := Some "out" |}.

(** The run of the scenario. *)
Definition docs_run : Generator.State :=
  Generator.run docs_site plain_processor (fresh docs_config).



(** A site whose sitemap lists an image and a page. *)
Definition urlset_tag : string :=
  "{http://www.sitemaps.org/schemas/sitemap/0.9}urlset".


Definition ok_xml (text : string) : Http.Response :=
  {| Http.status_code := 200; Http.content_type := "application/xml";
     Http.text := text |}.

Definition sitemap_document (url text : string) (root : Xml.Root) : Document :=
  {| doc_url := url; doc_response := ok_xml text; doc_soup := [];
     doc_xml := Ok root |}.

Definition assets_site : Env :=
  site
    [sitemap_document "https://example.com/sitemap.xml"
       "<urlset><url><loc>logo.svg</loc></url><url><loc>docs/intro</loc></url></urlset>"
       {| Xml.tag := urlset_tag;
          Xml.sitemap_locs := [];
          Xml.url_locs := ["https://example.com/logo.svg";
                           "https://example.com/docs/intro"] |}].


(** Methods of the traverser that read the title, the text and the links
    off the parse tree. *)
Definition plain_methods : Traverser.Methods :=
  {| Traverser._extract_title := fun soup _ =>
       Ok (Py.concat (map Bs4.get_text (Bs4.find_all soup "title")));
     Traverser._extract_main_content := fun soup =>
       Ok (Py.concat (map Bs4.get_text soup));
     Traverser._extract_all_links := fun soup _ => Ok (Bs4.hrefs soup) |}.

(** A documentation portal: a seed page with twelve links under /docs/,
    each to a page without links. *)
Definition portal_topics : list string :=
  ["a"; "b"; "c"; "d"; "e"; "f"; "g"; "h"; "i"; "j"; "k"; "l"].

Definition portal_seed : string := "https://example.com/docs/".

Definition portal_home : Document :=
  {| doc_url := portal_seed;
     doc_response := ok_html "<html>Portal</html>";
     doc_soup :=
       html_page "Portal"
         (map (fun topic =>
                 Bs4.Tag "a" [("href", "/docs/" +:+ topic)]
                   [Bs4.NavigableString topic])
            portal_topics);
     doc_xml := Raise |}.

Definition portal_leaf (topic : string) : Document :=
  {| doc_url := "https://example.com/docs/" +:+ topic;
     doc_response := ok_html ("<html>Topic " +:+ topic +:+ "</html>");
     doc_soup := html_page ("Topic " +:+ topic) [Bs4.NavigableString topic];
     doc_xml := Raise |}.

Definition portal : Env := site (portal_home :: map portal_leaf portal_topics).

(** The rules and the page of the category-precedence example. *)
Definition api_config : Generator.Config :=
  {| Generator.name := "Website Documentation";
     Generator.description := "Documentation generated from website";
     Generator.additional_info := "";
     Generator.urls := ["https://example.com"];
     Generator.max_pages := Some 100%Z;
     Generator.include_patterns := [];
     Generator.exclude_patterns := [];
     Generator.category_rules :=
       [("API", {| Generator.url_patterns := ["/api/"];
                   Generator.title_patterns := [] |})];
     Generator.output_dir := Some "./output" |}.

Definition api_guide : ContentProcessor.Processed :=
  {| ContentProcessor.url := "https://example.com/api/ref";
     ContentProcessor.title := "Guide";
     ContentProcessor.description := "";
     ContentProcessor.main_content := "";
     ContentProcessor.headings := [];
     ContentProcessor.code_blocks := [];
     ContentProcessor.links := [];
     ContentProcessor.metadata := [] |}.

(** The site of the end-to-end scenario behind a parser that gives up on
    every text. *)
Definition unparsable : Env :=
  {| str_lower := Py.lower;
     str_title := Py.title;
     file_at := Pathlib.posix;
     urlparse := Urllib.urlparse;
     urljoin := Urllib.urljoin;
     session_get := session_get docs_site;
     session_head := session_head docs_site;
     html_parser := fun _ => Raise;
     xml_fromstring := fun _ => Raise |}.

(** A batch whose second URL the site does not serve. *)
Definition discovered (url : string) : Generator.Discovered :=
  {| Generator.d_url := url; Generator.d_source := "link_discovery" |}.

Definition missing_page : Generator.Discovered :=
  discovered "https://docs.example.com/missing".

(** A rule whose title pattern is an upper-case character without a
    lower-case form, and a page whose title holds that character. *)
Definition fields_config : Generator.Config :=
  {| Generator.name := "Website Documentation";
     Generator.description := "Documentation generated from website";
     Generator.additional_info := "";
     Generator.urls := ["https://example.com"];
     Generator.max_pages := Some 100%Z;
     Generator.include_patterns := [];
     Generator.exclude_patterns := [];
     Generator.category_rules :=
       [("Fields", {| Generator.url_patterns := [];
                      Generator.title_patterns := ["ℂ"] |})];
     Generator.output_dir := Some "./output" |}.

Definition field_page : ContentProcessor.Processed :=
  {| ContentProcessor.url := "https://example.com/complex";
     ContentProcessor.title := "The field ℂ";
     ContentProcessor.description := "";
     ContentProcessor.main_content := "";
     ContentProcessor.headings := [];
     ContentProcessor.code_blocks := [];
     ContentProcessor.links := [];
     ContentProcessor.metadata := [] |}.

(** Rules whose first one has an empty URL pattern. *)
Definition catch_all_config : Generator.Config :=
  {| Generator.name := "Website Documentation";
     Generator.description := "Documentation generated from website";
     Generator.additional_info := "";
     Generator.urls := ["https://example.com"];
     Generator.max_pages := Some 100%Z;
     Generator.include_patterns := [];
     Generator.exclude_patterns := [];
     Generator.category_rules :=
       [("Everything", {| Generator.url_patterns := [""];
                          Generator.title_patterns := [] |});
        ("API", {| Generator.url_patterns := ["/api/"];
                   Generator.title_patterns := [] |})];
     Generator.output_dir := Some "./output" |}.

End Scenarios.

(* ===================================================================== *)
(** * Part II: lemmas and theorems                                        *)
(* ===================================================================== *)

(** ** Strings *)

Section Strings.

Lemma append_nil_l (s : string) : "" +:+ s = s.
Proof. reflexivity. Qed.

Lemma append_cons (c : ascii) (s t : string) :
  String c s +:+ t = String c (s +:+ t).
Proof. reflexivity. Qed.

Lemma append_assoc (a b c : string) : (a +:+ b) +:+ c = a +:+ (b +:+ c).
Proof.
  induction a as [|ch a IH]; [done|]. rewrite !append_cons. by rewrite IH.
Qed.

Lemma occurs_in_trans (a b c : string) :
  Py.occurs_in a b → Py.occurs_in b c → Py.occurs_in a c.
Proof.
  intros (x & y & ->) (u & v & ->). exists (u +:+ x), (y +:+ v).
  by rewrite !append_assoc.
Qed.

Lemma prefix_app (p s : string) :
  String.prefix p s = true ↔ ∃ b, s = p +:+ b.
Proof.
  revert s. induction p as [|c p IH]; intros s; simpl.
  - split; [intros _; by exists s | by destruct s].
  - destruct s as [|d s]; simpl.
    + split; [done | by intros [b Hb]].
    + setoid_rewrite append_cons.
      destruct (ascii_dec c d) as [->|Hcd].
      * rewrite IH. split; intros [b Hb]; exists b; congruence.
      * split; [done | intros [b Hb]; congruence].
Qed.

Lemma str_in_cons (pat : string) (c : ascii) (s : string) :
  Py.str_in pat (String c s) = String.prefix pat (String c s) || Py.str_in pat s.
Proof. reflexivity. Qed.

Lemma str_in_occurs (pat s : string) :
  Py.str_in pat s = true ↔ Py.occurs_in pat s.
Proof.
  induction s as [|c s IH].
  - change (Py.str_in pat "") with (String.prefix pat "" || false).
    rewrite orb_false_r, prefix_app. split.
    + intros [b Hb]. by exists "", b.
    + intros (a & b & Hab). destruct a; [|done]. by exists b.
  - rewrite str_in_cons, orb_true_iff, prefix_app, IH. split.
    + intros [[b Hb]|(a & b & Hab)].
      * by exists "", b.
      * exists (String c a), b. by rewrite append_cons, Hab.
    + intros (a & b & Hab). destruct a as [|d a].
      * left. by exists b.
      * right. exists a, b. rewrite append_cons in Hab. congruence.
Qed.

Lemma str_in_not_occurs (pat s : string) :
  Py.str_in pat s = false ↔ ¬ Py.occurs_in pat s.
Proof. rewrite <- str_in_occurs. by destruct (Py.str_in pat s). Qed.

Lemma any_in_true (pats : list string) (s : string) :
  Py.any_in pats s = true ↔ ∃ p, p ∈ pats ∧ Py.occurs_in p s.
Proof.
  unfold Py.any_in. rewrite existsb_exists. split.
  - intros (p & Hp & Hin). exists p. by rewrite list_elem_of_In, <- str_in_occurs.
  - intros (p & Hp & Hin). exists p. by rewrite <- list_elem_of_In, str_in_occurs.
Qed.

Lemma any_in_false (pats : list string) (s : string) :
  Py.any_in pats s = false ↔ ∀ p, p ∈ pats → ¬ Py.occurs_in p s.
Proof.
  destruct (Py.any_in pats s) eqn:Hany.
  - apply any_in_true in Hany as (p & Hp & Hin). split; [done|].
    intros H. by destruct (H p Hp).
  - split; [|done]. intros _ p Hp Hin.
    assert (Py.any_in pats s = true) by (apply any_in_true; eauto). congruence.
Qed.

End Strings.

(** ** The URL validator *)

Section UrlValidator.

Context (E : Env) (cfg : Generator.Config).

Lemma scheme_allowed (scheme : string) :
  existsb (String.eqb scheme) ["http"; "https"] = true ↔
  scheme = "http" ∨ scheme = "https".
Proof.
  simpl. rewrite orb_false_r, orb_true_iff, !String.eqb_eq. done.
Qed.

Lemma is_valid_url_in_scope (url base_url : string) :
  Generator._is_valid_url E cfg url base_url = true ↔
  Spec.in_scope E cfg url base_url.
Proof.
  unfold Generator._is_valid_url, Spec.in_scope.
  destruct (urlparse E url) as [pu|] eqn:Hu; cbn [mbind result_bind try_except];
    [|split; [done | by intros (? & ? & ? & _)]].
  destruct (urlparse E base_url) as [pb|] eqn:Hb; cbn [mbind result_bind try_except];
    [|split; [done | by intros (? & ? & _ & ? & _)]].
  destruct (existsb (String.eqb (Urllib.scheme pu)) _) eqn:Hscheme;
    cbn [negb mret result_ret try_except]; cycle 1.
  { split; [done|]. intros (? & ? & [= <-] & _ & Hs & _).
    apply scheme_allowed in Hs. congruence. }
  apply scheme_allowed in Hscheme.
  destruct (String.eqb_spec (Urllib.netloc pu) (Urllib.netloc pb)) as [Hn|Hn];
    cbn [negb mret result_ret try_except]; cycle 1.
  { split; [done|]. by intros (? & ? & [= <-] & [= <-] & _ & ? & _). }
  destruct (Py.any_in Generator.skip_patterns _) eqn:Hskip;
    cbn [mret result_ret try_except].
  { split; [done|]. intros (? & ? & _ & _ & _ & _ & Hk & _).
    apply any_in_false in Hk. congruence. }
  rewrite any_in_false in Hskip.
  destruct (Py.any_in (Generator.exclude_patterns cfg) url) eqn:Hex;
    cbn [mret result_ret try_except].
  { split; [done|]. intros (? & ? & _ & _ & _ & _ & _ & Hx & _).
    apply any_in_false in Hx. congruence. }
  rewrite any_in_false in Hex.
  destruct (Generator.include_patterns cfg) as [|p ps] eqn:Hinc;
    cbn [mret result_ret try_except].
  { split; [|done]. intros _. exists pu, pb. by eauto 10. }
  rewrite any_in_true. split.
  - intros Hin. exists pu, pb. by eauto 10.
  - by intros (? & ? & _ & _ & _ & _ & _ & _ & [?|?]).
Qed.

End UrlValidator.

(** C2.  The URL validator accepts a candidate exactly when it passes
    every rule of the specification: the candidate and the base URL
    parse, the scheme of the candidate is http or https, its host is the
    host of the base URL, its lower-cased text holds none of the denylist
    markers, no exclude pattern occurs in it, and an include pattern
    occurs in it when any is configured.  A parse failure on either URL
    gives [false]; the function returns a boolean on every input, so no
    exception escapes.  Under [urlparse] of the standard library the
    candidate https://other.example/x is rejected against the base
    https://example.com, whatever the patterns. *)
Theorem C2_url_validator (E : Env) (cfg : Generator.Config) (url base_url : string) :
  (Generator._is_valid_url E cfg url base_url = true ↔
   Spec.in_scope E cfg url base_url) ∧
  (urlparse E url = Raise ∨ urlparse E base_url = Raise →
   Generator._is_valid_url E cfg url base_url = false) ∧
  (urlparse E = Urllib.urlparse →
   Generator._is_valid_url E cfg "https://other.example/x" "https://example.com"
   = false).
Proof.
  split; [apply is_valid_url_in_scope|]. split.
  - intros Hfail. destruct (Generator._is_valid_url E cfg url base_url) eqn:Hv; [|done].
    apply is_valid_url_in_scope in Hv as (pu & pb & Hu & Hb & _).
    destruct Hfail; congruence.
  - intros Hparse. unfold Generator._is_valid_url. rewrite Hparse. reflexivity.
Qed.

(** ** The categorizer *)

Section Categorizer.

Context (E : Env).

Lemma first_match_rule (r : Generator.Rules) (url title : string) :
  Py.any_in (Generator.url_patterns r) url
  || Py.any_in (Generator.title_patterns r) (str_lower E title) = true ↔
  Spec.rule_matches E r url title.
Proof.
  unfold Spec.rule_matches. by rewrite orb_true_iff, !any_in_true.
Qed.

Lemma first_match_cons (category : string) (r : Generator.Rules)
    (rules : list (string * Generator.Rules)) (url title : string) :
  Generator.first_match ((category, r) :: rules) url title =
  if Py.any_in (Generator.url_patterns r) url
     || Py.any_in (Generator.title_patterns r) title
  then category else Generator.first_match rules url title.
Proof.
  simpl. by destruct (Py.any_in (Generator.url_patterns r) url),
    (Py.any_in (Generator.title_patterns r) title).
Qed.

(** The rules before the first matching one are passed over. *)
Lemma first_match_split (before after : list (string * Generator.Rules))
    (category : string) (r : Generator.Rules) (url title : string) :
  (∀ cr, cr ∈ before → ¬ Spec.rule_matches E cr.2 url title) →
  Spec.rule_matches E r url title →
  Generator.first_match (before ++ (category, r) :: after) url (str_lower E title)
  = category.
Proof.
  intros Hbefore Hr. induction before as [|[c0 r0] before IH].
  - rewrite app_nil_l, first_match_cons.
    apply first_match_rule in Hr. by rewrite Hr.
  - rewrite <- app_comm_cons, first_match_cons.
    destruct (_ || _) eqn:H0.
    + apply first_match_rule in H0. destruct (Hbefore (c0, r0)); [left|done].
    + apply IH. intros cr Hcr. apply Hbefore. by right.
Qed.


End Categorizer.


(** ** Lower-casing and the title patterns *)

Section LowerCase.

Lemma lower_char_not_upper (c : ascii) : Py.is_upper (Py.lower_char c) = false.
Proof. by destruct c as [[] [] [] [] [] [] [] []]. Qed.

Lemma all_chars_lower (s : string) :
  Py.all_chars (fun c => negb (Py.is_upper c)) (Py.lower s) = true.
Proof.
  unfold Py.lower. induction s as [|c s IH]; [done|].
  simpl. by rewrite lower_char_not_upper, IH.
Qed.

Lemma all_chars_append (p : ascii → bool) (a b : string) :
  Py.all_chars p (a +:+ b) = Py.all_chars p a && Py.all_chars p b.
Proof.
  induction a as [|c a IH]; [done|].
  rewrite append_cons. simpl. by rewrite IH, andb_assoc.
Qed.

Lemma all_chars_occurs (p : ascii → bool) (pat s : string) :
  Py.occurs_in pat s → Py.all_chars p s = true → Py.all_chars p pat = true.
Proof.
  intros (a & b & ->). rewrite !all_chars_append, !andb_true_iff. tauto.
Qed.

Context (E : Env) (lower_no_upper : Spec.lower_has_no_ascii_upper E).

(** A letter from A to Z keeps a pattern out of every lower-cased text. *)
Lemma upper_never_in_lower (pattern s : string) :
  Py.has_ascii_upper pattern = true → Py.str_in pattern (str_lower E s) = false.
Proof.
  unfold Py.has_ascii_upper. intros Hup. apply str_in_not_occurs. intros Hin.
  apply (all_chars_occurs (fun c => negb (Py.is_upper c))) in Hin;
    [|apply lower_no_upper].
  by rewrite Hin in Hup.
Qed.

Lemma any_in_filter_upper (patterns : list string) (s : string) :
  Py.any_in (List.filter (fun p => negb (Py.has_ascii_upper p)) patterns)
    (str_lower E s)
  = Py.any_in patterns (str_lower E s).
Proof.
  unfold Py.any_in. induction patterns as [|p ps IH]; [done|]. simpl.
  destruct (Py.has_ascii_upper p) eqn:Hp; simpl.
  - by rewrite (upper_never_in_lower _ _ Hp).
  - by rewrite IH.
Qed.

Lemma first_match_without_upper (rules : list (string * Generator.Rules))
    (url title : string) :
  Generator.first_match (Spec.without_upper_title_patterns rules) url
    (str_lower E title)
  = Generator.first_match rules url (str_lower E title).
Proof.
  induction rules as [|[c r] rules IH]; [done|].
  unfold Spec.without_upper_title_patterns in *. rewrite map_cons.
  rewrite !first_match_cons. cbn [fst snd Generator.url_patterns
    Generator.title_patterns]. by rewrite any_in_filter_upper, IH.
Qed.

End LowerCase.

(** C10, as the specification states it, fails on an upper-case character
    that has no lower-case form.  The character ℂ (U+2102, double-struck
    capital C) is upper-case, [str.isupper] holds of it, and [str.lower]
    leaves it as it is: the title "The field ℂ" lower-cases to "the field
    ℂ", in which the title pattern ℂ occurs, so the rule of that pattern
    takes the page. *)
Lemma C10_uppercase_pattern_matches :
  Generator.category_rules Scenarios.fields_config
  = [("Fields", {| Generator.url_patterns := [];
                   Generator.title_patterns := ["ℂ"] |})] ∧
  ContentProcessor.title Scenarios.field_page = "The field ℂ" ∧
  str_lower Scenarios.offline "The field ℂ" = "the field ℂ" ∧
  Generator._categorize_page Scenarios.offline Scenarios.fields_config
    Scenarios.field_page = "Fields".
Proof. by vm_compute. Qed.

(** C10, amended.  The categorizer lower-cases the title with
    [str.lower] and leaves the title patterns as they are configured.  A
    title pattern that holds a character which [str.lower] never returns
    occurs in no lower-cased title; [str.lower] returns no letter from A
    to Z (the hypothesis, a fact of the interpreter), so a title pattern
    with such a letter fails on every page, and the categorizer answers as
    if the pattern were not configured.  URL patterns are tested against
    the URL as it is: a rule whose only pattern is a URL pattern is chosen
    exactly when that pattern occurs in the URL, letter case included, so
    the pattern /API/ does not match https://example.com/api/ref. *)
Theorem C10_title_patterns_case (E : Env) (cfg : Generator.Config)
    (processed : ContentProcessor.Processed) :
  Spec.lower_has_no_ascii_upper E →
  let url := ContentProcessor.url processed in
  let title := str_lower E (ContentProcessor.title processed) in
  (∀ c pattern,
     (∀ s, ¬ Py.occurs_in c (str_lower E s)) →
     Py.occurs_in c pattern → Py.str_in pattern title = false) ∧
  (∀ pattern, Py.has_ascii_upper pattern = true → Py.str_in pattern title = false) ∧
  Generator.first_match
    (Spec.without_upper_title_patterns (Generator.category_rules cfg)) url title
  = Generator._categorize_page E cfg processed ∧
  (∀ category pattern,
     Generator.category_rules cfg =
       [(category, {| Generator.url_patterns := [pattern];
                      Generator.title_patterns := [] |})] →
     category ≠ "Other" →
     (Generator._categorize_page E cfg processed = category ↔
      Py.occurs_in pattern url)) ∧
  (Generator.category_rules cfg =
     [("API", {| Generator.url_patterns := ["/API/"];
                 Generator.title_patterns := [] |})] →
   url = "https://example.com/api/ref" →
   Generator._categorize_page E cfg processed = "Other").
Proof.
  intros Hlower url title. unfold Generator._categorize_page. fold url title.
  split; [|split; [|split; [|split]]].
  - intros c pattern Hnever Hc. apply str_in_not_occurs. intros Hin.
    apply (Hnever (ContentProcessor.title processed)).
    by apply (occurs_in_trans c pattern).
  - intros pattern Hup. by apply upper_never_in_lower.
  - by apply first_match_without_upper.
  - intros category pattern -> Hother. rewrite first_match_cons.
    cbn [Generator.url_patterns Generator.title_patterns Py.any_in existsb].
    rewrite !orb_false_r. destruct (Py.str_in pattern url) eqn:Hin.
    + by rewrite str_in_occurs in Hin.
    + rewrite str_in_not_occurs in Hin. simpl. split; [congruence | done].
  - intros -> Hurl. by rewrite Hurl.
Qed.

(** ** Sorting *)

Section Sorting.

Context {A : Type} (key : A → string).

Local Abbreviation by_key := (Py.by_key key).

Lemma leb_le (s t : string) : String.leb s t = true ↔ String.le s t.
Proof. unfold String.le. by rewrite Is_true_true. Qed.

Lemma leb_false_le (s t : string) : String.leb s t = false → String.le t s.
Proof.
  intros Hst. destruct (total String.le s t) as [Hle|Hle]; [|done].
  apply leb_le in Hle. congruence.
Qed.

Lemma insert_by_perm (x : A) (l : list A) : Py.insert_by key x l ≡ₚ x :: l.
Proof.
  induction l as [|y l IH]; [done|]. simpl.
  destruct (String.leb (key x) (key y)); [done|].
  by rewrite IH, Permutation_swap.
Qed.

Lemma sorted_perm (l : list A) : Py.sorted key l ≡ₚ l.
Proof.
  induction l as [|x l IH]; [done|]. simpl. by rewrite insert_by_perm, IH.
Qed.

Lemma insert_by_sorted (x : A) (l : list A) :
  StronglySorted by_key l → StronglySorted by_key (Py.insert_by key x l).
Proof.
  induction 1 as [|y l Hl IH Hy]; simpl.
  - by repeat constructor.
  - destruct (String.leb (key x) (key y)) eqn:Hxy.
    + apply leb_le in Hxy. constructor; [by constructor|].
      constructor; [done|].
      eapply Forall_impl; [exact Hy|].
      intros z Hz. unfold Py.by_key in *. by etrans.
    + apply leb_false_le in Hxy. constructor; [done|].
      rewrite insert_by_perm. by constructor.
Qed.

Lemma sorted_sorted (l : list A) : StronglySorted by_key (Py.sorted key l).
Proof.
  induction l as [|x l IH]; simpl; [constructor | by apply insert_by_sorted].
Qed.

(** Stability: the elements of one key keep the order they came in. *)
Lemma insert_by_stable (k : string) (x : A) (l : list A) :
  filter (fun y => key y = k) (Py.insert_by key x l)
  = filter (fun y => key y = k) (x :: l).
Proof.
  induction l as [|y l IH]; [done|]. simpl.
  destruct (String.leb (key x) (key y)) eqn:Hxy; [done|].
  rewrite filter_cons, IH, !filter_cons.
  destruct (decide (key y = k)) as [Hy|Hy], (decide (key x = k)) as [Hx|Hx];
    try done.
  assert (String.leb (key x) (key y) = true); [|congruence].
  rewrite Hx, Hy. apply leb_le. done.
Qed.

Lemma sorted_stable (k : string) (l : list A) :
  filter (fun y => key y = k) (Py.sorted key l) = filter (fun y => key y = k) l.
Proof.
  induction l as [|x l IH]; [done|]. simpl.
  by rewrite insert_by_stable, !filter_cons, IH.
Qed.

End Sorting.

(** ** The renderer *)

Section Renderer.

Implicit Types (pages : list Generator.Page) (c : string).

Lemma group_step_lookup pages (acc : gmap string (list Generator.Page)) c :
  foldl
    (fun categories page =>
       <[Generator.category page :=
           default [] (categories !! Generator.category page) ++ [page]]>
         categories)
    acc pages !! c
  = match filter (fun p => Generator.category p = c) pages with
    | [] => acc !! c
    | ps => Some (default [] (acc !! c) ++ ps)
    end.
Proof.
  revert acc. induction pages as [|p pages IH]; intros acc; [done|].
  simpl. rewrite IH, filter_cons.
  destruct (decide (Generator.category p = c)) as [->|Hne].
  - rewrite lookup_insert_eq. simpl.
    destruct (filter _ pages); [done|]. by rewrite <- app_assoc.
  - by rewrite lookup_insert_ne.
Qed.

(** A category of the grouping holds its pages in the order of the
    store. *)
Lemma group_by_category_lookup pages c :
  Generator.group_by_category pages !! c
  = match filter (fun p => Generator.category p = c) pages with
    | [] => None
    | ps => Some ps
    end.
Proof.
  unfold Generator.group_by_category. rewrite group_step_lookup.
  by rewrite lookup_empty.
Qed.

Lemma group_by_category_pages pages c :
  default [] (Generator.group_by_category pages !! c)
  = filter (fun p => Generator.category p = c) pages.
Proof. rewrite group_by_category_lookup. by destruct (filter _ pages). Qed.

Lemma group_by_category_dom pages c :
  c ∈ dom (Generator.group_by_category pages) ↔
  ∃ p, p ∈ pages ∧ Generator.category p = c.
Proof.
  rewrite elem_of_dom, group_by_category_lookup.
  destruct (filter _ pages) as [|p ps] eqn:Hf.
  - split; [by intros [? ?]|]. intros (p & Hp & Hc).
    assert (p ∈ filter (fun p => Generator.category p = c) pages) as Hin
      by (by apply list_elem_of_filter).
    rewrite Hf in Hin. by apply elem_of_nil in Hin.
  - split; [|by eexists]. intros _. exists p.
    assert (p ∈ filter (fun p => Generator.category p = c) pages) as Hin
      by (rewrite Hf; left).
    apply list_elem_of_filter in Hin. tauto.
Qed.

Lemma sorted_categories_spec pages :
  let order := Generator.sorted_categories (Generator.group_by_category pages) in
  StronglySorted String.le order ∧ NoDup order ∧
  ∀ c, c ∈ order ↔ ∃ p, p ∈ pages ∧ Generator.category p = c.
Proof.
  unfold Generator.sorted_categories. split; [|split].
  - apply (sorted_sorted id).
  - rewrite sorted_perm. apply NoDup_elements.
  - intros c. by rewrite sorted_perm, elem_of_elements, group_by_category_dom.
Qed.

Lemma sorted_pages_spec pages c :
  let ps := Generator.sorted_pages (Generator.group_by_category pages) c in
  StronglySorted (Py.by_key Generator.title) ps ∧
  ps ≡ₚ filter (fun p => Generator.category p = c) pages.
Proof.
  unfold Generator.sorted_pages. rewrite group_by_category_pages. split.
  - apply sorted_sorted.
  - apply sorted_perm.
Qed.

Lemma write_file_twice (st : Generator.State) (path : Pathlib.File)
    (content : Generator.FileContent) :
  Generator.write_file (Generator.write_file st path content) path content
  = Generator.write_file st path content.
Proof.
  unfold Generator.write_file. simpl. by rewrite insert_insert_eq.
Qed.

End Renderer.

(** C3.  The index form is the header followed by one section per
    category.  The sections come in lexicographic order of the category
    names, each category of the store once; the items of a section are
    the pages of its category, in lexicographic order of their titles
    (pages of one title in the order of the store); the header of the
    category Other reads Optional.  The text is a function of the
    configuration and the store, and writing it a second time leaves the
    file as the first writing left it. *)
Theorem C3_index_form_order (cfg : Generator.Config) (pages : list Generator.Page) :
  let categories := Generator.group_by_category pages in
  let order := Generator.sorted_categories categories in
  Generator.llms_txt cfg pages
  = Generator.markdown_header cfg +:+
    Py.concat
      (map (fun c =>
              Generator.h2 c +:+
              Py.concat (map Generator.index_item
                           (Generator.sorted_pages categories c)) +:+
              Py.nl)
         order) ∧
  StronglySorted String.le order ∧ NoDup order ∧
  (∀ c, c ∈ order ↔ ∃ p, p ∈ pages ∧ Generator.category p = c) ∧
  (∀ c, StronglySorted (Py.by_key Generator.title)
          (Generator.sorted_pages categories c) ∧
        Generator.sorted_pages categories c
        ≡ₚ filter (fun p => Generator.category p = c) pages ∧
        ∀ t, filter (fun p => Generator.title p = t)
               (Generator.sorted_pages categories c)
             = filter (fun p => Generator.title p = t)
                 (filter (fun p => Generator.category p = c) pages)) ∧
  Generator.h2 "Other" = "## Optional" +:+ Py.nl +:+ Py.nl ∧
  (∀ c, c ≠ "Other" → Generator.h2 c = "## " +:+ c +:+ Py.nl +:+ Py.nl) ∧
  (∀ st path,
     Generator.config st = cfg → Generator.pages_data st = pages →
     Generator.files (Generator.generate_llms_txt st path) !! path
     = Some (Generator.Text (Generator.llms_txt cfg pages)) ∧
     Generator.generate_llms_txt (Generator.generate_llms_txt st path) path
     = Generator.generate_llms_txt st path).
Proof.
  intros categories order.
  destruct (sorted_categories_spec pages) as (Hsorted & Hnodup & Hmem).
  split; [done|]. split; [done|]. split; [done|]. split; [done|].
  split; [|split; [|split]].
  - intros c. destruct (sorted_pages_spec pages c) as [Hs Hp].
    split; [done|]. split; [done|]. intros t.
    unfold Generator.sorted_pages, categories.
    by rewrite group_by_category_pages, sorted_stable.
  - done.
  - intros c Hc. unfold Generator.h2.
    by destruct (String.eqb_spec c "Other").
  - intros st path <- <-. split.
    + unfold Generator.generate_llms_txt, Generator.write_file. simpl.
      by rewrite lookup_insert_eq.
    + unfold Generator.generate_llms_txt. simpl. apply write_file_twice.
Qed.

(** ** The page fetcher and the processing loop *)

Section Processing.

Context (E : Env) (cp : ContentProcessor.Self).

Lemma get_page_content_raised (url : string) :
  Http.responded (session_get E url 30) = Raise →
  Generator.get_page_content E url = "".
Proof. unfold Generator.get_page_content. by intros ->. Qed.

Lemma get_page_content_status (url : string) (r : Http.Response) :
  session_get E url 30 = Http.Responded r →
  Generator.get_page_content E url
  = if (400 <=? Http.status_code r)%Z && (Http.status_code r <? 600)%Z
    then "" else Http.text r.
Proof.
  unfold Generator.get_page_content, Http.raise_for_status. intros ->. simpl.
  by destruct (_ && _).
Qed.

Lemma truthy_spec (s : string) : Py.truthy s = true ↔ s ≠ "".
Proof. by destruct s. Qed.

Lemma process_page_failed (cfg : Generator.Config) (page_info : Generator.Discovered) :
  Generator.get_page_content E (Generator.d_url page_info) = "" →
  Generator.process_page E cp cfg page_info = [].
Proof. unfold Generator.process_page. by intros ->. Qed.

Lemma process_page_fetched (cfg : Generator.Config) (page_info : Generator.Discovered) :
  Generator.get_page_content E (Generator.d_url page_info) ≠ "" →
  ∃ page,
    Generator.process_page E cp cfg page_info = [page] ∧
    Generator.url page = Generator.d_url page_info ∧
    Generator.source page = Generator.d_source page_info.
Proof.
  intros Hne%truthy_spec. unfold Generator.process_page. rewrite Hne.
  by eexists.
Qed.

Lemma process_pages_frame (st : Generator.State) (batch : list Generator.Discovered) :
  let st' := Generator.process_pages E cp st batch in
  Generator.config st' = Generator.config st ∧
  Generator.files st' = Generator.files st ∧
  Generator.pages_data st'
  = Generator.pages_data st ++
    flat_map (Generator.process_page E cp (Generator.config st)) batch.
Proof.
  revert st. induction batch as [|page_info batch IH]; intros st; simpl.
  - by rewrite app_nil_r.
  - destruct (IH (Generator.set_pages_data st
                    (Generator.pages_data st ++
                     Generator.process_page E cp (Generator.config st) page_info)))
      as (Hc & Hf & Hp).
    unfold Generator.process_pages in *. simpl in *.
    rewrite Hc, Hf, Hp. by rewrite <- app_assoc.
Qed.

End Processing.

(** C9, as the specification states it, fails twice.  A response whose
    status is neither 2xx nor an error is not an empty result: the page of
    status 300 is returned with its body.  And a page that was fetched
    need not appear in the store: the page of status 200 whose body is
    empty is fetched without an error, and the processing loop drops it
    like a failed one. *)
Lemma C9_status_300_and_empty_body :
  (session_get (Scenarios.site [Scenarios.choices]) Scenarios.choices_url 30
   = Http.Responded (Scenarios.doc_response Scenarios.choices) ∧
   Http.status_code (Scenarios.doc_response Scenarios.choices) = 300%Z ∧
   Generator.get_page_content (Scenarios.site [Scenarios.choices])
     Scenarios.choices_url
   = Scenarios.choices_html) ∧
  (session_get (Scenarios.site [Scenarios.blank]) Scenarios.blank_url 30
   = Http.Responded (Scenarios.doc_response Scenarios.blank) ∧
   Http.status_code (Scenarios.doc_response Scenarios.blank) = 200%Z ∧
   Http.text (Scenarios.doc_response Scenarios.blank) = "" ∧
   Generator.pages_data
     (Generator.process_pages (Scenarios.site [Scenarios.blank])
        Scenarios.plain_processor (Scenarios.fresh Scenarios.default_config)
        [Scenarios.discovered Scenarios.blank_url])
   = []).
Proof. by vm_compute. Qed.

(** C9, amended.  The page fetcher returns a string on every URL: the
    empty string when the request raises (connection error, timeout) or
    the status is 4xx or 5xx, and the body of the response at any other
    status.  The processing loop handles every URL of the batch: the store
    grows by the records of the URLs in batch order, a URL whose fetch is
    empty adds none, a URL whose fetch is not empty adds one, with its URL
    and source.  So a page answered without an error adds no record when
    its body is empty, and when its body is not empty it adds one, which
    is in the store at the end of every batch that holds its URL; and
    around a failed URL the URLs before and after it are processed as they
    would be without it. *)
Theorem C9_fetch_failure_isolation (E : Env) (cp : ContentProcessor.Self)
    (st : Generator.State) (url : string) :
  (session_get E url 30 = Http.ConnectionError ∨
   session_get E url 30 = Http.Timeout ∨
   (∃ r, session_get E url 30 = Http.Responded r ∧
         (400 ≤ Http.status_code r < 600)%Z) →
   Generator.get_page_content E url = "") ∧
  (∀ r, session_get E url 30 = Http.Responded r →
        ¬ (400 ≤ Http.status_code r < 600)%Z →
        Generator.get_page_content E url = Http.text r) ∧
  (∀ batch,
     Generator.pages_data (Generator.process_pages E cp st batch)
     = Generator.pages_data st ++
       flat_map (Generator.process_page E cp (Generator.config st)) batch) ∧
  (∀ page_info,
     Generator.get_page_content E (Generator.d_url page_info) = "" →
     Generator.process_page E cp (Generator.config st) page_info = []) ∧
  (∀ page_info,
     Generator.get_page_content E (Generator.d_url page_info) ≠ "" →
     ∃ page,
       Generator.process_page E cp (Generator.config st) page_info = [page] ∧
       Generator.url page = Generator.d_url page_info ∧
       Generator.source page = Generator.d_source page_info) ∧
  (∀ page_info r,
     session_get E (Generator.d_url page_info) 30 = Http.Responded r →
     ¬ (400 ≤ Http.status_code r < 600)%Z →
     (Http.text r = "" →
      Generator.process_page E cp (Generator.config st) page_info = []) ∧
     (Http.text r ≠ "" →
      ∃ page,
        Generator.process_page E cp (Generator.config st) page_info = [page] ∧
        Generator.url page = Generator.d_url page_info ∧
        Generator.source page = Generator.d_source page_info ∧
        ∀ batch, page_info ∈ batch →
                 page ∈ Generator.pages_data
                          (Generator.process_pages E cp st batch))) ∧
  (∀ before failed after,
     Generator.get_page_content E (Generator.d_url failed) = "" →
     Generator.pages_data
       (Generator.process_pages E cp st (before ++ failed :: after))
     = Generator.pages_data
         (Generator.process_pages E cp st (before ++ after))).
Proof.
  split; [|split; [|split; [|split; [|split; [|split]]]]].
  - intros [Hc|[Ht|(r & Hr & Hlo & Hhi)]].
    + apply get_page_content_raised. by rewrite Hc.
    + apply get_page_content_raised. by rewrite Ht.
    + rewrite (get_page_content_status E url r Hr).
      apply Z.leb_le in Hlo. apply Z.ltb_lt in Hhi. by rewrite Hlo, Hhi.
  - intros r Hr Hstatus. rewrite (get_page_content_status E url r Hr).
    destruct (_ && _) eqn:Hb; [|done]. apply andb_true_iff in Hb as [Hlo Hhi].
    apply Z.leb_le in Hlo. apply Z.ltb_lt in Hhi. by destruct Hstatus.
  - intros batch. apply process_pages_frame.
  - intros page_info. apply process_page_failed.
  - intros page_info. apply process_page_fetched.
  - intros page_info r Hr Hstatus.
    assert (Generator.get_page_content E (Generator.d_url page_info) = Http.text r)
      as Hget.
    { rewrite (get_page_content_status E _ r Hr).
      destruct (_ && _) eqn:Hb; [|done]. apply andb_true_iff in Hb as [Hlo Hhi].
      apply Z.leb_le in Hlo. apply Z.ltb_lt in Hhi. by destruct Hstatus. }
    split.
    + intros Hempty. apply process_page_failed. by rewrite Hget.
    + intros Hbody.
      destruct (process_page_fetched E cp (Generator.config st) page_info)
        as (page & Hpage & Hurl & Hsource); [by rewrite Hget|].
      exists page. split; [done|]. split; [done|]. split; [done|].
      intros batch Hin.
      destruct (process_pages_frame E cp st batch) as (_ & _ & ->).
      apply elem_of_app. right. apply list_elem_of_In, in_flat_map.
      exists page_info. split; [by apply list_elem_of_In|]. rewrite Hpage. by left.
  - intros before failed after Hfailed.
    destruct (process_pages_frame E cp st (before ++ failed :: after))
      as (_ & _ & ->).
    destruct (process_pages_frame E cp st (before ++ after)) as (_ & _ & ->).
    rewrite !flat_map_app. simpl.
    by rewrite (process_page_failed E cp _ _ Hfailed).
Qed.

(** C8.  Content extraction returns a record on every HTML string and
    URL.  When a step of the processing raises, the parser, a cleaner or
    an extraction method, the record is the degraded one: its title is
    "Error Processing Content" and its main content is empty; otherwise it
    is the record the steps built.  In the processing loop a page whose
    extraction raised adds its record like any other, and the loop goes
    on: every fetched URL of the batch adds one record to the store. *)
Theorem C8_extraction_fails_soft (E : Env) (self : ContentProcessor.Self)
    (html_content url : string) :
  (ContentProcessor.process_body E self html_content url = Raise →
   ContentProcessor.process_content E self html_content url
   = ContentProcessor.error_record url) ∧
  ContentProcessor.title (ContentProcessor.error_record url)
  = "Error Processing Content" ∧
  ContentProcessor.main_content (ContentProcessor.error_record url) = "" ∧
  (∀ processed,
     ContentProcessor.process_body E self html_content url = Ok processed →
     ContentProcessor.process_content E self html_content url = processed) ∧
  (html_parser E html_content = Raise →
   ContentProcessor.process_content E self html_content url
   = ContentProcessor.error_record url) ∧
  (∀ cleaner cleaners soup,
     html_parser E html_content = Ok soup →
     ContentProcessor.html_cleaners self = cleaner :: cleaners →
     cleaner soup url = Raise →
     ContentProcessor.process_content E self html_content url
     = ContentProcessor.error_record url) ∧
  (∀ st batch,
     length (Generator.pages_data (Generator.process_pages E self st batch))
     = length (Generator.pages_data st) +
       length
         (filter
            (fun page_info =>
               Generator.get_page_content E (Generator.d_url page_info) ≠ "")
            batch)).
Proof.
  unfold ContentProcessor.process_content.
  split; [by intros ->|]. split; [done|]. split; [done|].
  split; [by intros processed ->|]. split; [|split].
  - intros Hparse. unfold ContentProcessor.process_body. by rewrite Hparse.
  - intros cleaner cleaners soup Hparse Hcleaners Hraise.
    unfold ContentProcessor.process_body. rewrite Hparse, Hcleaners.
    cbn [mbind result_bind foldl]. rewrite Hraise.
    assert (∀ l, foldl
              (λ (soup0 : result Bs4.Soup) (cleaner0 : Bs4.Soup → string → result Bs4.Soup),
                 s ← soup0; cleaner0 s url) Raise l = Raise) as ->; [|done].
    by induction l.
  - intros st batch.
    destruct (process_pages_frame E self st batch) as (_ & _ & ->).
    rewrite length_app. f_equal.
    induction batch as [|page_info batch IH]; [done|].
    simpl. rewrite length_app, IH, filter_cons.
    destruct (decide (Generator.get_page_content E (Generator.d_url page_info) ≠ ""))
      as [Hne|Heq].
    + destruct (process_page_fetched E self (Generator.config st) page_info Hne)
        as (page & -> & _). done.
    + apply dec_stable in Heq.
      by rewrite (process_page_failed E self _ _ Heq).
Qed.

(** ** The run *)

Section Run.

Lemma ctx_categories_all (categories : gmap string (list Generator.Page)) :
  Generator.ctx_categories categories true = Generator.sorted_categories categories.
Proof.
  unfold Generator.ctx_categories.
  induction (Generator.sorted_categories categories) as [|c l IH]; [done|].
  cbn [List.filter]. rewrite andb_false_r. cbn [negb]. f_equal. exact IH.
Qed.

Lemma ctx_categories_default (categories : gmap string (list Generator.Page)) :
  Generator.ctx_categories categories false
  = filter (fun c => c ≠ "Other") (Generator.sorted_categories categories).
Proof.
  unfold Generator.ctx_categories.
  induction (Generator.sorted_categories categories) as [|c l IH]; [done|].
  cbn [List.filter]. rewrite andb_true_r, filter_cons, <- IH.
  destruct (String.eqb_spec c "Other"), (decide (c ≠ "Other")); naive_solver.
Qed.

End Run.

(** The end-to-end scenario of the specification: the sections API,
    Guides and Optional, in that order, the seed page in the last. *)
Example end_to_end_llms_txt :
  Generator.files Scenarios.docs_run !! "out/llms.txt"
  = Some (Generator.Text
"# Example Docs

> The documentation of Example

## API

- [Foo API](https://docs.example.com/api/foo)

## Guides

- [Bar Guide](https://docs.example.com/guide/bar)

## Optional

- [Example Docs](https://docs.example.com)

").
Proof. by vm_compute. Qed.

(** C1, as the specification states it, fails on the run of the
    scenario, which starts on an empty disk: it completes, three pages are
    in its store, three files are on disk, and neither context file is
    among them, in the output directory or in the working directory. *)
Lemma C1_run_writes_no_context_file :
  length (Generator.pages_data Scenarios.docs_run) = 3 ∧
  size (Generator.files Scenarios.docs_run) = 3 ∧
  Generator.files Scenarios.docs_run
    !! file_at Scenarios.docs_site (Pathlib.Join "out" "llms-ctx.txt") = None ∧
  Generator.files Scenarios.docs_run
    !! file_at Scenarios.docs_site (Pathlib.Join "out" "llms-ctx-full.txt") = None ∧
  Generator.files Scenarios.docs_run
    !! file_at Scenarios.docs_site (Pathlib.Name "llms-ctx.txt") = None ∧
  Generator.files Scenarios.docs_run
    !! file_at Scenarios.docs_site (Pathlib.Name "llms-ctx-full.txt") = None.
Proof. by vm_compute. Qed.

(** C1, amended.  A completed run writes three artifacts into the
    configured output directory, and nothing else: llms.txt (index form),
    then llms-full.txt (full form), then documentation_data.json (the
    array of Page Records), all three from the store the run ends with.
    The files are those that [open] resolves the paths [Path(output_dir) /
    name] to, whatever they are; each holds its artifact when the run
    ends, the three paths naming three files.  The two context files are
    the work of [generate_llms_ctx_files], which the run does not call: it
    opens llms-ctx.txt and llms-ctx-full.txt by their bare names, so in
    the working directory, and writes the first without the category Other
    and the second with it. *)
Theorem C1_run_writes_three_artifacts (E : Env) (cp : ContentProcessor.Self)
    (st : Generator.State) :
  let st' := Generator.run E cp st in
  let cfg := Generator.config st in
  let dir := default "." (Generator.output_dir cfg) in
  let pages := Generator.pages_data st' in
  let index := file_at E (Pathlib.Join dir "llms.txt") in
  let full := file_at E (Pathlib.Join dir "llms-full.txt") in
  let data := file_at E (Pathlib.Join dir "documentation_data.json") in
  Generator.config st' = cfg ∧
  pages = Generator.pages_data st ++
          flat_map (Generator.process_page E cp cfg) (Generator.discover_pages E cfg) ∧
  Generator.files st'
  = <[data := Generator.Json pages]>
      (<[full := Generator.Text (Generator.llms_full_txt cfg pages)]>
         (<[index := Generator.Text (Generator.llms_txt cfg pages)]>
            (Generator.files st))) ∧
  (index ≠ full → index ≠ data →
   Generator.files st' !! index
   = Some (Generator.Text (Generator.llms_txt cfg pages))) ∧
  (full ≠ data →
   Generator.files st' !! full
   = Some (Generator.Text (Generator.llms_full_txt cfg pages))) ∧
  Generator.files st' !! data = Some (Generator.Json pages) ∧
  (∀ file, file ∉ [index; full; data] →
           Generator.files st' !! file = Generator.files st !! file) ∧
  (let st'' := Generator.generate_llms_ctx_files E st' in
   let ctx := file_at E (Pathlib.Name "llms-ctx.txt") in
   let ctx_full := file_at E (Pathlib.Name "llms-ctx-full.txt") in
   (ctx ≠ ctx_full →
    Generator.files st'' !! ctx
    = Some (Generator.Text (Generator.llms_ctx cfg pages false))) ∧
   Generator.files st'' !! ctx_full
   = Some (Generator.Text (Generator.llms_ctx cfg pages true)) ∧
   ∀ file, file ∉ [ctx; ctx_full] →
           Generator.files st'' !! file = Generator.files st' !! file) ∧
  (∀ categories,
     Generator.ctx_categories categories false
     = filter (fun c => c ≠ "Other") (Generator.sorted_categories categories) ∧
     Generator.ctx_categories categories true
     = Generator.sorted_categories categories).
Proof.
  intros st' cfg dir pages index full data.
  destruct (process_pages_frame E cp st (Generator.discover_pages E cfg))
    as (Hc & Hf & Hp).
  fold cfg in Hc, Hp.
  set (st1 := Generator.process_pages E cp st (Generator.discover_pages E cfg)) in *.
  assert (Generator.config st' = cfg) as Hcfg by (by unfold st', Generator.run).
  assert (pages = Generator.pages_data st1) as Hpages by (by unfold pages, st', Generator.run).
  assert (Generator.files st'
          = <[data := Generator.Json pages]>
              (<[full := Generator.Text (Generator.llms_full_txt cfg pages)]>
                 (<[index := Generator.Text (Generator.llms_txt cfg pages)]>
                    (Generator.files st)))) as Hfiles.
  { rewrite Hpages, <- Hf, <- Hc. unfold st', Generator.run. fold cfg. fold st1.
    simpl. by rewrite Hc. }
  split; [done|]. split; [by rewrite Hpages|]. split; [done|].
  rewrite Hfiles. split; [|split; [|split; [|split; [|split]]]].
  - intros Hfull Hdata. rewrite lookup_insert_ne by done.
    rewrite lookup_insert_ne by done. by rewrite lookup_insert_eq.
  - intros Hdata. rewrite lookup_insert_ne by done. by rewrite lookup_insert_eq.
  - by rewrite lookup_insert_eq.
  - intros file Hfile. rewrite !not_elem_of_cons in Hfile.
    destruct Hfile as (H1 & H2 & H3 & _).
    by rewrite !lookup_insert_ne.
  - unfold Generator.generate_llms_ctx_files, Generator._generate_ctx_file.
    cbn [Generator.write_file Generator.files Generator.config
         Generator.pages_data]. fold pages. rewrite Hcfg. split; [|split].
    + intros Hctx. rewrite lookup_insert_ne by done. by rewrite lookup_insert_eq.
    + by rewrite lookup_insert_eq.
    + intros file Hfile. rewrite !not_elem_of_cons in Hfile.
      destruct Hfile as (H1 & H2 & _). rewrite <- Hfiles.
      rewrite lookup_insert_ne by done. by rewrite lookup_insert_ne.
  - intros categories. split.
    + apply ctx_categories_default.
    + apply ctx_categories_all.
Qed.

(** ** Title extraction *)

Section Title.

Import ContentProcessor.

(** [List.find] returns the first element that passes the test. *)
Lemma find_first {A : Type} (f : A → bool) (l : list A) (x : A) :
  List.find f l = Some x →
  ∃ l1 l2, l = l1 ++ x :: l2 ∧ f x = true ∧ ∀ y, y ∈ l1 → f y = false.
Proof.
  induction l as [|a l IH]; [done|]. simpl.
  destruct (f a) eqn:Ha.
  - intros [= ->]. exists [], l. split; [done|]. split; [done|].
    by intros y ?%elem_of_nil.
  - intros (l1 & l2 & -> & Hx & Hl1)%IH. exists (a :: l1), l2.
    split; [done|]. split; [done|].
    intros y [->|Hy]%elem_of_cons; [done | by apply Hl1].
Qed.






End Title.



(** ** The sitemap resolver *)

Section Sitemap.

Context (E : Env).

Lemma sitemap_is_valid_url_in_scope (url base_url : string) :
  SitemapExtractor._is_valid_url E url base_url = true ↔
  Spec.sitemap_in_scope E url base_url.
Proof.
  unfold SitemapExtractor._is_valid_url, Spec.sitemap_in_scope.
  destruct (urlparse E url) as [pu|] eqn:Hu; cbn [mbind result_bind try_except];
    [|split; [done | by intros (? & ? & ? & _)]].
  destruct (urlparse E base_url) as [pb|] eqn:Hb; cbn [mbind result_bind try_except];
    [|split; [done | by intros (? & ? & _ & ? & _)]].
  destruct (existsb (String.eqb (Urllib.scheme pu)) _) eqn:Hscheme;
    cbn [negb mret result_ret try_except]; cycle 1.
  { split; [done|]. intros (? & ? & [= <-] & _ & Hs & _).
    apply scheme_allowed in Hs. congruence. }
  apply scheme_allowed in Hscheme.
  destruct (String.eqb_spec (Urllib.netloc pu) (Urllib.netloc pb)) as [Hn|Hn];
    cbn [negb mret result_ret try_except]; cycle 1.
  { split; [done|]. by intros (? & ? & [= <-] & [= <-] & _ & ? & _). }
  destruct (Py.any_in SitemapExtractor.exclude_patterns _) eqn:Hskip;
    cbn [mret result_ret try_except].
  { split; [done|]. intros (? & ? & _ & _ & _ & _ & Hk).
    apply any_in_false in Hk. congruence. }
  rewrite any_in_false in Hskip.
  split; [|done]. intros _. exists pu, pb. by eauto 10.
Qed.

Lemma unique_NoDup (all_urls : list string) : NoDup (SitemapExtractor.unique all_urls).
Proof. unfold SitemapExtractor.unique. apply NoDup_elements. Qed.


Lemma elem_of_flat_map {A B : Type} (f : A → list B) (l : list A) (b : B) :
  b ∈ flat_map f l ↔ ∃ a, a ∈ l ∧ b ∈ f a.
Proof.
  rewrite list_elem_of_In, in_flat_map.
  by setoid_rewrite list_elem_of_In.
Qed.


End Sitemap.




(** ** The traversal *)

Section Traversal.

Import Traverser.

Local Open Scope nat_scope.

Context (E : Env) (M : Methods) (max_pages max_depth : Z).

Lemma fetch_page_url (url : string) (fetched : Fetched) :
  _fetch_page E M url = Some fetched → f_url fetched = url.
Proof.
  unfold _fetch_page. destruct (Http.responded _) as [response|]; [|done].
  cbn [mbind result_bind]. destruct (_ =? _)%Z; [|done].
  destruct (html_parser E _) as [soup|]; [|done]. cbn [mbind result_bind].
  destruct (_extract_title M soup url); [|done]. cbn [mbind result_bind].
  destruct (_extract_main_content M soup); [|done]. cbn [mbind result_bind].
  destruct (_extract_all_links M soup url); [|done]. cbn.
  by intros [= <-].
Qed.

Lemma enqueue_length (visited : gset string) (depth : Z)
    (doc_links : list string) (q : list (string * Z)) :
  length (enqueue visited depth doc_links q) ≤ length q + 10.
Proof.
  unfold enqueue. rewrite length_app, length_map.
  pose proof (List.filter_length_le
                (fun link => bool_decide (link ∉ visited)) (take 10 doc_links)).
  pose proof (length_take_le doc_links 10). unfold lt in *.
  rewrite length_take in *. lia.
Qed.

(** What a turn does: nothing or a failed request, which leave the pages
    and the queue, or a request that adds a page and at most ten pairs. *)
Lemma turn_cases (url : string) (depth : Z) (st : Loop) :
  let st' := turn E M max_depth url depth st in
  (st' = st) ∨
  ((url ∉ visited_urls st) ∧
   visited_urls st' = {[url]} ∪ visited_urls st ∧
   requested st' = requested st ++ [url] ∧
   ((pages st' = pages st ∧ queue st' = queue st ∧ _fetch_page E M url = None) ∨
    (∃ fetched,
       _fetch_page E M url = Some fetched ∧
       pages st' = pages st ++
                     [{| page := fetched; depth := depth;
                         traversal_mode := "documentation" |}] ∧
       length (queue st') ≤ length (queue st) + 10))).
Proof.
  unfold turn. destruct (_ || _) eqn:Hskip; [by left|]. right.
  apply orb_false_iff in Hskip as [_ Hvisited].
  apply bool_decide_eq_false in Hvisited. split; [done|].
  destruct (_fetch_page E M url) as [fetched|]; cbn.
  - split; [done|]. split; [done|]. right. exists fetched.
    split; [done|]. split; [done|].
    destruct (_ <? _)%Z; [|lia].
    destruct (_extract_documentation_links E _ url); [|lia].
    apply enqueue_length.
  - split; [done|]. split; [done|]. by left.
Qed.

Lemma turn_turns_left (url : string) (depth : Z) (st : Loop) :
  (Z.of_nat (length (pages st)) < max_pages)%Z →
  Spec.turns_left max_pages (turn E M max_depth url depth st)
  ≤ Spec.turns_left max_pages st.
Proof.
  intros Hroom. unfold Spec.turns_left.
  destruct (turn_cases url depth st) as [->|(_ & _ & _ & Hcase)]; [done|].
  destruct Hcase as [(-> & -> & _)|(fetched & _ & -> & Hq)]; [done|].
  rewrite length_app. simpl. lia.
Qed.

(** The loop ends within the turns that are left. *)
Lemma loop_terminates (fuel : nat) (st : Loop) :
  Spec.turns_left max_pages st ≤ fuel →
  is_Some (loop E M max_pages max_depth fuel st).
Proof.
  revert st. induction fuel as [|fuel IH]; intros st Hfuel.
  - destruct st as [ps q vs rs]. destruct q as [|[url depth] q]; [by eexists|].
    simpl. destruct (_ <? _)%Z eqn:Hroom; [|by eexists].
    unfold Spec.turns_left in Hfuel. simpl in Hfuel. lia.
  - destruct st as [ps q vs rs]. destruct q as [|[url depth] q]; [by eexists|].
    simpl. destruct (_ <? _)%Z eqn:Hroom; [|by eexists].
    apply Z.ltb_lt in Hroom. apply IH.
    etrans; [apply turn_turns_left; exact Hroom|].
    unfold Spec.turns_left in *. simpl in *. lia.
Qed.

Lemma turn_invariant (visited : gset string) (url : string) (depth : Z)
    (st : Loop) :
  (Z.of_nat (length (pages st)) < max_pages)%Z →
  Spec.traversal_invariant max_pages visited st →
  Spec.traversal_invariant max_pages visited (turn E M max_depth url depth st).
Proof.
  intros Hroom (Hbound & Hnodup & Hreq & Hsub & Hpages).
  destruct (turn_cases url depth st) as [->|(Hnew & Hv & Hr & Hcase)]; [done|].
  unfold Spec.traversal_invariant. rewrite Hv, Hr.
  assert (url ∉ requested st) as Hfresh by (intros Hin; by apply Hreq in Hin as [? _]).
  split; [|split; [|split; [|split]]].
  - destruct Hcase as [(-> & _)|(fetched & _ & -> & _)]; [done|].
    rewrite length_app. simpl. lia.
  - apply NoDup_app. split; [done|]. split; [|apply NoDup_singleton].
    intros u Hu ->%list_elem_of_singleton. done.
  - intros u [Hu| ->%list_elem_of_singleton]%elem_of_app.
    + destruct (Hreq u Hu). split; [apply elem_of_union; by right | done].
    + split; [apply elem_of_union; left; by apply elem_of_singleton|].
      intros Hin. by apply Hnew, Hsub.
  - intros u Hu. apply elem_of_union. right. by apply Hsub.
  - destruct Hcase as [(-> & _)|(fetched & Hfetch & -> & _)].
    + intros p Hp. apply elem_of_app. left. by apply Hpages.
    + intros p [Hp| ->%list_elem_of_singleton]%elem_of_app.
      * apply elem_of_app. left. by apply Hpages.
      * apply elem_of_app. right. simpl.
        rewrite (fetch_page_url _ _ Hfetch). by apply list_elem_of_singleton.
Qed.

Lemma loop_invariant (visited : gset string) (fuel : nat) (st st' : Loop) :
  Spec.traversal_invariant max_pages visited st →
  loop E M max_pages max_depth fuel st = Some st' →
  Spec.traversal_invariant max_pages visited st'.
Proof.
  revert st. induction fuel as [|fuel IH]; intros st Hinv.
  - destruct st as [ps q vs rs]. destruct q as [|[url depth] q]; simpl.
    + by intros [= <-].
    + destruct (_ <? _)%Z; [done | by intros [= <-]].
  - destruct st as [ps q vs rs]. destruct q as [|[url depth] q]; simpl.
    + by intros [= <-].
    + destruct (_ <? _)%Z eqn:Hroom; [|by intros [= <-]].
      apply Z.ltb_lt in Hroom. apply IH. by apply turn_invariant.
Qed.

(** A loop whose pages have reached the maximum, or whose queue is empty,
    is at its end. *)
Lemma loop_done (fuel : nat) (st : Loop) :
  queue st = [] ∨ (max_pages ≤ Z.of_nat (length (pages st)))%Z →
  loop E M max_pages max_depth fuel st = Some st.
Proof.
  intros Hdone. destruct st as [ps q vs rs]. destruct q as [|[url depth] q].
  - by destruct fuel.
  - destruct Hdone as [|Hfull]; [done|]. simpl in Hfull.
    apply Z.ltb_ge in Hfull. destruct fuel; simpl; by rewrite Hfull.
Qed.

Lemma loop_turn (fuel : nat) (url : string) (depth : Z)
    (ps : list PageData) (q : list (string * Z)) (vs : gset string)
    (rs : list string) :
  (Z.of_nat (length ps) < max_pages)%Z →
  loop E M max_pages max_depth (S fuel)
    {| pages := ps; queue := (url, depth) :: q; visited_urls := vs;
       requested := rs |}
  = loop E M max_pages max_depth fuel
      (turn E M max_depth url depth
         {| pages := ps; queue := q; visited_urls := vs; requested := rs |}).
Proof. intros Hroom%Z.ltb_lt. cbn [loop queue pages]. by rewrite Hroom. Qed.

End Traversal.

(** C4, as the specification states it, fails when the seed cannot be
    fetched, and when the traverser has already visited it: with
    max_pages = 1 the traversal then returns no page, where the claim has
    exactly one. *)
Lemma C4_no_page_for_unreachable_seed :
  Traverser.pages <$>
    Traverser._traverse_documentation Scenarios.offline Scenarios.plain_methods
      ∅ Scenarios.portal_seed 1 3 = Some [] ∧
  Traverser.pages <$>
    Traverser._traverse_documentation Scenarios.portal Scenarios.plain_methods
      {[Scenarios.portal_seed]} Scenarios.portal_seed 1 3 = Some [].
Proof. by vm_compute. Qed.

(** The portal, whose seed page has twelve links under /docs/: with
    max_pages = 1 the traversal returns the seed alone, after one request;
    with max_pages = 4, four pages after four requests. *)
Example traversal_of_portal :
  (fun st => (map (fun p => Traverser.f_url (Traverser.page p)) (Traverser.pages st),
              Traverser.requested st)) <$>
    Traverser._traverse_documentation Scenarios.portal Scenarios.plain_methods
      ∅ Scenarios.portal_seed 1 3
  = Some (["https://example.com/docs/"], ["https://example.com/docs/"]) ∧
  (fun st => (length (Traverser.pages st), length (Traverser.requested st))) <$>
    Traverser._traverse_documentation Scenarios.portal Scenarios.plain_methods
      ∅ Scenarios.portal_seed 4 3
  = Some (4, 4).
Proof. by vm_compute. Qed.

(** C4, amended.  A docs-mode traversal ends, whatever the site.  The
    list it returns has at most max_pages pages (for a maximum that is
    not negative), no URL is requested more than once within the run, and
    none that the traverser had visited before; every page returned came
    from one of the requests.  With max_pages = 1 it returns at most one
    page, however many links the seed page has: exactly one when the seed
    was not visited before, the maximal depth is not negative and the
    fetch of the seed succeeds, and none when that fetch fails. *)
Theorem C4_traversal_bound (E : Env) (M : Traverser.Methods)
    (visited : gset string) (docs_url : string) (max_pages max_depth : Z) :
  ∃ st,
    Traverser._traverse_documentation E M visited docs_url max_pages max_depth
    = Some st ∧
    ((0 ≤ max_pages)%Z →
     (Z.of_nat (length (Traverser.pages st)) ≤ max_pages)%Z) ∧
    NoDup (Traverser.requested st) ∧
    (∀ url, url ∈ Traverser.requested st → url ∉ visited) ∧
    (∀ p, p ∈ Traverser.pages st →
          Traverser.f_url (Traverser.page p) ∈ Traverser.requested st) ∧
    (max_pages = 1%Z →
     (length (Traverser.pages st) ≤ 1)%nat ∧
     (docs_url ∉ visited → (0 ≤ max_depth)%Z →
      is_Some (Traverser._fetch_page E M docs_url) →
      length (Traverser.pages st) = 1%nat) ∧
     (Traverser._fetch_page E M docs_url = None → Traverser.pages st = [])).
Proof.
  unfold Traverser._traverse_documentation.
  set (start := {| Traverser.pages := []; Traverser.queue := [(docs_url, 0%Z)];
                   Traverser.visited_urls := visited;
                   Traverser.requested := [] |}).
  destruct (loop_terminates E M max_pages max_depth
              (Traverser.enough_fuel max_pages) start) as [st Hst].
  { unfold Spec.turns_left, Traverser.enough_fuel. simpl.
    rewrite Z.sub_0_r. lia. }
  assert (Spec.traversal_invariant max_pages visited start) as Hstart.
  { unfold Spec.traversal_invariant. simpl.
    split; [lia|]. split; [constructor|]. split; [by intros u ?%elem_of_nil|].
    split; [done | by intros p ?%elem_of_nil]. }
  destruct (loop_invariant E M max_pages max_depth visited _ _ _ Hstart Hst)
    as (Hbound & Hnodup & Hreq & _ & Hpages).
  exists st. split; [done|]. split; [lia|]. split; [done|].
  split; [by intros url [_ ?]%Hreq|]. split; [done|].
  intros ->. split; [lia|].
  (* the first turn *)
  unfold Traverser.enough_fuel, start in Hst.
  rewrite loop_turn in Hst by done.
  destruct (turn_cases E M max_depth docs_url 0
              {| Traverser.pages := []; Traverser.queue := [];
                 Traverser.visited_urls := visited;
                 Traverser.requested := [] |}) as [Hturn|Hturn].
  - (* skipped *)
    rewrite Hturn in Hst. simpl in Hst. injection Hst as <-.
    split; [|done]. intros Hnew Hdepth _. exfalso. revert Hturn.
    unfold Traverser.turn. 
    replace (max_depth <? 0)%Z with false by (symmetry; by apply Z.ltb_ge).
    rewrite bool_decide_eq_false_2 by done. simpl.
    destruct (Traverser._fetch_page E M docs_url); intros [=].
    all: by destruct (app_cons_not_nil [] [] docs_url).
  - destruct Hturn as (Hnew & _ & _ & [(Hp & Hq & Hnone)|(fetched & Hsome & Hp & _)]).
    + (* the fetch failed *)
      rewrite loop_done in Hst by (left; exact Hq). injection Hst as <-.
      simpl in Hp. split; [|done]. intros _ _ [? Hsome]. congruence.
    + (* the seed is a page *)
      rewrite loop_done in Hst by (right; rewrite Hp; simpl; lia).
      injection Hst as <-. rewrite Hp. split; [done|]. intros Hnone. congruence.
Qed.

(** ** The theorems at the scenarios *)

(** C2 at the cross-origin example of the specification. *)
Lemma C2_cross_origin_rejected :
  Generator._is_valid_url Scenarios.offline Scenarios.default_config
    "https://other.example/x" "https://example.com" = false.
Proof.
  apply (proj2 (proj2 (C2_url_validator Scenarios.offline Scenarios.default_config
                         "https://other.example/x" "https://example.com"))).
  reflexivity.
Defined.


(** C10 at the title pattern API and the title "API Documentation", with
    the lower-casing of the scenarios, which returns no letter from A to
    Z. *)
Lemma C10_api_pattern_never_matches :
  Spec.lower_has_no_ascii_upper Scenarios.offline ∧
  Py.has_ascii_upper "API" = true ∧
  Py.str_in "API" (str_lower Scenarios.offline "API Documentation") = false.
Proof.
  assert (Spec.lower_has_no_ascii_upper Scenarios.offline) as Hlower
    by (intros s; apply all_chars_lower).
  split; [exact Hlower|]. split; [reflexivity|].
  apply (proj1 (proj2
           (C10_title_patterns_case Scenarios.offline Scenarios.api_config
              {| ContentProcessor.url := "https://example.com/some-page";
                 ContentProcessor.title := "API Documentation";
                 ContentProcessor.description := "";
                 ContentProcessor.main_content := "";
                 ContentProcessor.headings := [];
                 ContentProcessor.code_blocks := [];
                 ContentProcessor.links := [];
                 ContentProcessor.metadata := [] |} Hlower))).
  reflexivity.
Defined.


(** C8 at a page the parser gives up on: the degraded record, filed like
    any other. *)
Lemma C8_unparsable_page_degrades :
  ContentProcessor.process_content Scenarios.unparsable Scenarios.plain_processor
    "<html>Foo API</html>" "https://docs.example.com/api/foo"
  = ContentProcessor.error_record "https://docs.example.com/api/foo".
Proof.
  apply (proj1 (proj2 (proj2 (proj2 (proj2
           (C8_extraction_fails_soft Scenarios.unparsable Scenarios.plain_processor
              "<html>Foo API</html>" "https://docs.example.com/api/foo")))))).
  reflexivity.
Defined.

(** C9 at a batch of three URLs, the second of which answers 404: the
    store is the one the two other URLs give. *)
Lemma C9_missing_page_is_skipped :
  Generator.get_page_content Scenarios.docs_site
    (Generator.d_url Scenarios.missing_page) = "" ∧
  Generator.pages_data
    (Generator.process_pages Scenarios.docs_site Scenarios.plain_processor
       (Scenarios.fresh Scenarios.docs_config)
       ([Scenarios.discovered "https://docs.example.com/api/foo"] ++
        Scenarios.missing_page ::
        [Scenarios.discovered "https://docs.example.com/guide/bar"]))
  = Generator.pages_data
      (Generator.process_pages Scenarios.docs_site Scenarios.plain_processor
         (Scenarios.fresh Scenarios.docs_config)
         ([Scenarios.discovered "https://docs.example.com/api/foo"] ++
          [Scenarios.discovered "https://docs.example.com/guide/bar"])).
Proof.
  split; [reflexivity|].
  apply (proj2 (proj2 (proj2 (proj2 (proj2 (proj2
           (C9_fetch_failure_isolation Scenarios.docs_site Scenarios.plain_processor
              (Scenarios.fresh Scenarios.docs_config) ""))))))).
  reflexivity.
Defined.

(** C4 at the portal, whose seed page has twelve links: one page. *)
Lemma C4_portal_one_page :
  ∃ st,
    Traverser._traverse_documentation Scenarios.portal Scenarios.plain_methods
      ∅ Scenarios.portal_seed 1 3 = Some st ∧
    length (Traverser.pages st) = 1%nat.
Proof.
  destruct (C4_traversal_bound Scenarios.portal Scenarios.plain_methods ∅
              Scenarios.portal_seed 1 3) as (st & Hst & _ & _ & _ & _ & Hone).
  exists st. split; [exact Hst|].
  apply (proj1 (proj2 (Hone eq_refl))).
  - apply not_elem_of_empty.
  - done.
  - eexists. by vm_compute.
Defined.

(* ===================================================================== *)
(** * Part III: further properties of the code                            *)
(* ===================================================================== *)

(** ** Page discovery *)

Section Discovery.

Import Generator.

Context (E : Env) (cfg : Config).

Local Open Scope Z_scope.

(** The loop over the links only appends, appends valid URLs, and stops
    at the maximum. *)
Lemma link_loop_spec (base_url : string) (max_pages : Z)
    (hrefs discovered_urls : list string) :
  ∃ added,
    link_loop E cfg base_url max_pages hrefs discovered_urls
    = discovered_urls ++ added ∧
    Forall (fun url => _is_valid_url E cfg url base_url = true) added ∧
    Z.of_nat (length (discovered_urls ++ added))
    ≤ Z.max max_pages (Z.of_nat (length discovered_urls)).
Proof.
  revert discovered_urls. induction hrefs as [|href hrefs IH]; intros acc; simpl.
  - exists []. rewrite app_nil_r. split; [done|]. split; [constructor | lia].
  - destruct (max_pages <=? _) eqn:Hfull.
    { exists []. rewrite app_nil_r. split; [done|]. split; [constructor | lia]. }
    apply Z.leb_gt in Hfull.
    destruct (urljoin E base_url href) as [full_url|].
    2:{ exists []. rewrite app_nil_r. split; [done|]. split; [constructor | lia]. }
    destruct (_is_valid_url E cfg full_url base_url) eqn:Hvalid.
    + destruct (IH (acc ++ [full_url])) as (added & -> & Hadded & Hlen).
      exists (full_url :: added). rewrite <- app_assoc. split; [done|].
      split; [by constructor|].
      rewrite <- app_assoc in Hlen. simpl in Hlen.
      rewrite length_app in Hlen |- *. rewrite length_app in Hlen.
      simpl in *. lia.
    + apply IH.
Qed.

Lemma simple_link_discovery_spec (base_url : string) (max_pages : Z) :
  let found := _simple_link_discovery E cfg base_url max_pages in
  found ≠ [] ∧
  Forall (fun url => url = base_url ∨ _is_valid_url E cfg url base_url = true)
    found ∧
  Z.of_nat (length found) ≤ Z.max 1 max_pages.
Proof.
  unfold _simple_link_discovery.
  set (links := if Py.truthy (get_page_content E base_url)
                then match html_parser E (get_page_content E base_url) with
                     | Ok soup => link_loop E cfg base_url max_pages (Bs4.hrefs soup) []
                     | Raise => []
                     end
                else []).
  assert (Forall (fun url => _is_valid_url E cfg url base_url = true) links ∧
          Z.of_nat (length links) ≤ Z.max max_pages 0) as [Hvalid Hlen].
  { unfold links. destruct (Py.truthy _); [|by split; [constructor | simpl; lia]].
    destruct (html_parser E _) as [soup|]; [|by split; [constructor | simpl; lia]].
    destruct (link_loop_spec base_url max_pages (Bs4.hrefs soup) [])
      as (added & -> & Hadded & Hlen).
    by split. }
  destruct links as [|url links].
  - split; [done|]. split; [by repeat constructor | simpl; lia].
  - split; [done|]. split; [|lia].
    eapply Forall_impl; [exact Hvalid|]. by right.
Qed.

(** The inner loop of [discover_pages] only appends, appends each URL
    once, and stops at the maximum. *)
Lemma add_discovered_spec (max_pages : Z) (discovered_urls : list string)
    (discovered_pages : list Discovered) :
  ∃ added,
    add_discovered max_pages discovered_urls discovered_pages
    = discovered_pages ++ added ∧
    Forall (fun d => d_url d ∈ discovered_urls ∧ d_source d = "link_discovery")
      added ∧
    (NoDup (map d_url discovered_pages) →
     NoDup (map d_url (discovered_pages ++ added))) ∧
    Z.of_nat (length (discovered_pages ++ added))
    ≤ Z.max max_pages (Z.of_nat (length discovered_pages)).
Proof.
  revert discovered_pages.
  induction discovered_urls as [|url urls IH]; intros pages; simpl.
  - exists []. rewrite app_nil_r. split; [done|]. split; [constructor|].
    split; [done | lia].
  - destruct (max_pages <=? _) eqn:Hfull.
    { exists []. rewrite app_nil_r. split; [done|]. split; [constructor|].
      split; [done | lia]. }
    apply Z.leb_gt in Hfull.
    destruct (existsb (String.eqb url) (map d_url pages)) eqn:Hseen.
    + destruct (IH pages) as (added & -> & Hadded & Hnodup & Hlen).
      exists added. split; [done|]. split; [|by split].
      eapply Forall_impl; [exact Hadded|]. intros d [Hd ?]. split; [by right|done].
    + destruct (IH (pages ++ [{| d_url := url; d_source := "link_discovery" |}]))
        as (added & -> & Hadded & Hnodup & Hlen).
      exists ({| d_url := url; d_source := "link_discovery" |} :: added).
      rewrite <- app_assoc. split; [done|]. split; [|split].
      * constructor; [split; [by left | done]|].
        eapply Forall_impl; [exact Hadded|]. intros d [Hd ?]. split; [by right|done].
      * intros Hpages. rewrite <- app_assoc in Hnodup. apply Hnodup.
        rewrite map_app. simpl. apply NoDup_app. split; [done|].
        split; [|apply NoDup_singleton].
        intros u Hu ->%list_elem_of_singleton.
        assert (existsb (String.eqb url) (map d_url pages) = true); [|congruence].
        apply existsb_exists. exists url. split; [by apply list_elem_of_In|].
        apply String.eqb_refl.
      * rewrite <- app_assoc in Hlen. simpl in Hlen.
        rewrite !length_app in Hlen. rewrite length_app. simpl in *. lia.
Qed.

(** What the outer loop of [discover_pages] keeps true of its list. *)
Lemma discover_pages_spec :
  let pages := discover_pages E cfg in
  let max := default 100 (max_pages cfg) in
  NoDup (map d_url pages) ∧
  Z.of_nat (length pages) ≤ Z.max 0 max ∧
  Forall
    (fun d =>
       d_source d = "link_discovery" ∧
       ∃ base_url, base_url ∈ urls cfg ∧
         (d_url d = base_url ∨ _is_valid_url E cfg (d_url d) base_url = true))
    pages.
Proof.
  unfold discover_pages.
  set (max := default 100 (max_pages cfg)).
  assert (∀ seeds acc,
    (∀ s, s ∈ seeds → s ∈ urls cfg) →
    NoDup (map d_url acc) ∧ Z.of_nat (length acc) ≤ Z.max 0 max ∧
    Forall (fun d => d_source d = "link_discovery" ∧
              ∃ base_url, base_url ∈ urls cfg ∧
                (d_url d = base_url ∨ _is_valid_url E cfg (d_url d) base_url = true))
      acc →
    let pages := foldl
      (fun discovered_pages base_url =>
         let discovered_urls := _simple_link_discovery E cfg base_url max in
         let discovered_urls :=
           if existsb (String.eqb base_url) discovered_urls then discovered_urls
           else base_url :: discovered_urls in
         add_discovered max discovered_urls discovered_pages)
      acc seeds in
    NoDup (map d_url pages) ∧ Z.of_nat (length pages) ≤ Z.max 0 max ∧
    Forall (fun d => d_source d = "link_discovery" ∧
              ∃ base_url, base_url ∈ urls cfg ∧
                (d_url d = base_url ∨ _is_valid_url E cfg (d_url d) base_url = true))
      pages) as Hfold.
  { induction seeds as [|seed seeds IH]; intros acc Hseeds Hacc; [done|].
    simpl. apply IH; [intros s Hs; apply Hseeds; by right|].
    destruct Hacc as (Hnodup & Hlen & Hall).
    set (found := _simple_link_discovery E cfg seed max).
    destruct (simple_link_discovery_spec seed max) as (_ & Hfound & _).
    fold found in Hfound.
    set (urls' := if existsb (String.eqb seed) found then found else seed :: found).
    assert (Forall (fun url => url = seed ∨ _is_valid_url E cfg url seed = true) urls')
      as Hurls.
    { unfold urls'. destruct (existsb _ _); [done|]. constructor; [by left | done]. }
    destruct (add_discovered_spec max urls' acc) as (added & -> & Hadded & Hnd & Hl).
    split; [by apply Hnd|]. split; [lia|].
    apply Forall_app. split; [done|].
    eapply Forall_impl; [exact Hadded|]. intros d [Hd Hsrc]. split; [done|].
    exists seed. split; [apply Hseeds; by left|].
    rewrite Forall_forall in Hurls. by apply Hurls. }
  apply Hfold; [done|]. split; [constructor|]. split; [simpl; lia | constructor].
Qed.

Lemma add_discovered_all (max_pages : Z) (discovered_urls : list string)
    (discovered_pages : list Discovered) :
  Z.of_nat (length discovered_pages + length discovered_urls) ≤ max_pages →
  ∀ url, url ∈ discovered_urls →
         url ∈ map d_url (add_discovered max_pages discovered_urls discovered_pages).
Proof.
  revert discovered_pages.
  induction discovered_urls as [|u urls IH]; intros pages Hroom url Hurl.
  { by apply elem_of_nil in Hurl. }
  simpl in *. replace (max_pages <=? Z.of_nat (length pages)) with false
    by (symmetry; apply Z.leb_gt; lia).
  destruct (existsb (String.eqb u) (map d_url pages)) eqn:Hseen.
  - apply elem_of_cons in Hurl as [->|Hurl]; [|apply IH; [lia | done]].
    destruct (add_discovered_spec max_pages urls pages) as (added & -> & _).
    rewrite map_app. apply elem_of_app. left.
    apply existsb_exists in Hseen as (u' & Hin & ->%String.eqb_eq).
    by apply list_elem_of_In.
  - apply elem_of_cons in Hurl as [->|Hurl].
    + destruct (add_discovered_spec max_pages urls
                  (pages ++ [{| d_url := u; d_source := "link_discovery" |}]))
        as (added & -> & _).
      rewrite !map_app. apply elem_of_app. left. apply elem_of_app. right.
      by left.
    + apply IH; [|done]. rewrite length_app. simpl. lia.
Qed.

Lemma discover_fold_prefix (max : Z) (seeds : list string) (acc : list Discovered) :
  ∃ added,
    foldl
      (fun discovered_pages base_url =>
         let discovered_urls := _simple_link_discovery E cfg base_url max in
         let discovered_urls :=
           if existsb (String.eqb base_url) discovered_urls then discovered_urls
           else base_url :: discovered_urls in
         add_discovered max discovered_urls discovered_pages)
      acc seeds
    = acc ++ added.
Proof.
  set (step := fun (discovered_pages : list Discovered) (base_url : string) => _).
  revert acc. induction seeds as [|seed seeds IH]; intros acc.
  - exists []. by rewrite app_nil_r.
  - change (∃ added, foldl step (step acc seed) seeds = acc ++ added).
    destruct (IH (step acc seed)) as (added2 & ->).
    destruct (add_discovered_spec max
                (if existsb (String.eqb seed) (_simple_link_discovery E cfg seed max)
                 then _simple_link_discovery E cfg seed max
                 else seed :: _simple_link_discovery E cfg seed max) acc)
      as (added1 & Hstep & _).
    exists (added1 ++ added2). unfold step. rewrite Hstep. by rewrite app_assoc.
Qed.

Lemma first_seed_discovered (seed : string) (seeds : list string) :
  urls cfg = seed :: seeds →
  1 ≤ default 100 (max_pages cfg) →
  seed ∈ map d_url (discover_pages E cfg).
Proof.
  intros Hurls Hmax. unfold discover_pages. rewrite Hurls.
  set (max := default 100 (max_pages cfg)) in *.
  set (step := fun (discovered_pages : list Discovered) (base_url : string) => _).
  change (seed ∈ map d_url (foldl step (step [] seed) seeds)).
  destruct (discover_fold_prefix max seeds (step [] seed)) as (added & Hfold).
  replace (foldl step (step [] seed) seeds) with (step [] seed ++ added)
    by (symmetry; exact Hfold).
  rewrite map_app. apply elem_of_app. left. unfold step.
  set (found := _simple_link_discovery E cfg seed max).
  destruct (simple_link_discovery_spec seed max) as (_ & _ & Hlen).
  fold found in Hlen. cbv zeta.
  destruct (existsb (String.eqb seed) found) eqn:Hin.
  - apply add_discovered_all; [simpl; lia|].
    apply existsb_exists in Hin as (u & Hu & ->%String.eqb_eq).
    by apply list_elem_of_In.
  - cbn [add_discovered length map existsb].
    replace (max <=? Z.of_nat 0) with false by (symmetry; apply Z.leb_gt; lia).
    destruct (add_discovered_spec max found
                ([] ++ [{| d_url := seed; d_source := "link_discovery" |}]))
      as (added1 & -> & _).
    rewrite map_app. apply elem_of_app. left. by left.
Qed.

End Discovery.

(** X1.  [discover_pages] returns a list without a repeated URL and of at
    most max_pages entries (none when max_pages is zero or negative; the
    maximum is 100 when the configuration has none), and tags every entry
    with the source link_discovery. *)
Theorem X1_discover_pages_bounded_distinct (E : Env) (cfg : Generator.Config) :
  let pages := Generator.discover_pages E cfg in
  let max := default 100%Z (Generator.max_pages cfg) in
  NoDup (map Generator.d_url pages) ∧
  (Z.of_nat (length pages) ≤ Z.max 0 max)%Z ∧
  ((max ≤ 0)%Z → pages = []) ∧
  (∀ d, d ∈ pages → Generator.d_source d = "link_discovery").
Proof.
  intros pages max.
  destruct (discover_pages_spec E cfg) as (Hnodup & Hlen & Hall).
  fold pages max in Hnodup, Hlen, Hall.
  split; [done|]. split; [done|]. split.
  - intros Hmax. destruct pages; [done|]. simpl in Hlen. lia.
  - intros d Hd. rewrite Forall_forall in Hall. by destruct (Hall d Hd).
Qed.

(** X2.  Every URL [discover_pages] returns is one of the configured
    seed URLs or a link that the URL validator accepts against one of
    them: discovery never leaves the hosts of the seeds, and never
    returns a URL the denylist or the exclude patterns reject, the seeds
    themselves apart. *)
Theorem X2_discover_pages_in_scope (E : Env) (cfg : Generator.Config)
    (d : Generator.Discovered) :
  d ∈ Generator.discover_pages E cfg →
  ∃ base_url,
    base_url ∈ Generator.urls cfg ∧
    (Generator.d_url d = base_url ∨
     Spec.in_scope E cfg (Generator.d_url d) base_url).
Proof.
  intros Hd. destruct (discover_pages_spec E cfg) as (_ & _ & Hall).
  rewrite Forall_forall in Hall. destruct (Hall d Hd) as (_ & base & Hbase & Hor).
  exists base. split; [done|]. destruct Hor as [?|Hvalid]; [by left|].
  right. by apply is_valid_url_in_scope.
Qed.

(** X3.  The first seed URL is always among the discovered pages when
    max_pages is at least one, whether or not its page could be fetched
    and whatever it links to. *)
Theorem X3_first_seed_discovered (E : Env) (cfg : Generator.Config)
    (seed : string) (seeds : list string) :
  Generator.urls cfg = seed :: seeds →
  (1 ≤ default 100 (Generator.max_pages cfg))%Z →
  seed ∈ map Generator.d_url (Generator.discover_pages E cfg).
Proof. apply first_seed_discovered. Qed.

(** ** The denylist, the renderer and the categorizer, further *)

Section FurtherGenerator.

Import Generator.

Lemma lower_append (a b : string) :
  Py.lower (a +:+ b) = Py.lower a +:+ Py.lower b.
Proof.
  unfold Py.lower. induction a as [|c a IH]; [done|].
  rewrite append_cons. simpl. by rewrite IH.
Qed.

Lemma occurs_in_lower (pat s : string) :
  Py.occurs_in pat s → Py.occurs_in (Py.lower pat) (Py.lower s).
Proof.
  intros (a & b & ->). exists (Py.lower a), (Py.lower b).
  by rewrite !lower_append.
Qed.





Lemma ctx_categories_all_other (pages : list Page) :
  (∀ p, p ∈ pages → category p = "Other") →
  ctx_categories (group_by_category pages) false = [].
Proof.
  intros Hother. rewrite ctx_categories_default.
  destruct (sorted_categories_spec pages) as (_ & _ & Hmem).
  assert (Forall (fun c => c = "Other")
            (sorted_categories (group_by_category pages))) as Hall.
  { apply Forall_forall. intros c (p & Hp & <-)%Hmem. by apply Hother. }
  clear Hmem. induction Hall as [|c l -> _ IH]; [done|].
  rewrite filter_cons. rewrite decide_False by (intros Hne; by apply Hne).
  exact IH.
Qed.

Lemma process_pages_all_other (E : Env) (cp : ContentProcessor.Self)
    (st : State) (batch : list Discovered) :
  category_rules (config st) = [] →
  (∀ p, p ∈ pages_data st → category p = "Other") →
  ∀ p, p ∈ pages_data (process_pages E cp st batch) → category p = "Other".
Proof.
  intros Hrules Hstore p.
  destruct (process_pages_frame E cp st batch) as (_ & _ & ->).
  intros [Hp|Hp]%elem_of_app; [by apply Hstore|].
  apply elem_of_flat_map in Hp as (page_info & _ & Hp).
  unfold process_page in Hp. destruct (Py.truthy _); [|by apply elem_of_nil in Hp].
  apply list_elem_of_singleton in Hp as ->. simpl.
  unfold _categorize_page. by rewrite Hrules.
Qed.

End FurtherGenerator.

(** X4.  The denylist of the URL validator is matched on the lower-cased
    URL and by substring: a URL is rejected as soon as it contains a text
    whose lower-casing contains a marker, whatever its host.  So .PDF and
    .Jpg are rejected like .pdf and .jpg, and .json, .jsp and .xmlrpc fall
    to the markers .js and .xml. *)
Theorem X4_denylist_any_case (E : Env) (cfg : Generator.Config)
    (url base_url marker text : string) :
  marker ∈ Generator.skip_patterns →
  Py.occurs_in marker (Py.lower text) →
  Py.occurs_in text url →
  Generator._is_valid_url E cfg url base_url = false.
Proof.
  intros Hmarker Hin Htext.
  destruct (Generator._is_valid_url E cfg url base_url) eqn:Hvalid; [|done].
  apply is_valid_url_in_scope in Hvalid as (? & ? & _ & _ & _ & _ & Hdeny & _).
  destruct (Hdeny marker Hmarker).
  eapply occurs_in_trans; [exact Hin|]. by apply occurs_in_lower.
Qed.


(** X6.  Without category rules every processed page is in the category
    Other, and the default context form skips that category: the
    llms-ctx.txt of a run without category rules holds the project
    element and no section and no page. *)
Theorem X6_ctx_without_rules_is_empty (E : Env) (cp : ContentProcessor.Self)
    (st : Generator.State) (batch : list Generator.Discovered) :
  Generator.category_rules (Generator.config st) = [] →
  (∀ p, p ∈ Generator.pages_data st → Generator.category p = "Other") →
  Generator.llms_ctx (Generator.config st)
    (Generator.pages_data (Generator.process_pages E cp st batch)) false
  = "<project title=" +:+ Generator.quote +:+
    Generator.name (Generator.config st) +:+ Generator.quote +:+
    " summary=" +:+ Generator.quote +:+
    Generator.description (Generator.config st) +:+ Generator.quote +:+
    ">" +:+ Py.nl +:+ "</project>".
Proof.
  intros Hrules Hstore. unfold Generator.llms_ctx.
  rewrite ctx_categories_all_other; [done|].
  by apply process_pages_all_other.
Qed.

(** X7.  An empty pattern occurs in every string: a rule that has the
    empty string among its URL patterns or its title patterns matches
    every page, so as the first rule it takes every page and the rules
    after it are never reached. *)
Theorem X7_empty_pattern_matches_all (E : Env) (cfg : Generator.Config)
    (processed : ContentProcessor.Processed) (category : string)
    (r : Generator.Rules) (rest : list (string * Generator.Rules)) :
  Generator.category_rules cfg = (category, r) :: rest →
  "" ∈ Generator.url_patterns r ∨ "" ∈ Generator.title_patterns r →
  Generator._categorize_page E cfg processed = category.
Proof.
  intros Hrules Hempty. unfold Generator._categorize_page. rewrite Hrules.
  apply (first_match_split E [] rest); [by intros cr ?%elem_of_nil|].
  destruct Hempty as [Hurl|Htitle]; [left | right]; exists "";
    (split; [done|]); by eexists "", _.
Qed.

(** ** The normalisation of the URL *)

Section Normalisation.

Import Server.

Lemma startswith_append (p s : string) : Py.startswith (p +:+ s) p = true.
Proof. unfold Py.startswith. apply prefix_app. by exists s. Qed.

Lemma has_scheme_not_at (url : string) :
  has_scheme url = true → Py.startswith url "@" = false.
Proof.
  unfold has_scheme, Py.startswith. rewrite !orb_true_iff, !prefix_app.
  intros [[[b ->]|[b ->]]|[b ->]]; reflexivity.
Qed.

Lemma normalize_url_scheme (os : Os) (url : string) :
  has_scheme (normalize_url os url) = true.
Proof.
  unfold normalize_url.
  set (u := if Py.startswith url "@" then tail url else url).
  destruct (has_scheme u) eqn:Hscheme; simpl; [done|].
  unfold has_scheme. destruct (path_exists os u).
  - by rewrite (startswith_append "file://"), !orb_true_r.
  - by rewrite (startswith_append "https://"), orb_true_r.
Qed.

Lemma normalize_url_qualified (os : Os) (url : string) :
  has_scheme url = true → normalize_url os url = url.
Proof.
  intros Hscheme. unfold normalize_url.
  by rewrite (has_scheme_not_at url Hscheme), Hscheme.
Qed.

End Normalisation.

(** X8.  The URL the tool and the script pass to the generator always
    starts with http://, https:// or file://, whatever the user typed; a
    URL that already does is passed as it is, and normalising a second
    time changes nothing. *)
Theorem X8_normalize_url (os : Server.Os) (url : string) :
  Server.has_scheme (Server.normalize_url os url) = true ∧
  (Server.has_scheme url = true → Server.normalize_url os url = url) ∧
  Server.normalize_url os (Server.normalize_url os url)
  = Server.normalize_url os url.
Proof.
  split; [apply normalize_url_scheme|]. split; [apply normalize_url_qualified|].
  apply normalize_url_qualified, normalize_url_scheme.
Qed.

(** ** The sitemap resolver, further *)

Section FurtherSitemap.

Import SitemapExtractor.

Context (E : Env).

Lemma html_link_loop_http (sitemap_url : string) (hrefs urls : list string) :
  Forall (fun url => is_http url = true) urls →
  Forall (fun url => is_http url = true) (html_link_loop E sitemap_url hrefs urls).
Proof.
  revert urls. induction hrefs as [|href hrefs IH]; intros urls Hurls; [done|].
  simpl. destruct (urljoin E sitemap_url href) as [full_url|]; [|done].
  apply IH. destruct (is_http full_url) eqn:Hhttp; [|done].
  apply Forall_app. split; [done | by repeat constructor].
Qed.

Lemma parse_html_sitemap_http (html_content sitemap_url : string) :
  Forall (fun url => is_http url = true)
    (_parse_html_sitemap E html_content sitemap_url).
Proof.
  unfold _parse_html_sitemap. destruct (html_parser E html_content); [|done].
  apply html_link_loop_http. constructor.
Qed.

Lemma mapM_Forall {A B : Type} (P : B → Prop) (f : A → result (list B))
    (l : list A) (found : list (list B)) :
  (∀ a bs, f a = Ok bs → Forall P bs) →
  mapM f l = Ok found → Forall P (concat found).
Proof.
  intros Hf. revert found. induction l as [|a l IH]; intros found; simpl.
  - by intros [= <-].
  - destruct (f a) as [bs|] eqn:Hfa; [|done]. cbn [mbind result_bind].
    destruct (mapM f l) as [found'|]; [|done]. cbn. intros [= <-].
    simpl. apply Forall_app. split; [by eapply Hf | by apply IH].
Qed.

Lemma find_html_sitemap_http (base_url : string) (urls : list string) :
  _find_html_sitemap E base_url = Ok urls →
  Forall (fun url => is_http url = true) urls.
Proof.
  unfold _find_html_sitemap.
  destruct (mapM _ html_sitemap_paths) as [found|] eqn:Hfound; [|done].
  cbn. intros [= <-]. eapply mapM_Forall; [|exact Hfound].
  intros path bs. cbn beta.
  destruct (urljoin E base_url path) as [sitemap_url|]; [|done]. cbn.
  intros [= <-]. destruct (session_get E sitemap_url 10) as [response| |];
    [|constructor..].
  destruct (_ =? _)%Z; [apply parse_html_sitemap_http | constructor].
Qed.

(** The lists of [_categorize_urls] are the URLs of each type, in the
    order they came in. *)
Lemma categorize_fold (urls : list string) (categories : UrlsByType) :
  foldl categorize_url categories urls
  = {| documentation := documentation categories ++
                          filter (fun u => Spec.url_type u = "documentation") urls;
       api := api categories ++ filter (fun u => Spec.url_type u = "api") urls;
       guides := guides categories ++
                   filter (fun u => Spec.url_type u = "guides") urls;
       tutorials := tutorials categories ++
                      filter (fun u => Spec.url_type u = "tutorials") urls;
       blog := blog categories ++ filter (fun u => Spec.url_type u = "blog") urls;
       other := other categories ++
                  filter (fun u => Spec.url_type u = "other") urls |}.
Proof.
  revert categories. induction urls as [|url urls IH]; intros categories.
  - simpl. rewrite !app_nil_r. by destruct categories.
  - simpl. rewrite IH. rewrite !filter_cons.
    unfold categorize_url, Spec.url_type.
    destruct (Py.any_in ["/docs/"; "/documentation/"; "/guide/"] _);
      [simpl; by rewrite <- !app_assoc|].
    destruct (Py.any_in ["/api/"; "/reference/"] _);
      [simpl; by rewrite <- !app_assoc|].
    destruct (Py.any_in ["/guides/"; "/how-to/"] _);
      [simpl; by rewrite <- !app_assoc|].
    destruct (Py.any_in ["/tutorial/"; "/tutorials/"] _);
      [simpl; by rewrite <- !app_assoc|].
    destruct (Py.any_in ["/blog/"; "/news/"; "/articles/"] _);
      simpl; by rewrite <- !app_assoc.
Qed.

Lemma url_type_cases (url : string) :
  Spec.url_type url ∈
    ["documentation"; "api"; "guides"; "tutorials"; "blog"; "other"].
Proof.
  unfold Spec.url_type.
  repeat (destruct (Py.any_in _ _); [set_solver|]). set_solver.
Qed.

Lemma categorize_partition (urls : list string) :
  let c := _categorize_urls urls in
  documentation c ++ api c ++ guides c ++ tutorials c ++ blog c ++ other c
  ≡ₚ urls.
Proof.
  unfold _categorize_urls. rewrite categorize_fold. simpl.
  induction urls as [|url urls IH]; [done|].
  rewrite !filter_cons. pose proof (url_type_cases url) as Hcases.
  repeat (apply elem_of_cons in Hcases as [->|Hcases]);
    [..|by apply elem_of_nil in Hcases]; simpl.
  - by rewrite IH.
  - rewrite <- Permutation_middle. by rewrite IH.
  - rewrite !app_assoc, <- Permutation_middle, <- !app_assoc. by rewrite IH.
  - rewrite !app_assoc, <- Permutation_middle, <- !app_assoc. by rewrite IH.
  - rewrite !app_assoc, <- Permutation_middle, <- !app_assoc. by rewrite IH.
  - rewrite !app_assoc, <- Permutation_middle, <- !app_assoc. by rewrite IH.
Qed.

End FurtherSitemap.

(** X9.  An HTML sitemap yields http and https URLs only: every URL
    [_parse_html_sitemap] returns, and every URL [_find_html_sitemap]
    collects from the well-known HTML sitemap paths, starts with http://
    or https://, whatever the anchors of the page hold (mailto:, tel:,
    javascript: and the like are dropped). *)
Theorem X9_html_sitemap_only_http (E : Env) (html_content sitemap_url : string)
    (url : string) :
  (url ∈ SitemapExtractor._parse_html_sitemap E html_content sitemap_url →
   Py.startswith url "http://" = true ∨ Py.startswith url "https://" = true) ∧
  (∀ urls, SitemapExtractor._find_html_sitemap E sitemap_url = Ok urls →
           url ∈ urls →
           Py.startswith url "http://" = true ∨
           Py.startswith url "https://" = true).
Proof.
  split.
  - intros Hurl. pose proof (parse_html_sitemap_http E html_content sitemap_url) as Hall.
    rewrite Forall_forall in Hall. by apply orb_true_iff, Hall.
  - intros urls Hfound Hurl.
    pose proof (find_html_sitemap_http E sitemap_url urls Hfound) as Hall.
    rewrite Forall_forall in Hall. by apply orb_true_iff, Hall.
Qed.

(** X10.  [_categorize_urls] puts every URL in exactly one of its six
    lists, the first whose patterns occur in the lower-cased URL in the
    order documentation, api, guides, tutorials, blog, other, and keeps
    the order of the input within each list: a URL with /guide/ and /api/
    is documentation, and the six lists together are the input. *)
Theorem X10_categorize_urls_partition (urls : list string) :
  let c := SitemapExtractor._categorize_urls urls in
  SitemapExtractor.documentation c
  = filter (fun u => Spec.url_type u = "documentation") urls ∧
  SitemapExtractor.api c = filter (fun u => Spec.url_type u = "api") urls ∧
  SitemapExtractor.guides c = filter (fun u => Spec.url_type u = "guides") urls ∧
  SitemapExtractor.tutorials c
  = filter (fun u => Spec.url_type u = "tutorials") urls ∧
  SitemapExtractor.blog c = filter (fun u => Spec.url_type u = "blog") urls ∧
  SitemapExtractor.other c = filter (fun u => Spec.url_type u = "other") urls ∧
  SitemapExtractor.documentation c ++ SitemapExtractor.api c ++
  SitemapExtractor.guides c ++ SitemapExtractor.tutorials c ++
  SitemapExtractor.blog c ++ SitemapExtractor.other c ≡ₚ urls.
Proof.
  intros c. split; [|split; [|split; [|split; [|split; [|split]]]]];
    try (unfold c, SitemapExtractor._categorize_urls;
         by rewrite categorize_fold).
  apply categorize_partition.
Qed.

(** X11.  In the dictionary [extract_sitemap_info] returns, total_urls is
    the number of URLs in the six lists of urls_by_type together; these
    URLs are distinct and each passes the filter of the resolver against
    the base URL; sitemap_urls is the robots.txt sitemaps followed by the
    sitemaps found at the well-known paths. *)
Theorem X11_sitemap_info_total (E : Env) (depth : nat) (base_url : string)
    (info : SitemapExtractor.SitemapInfo) :
  SitemapExtractor.extract_sitemap_info E depth base_url = Ok info →
  let c := SitemapExtractor.info_urls_by_type info in
  let listed :=
    SitemapExtractor.documentation c ++ SitemapExtractor.api c ++
    SitemapExtractor.guides c ++ SitemapExtractor.tutorials c ++
    SitemapExtractor.blog c ++ SitemapExtractor.other c in
  SitemapExtractor.info_total_urls info = length listed ∧
  NoDup listed ∧
  (∀ url, url ∈ listed → Spec.sitemap_in_scope E url base_url) ∧
  (∃ common,
     SitemapExtractor._try_common_sitemap_locations E base_url = Ok common ∧
     SitemapExtractor.info_sitemap_urls info
     = SitemapExtractor.info_robots_txt_sitemaps info ++ common).
Proof.
  unfold SitemapExtractor.extract_sitemap_info.
  destruct (SitemapExtractor._extract_from_robots_txt E base_url) as [robots|];
    [|done]. cbn [mbind result_bind].
  destruct (SitemapExtractor._try_common_sitemap_locations E base_url)
    as [common|]; [|done]. cbn [mbind result_bind].
  destruct (mapM _ SitemapExtractor.info_html_sitemap_paths) as [found|]; [|done].
  cbn [mbind result_bind mret result_ret]. intros [= <-].
  cbn [SitemapExtractor.info_urls_by_type SitemapExtractor.info_total_urls
       SitemapExtractor.info_sitemap_urls SitemapExtractor.info_robots_txt_sitemaps].
  set (filtered := List.filter _ _).
  pose proof (categorize_partition filtered) as Hperm. cbv zeta in Hperm.
  split; [by rewrite Hperm|]. split; [|split].
  - rewrite Hperm. unfold filtered.
    apply NoDup_ListNoDup, List.NoDup_filter, NoDup_ListNoDup, unique_NoDup.
  - intros url Hurl. rewrite Hperm in Hurl. unfold filtered in Hurl.
    rewrite list_elem_of_In, filter_In in Hurl. destruct Hurl as [_ Hvalid].
    by apply sitemap_is_valid_url_in_scope.
  - by exists common.
Qed.

(** ** The cleaners and the extraction methods *)

Section Cleaners.

Import Bs4 ContentMethods.

Lemma node_induction (P : Node → Prop) :
  (∀ s, P (NavigableString s)) →
  (∀ name attrs cs, Forall P cs → P (Tag name attrs cs)) →
  ∀ n, P n.
Proof.
  intros Hs Ht. fix IH 1. intros [s|name attrs cs]; [apply Hs|].
  apply Ht. induction cs as [|c cs IHcs]; constructor; [apply IH | exact IHcs].
Qed.

(** The node and its descendants, in document order. *)
Local Abbreviation nodes_of := (fun c : Node => c :: descendants c).

(** No name of [names] is the name of the node. *)
Local Abbreviation unnamed names :=
  (fun n : Node => existsb (fun name => is_tag name n) names = false).

Lemma named_tag (names : list string) (name : string)
    (attrs : list (string * string)) (cs : list Node) :
  existsb (fun name' => is_tag name' (Tag name attrs cs)) names
  = existsb (String.eqb name) names.
Proof. done. Qed.

Lemma decompose_unnamed (names : list string) (n : Node) :
  Forall (unnamed names) (flat_map nodes_of (decompose names n)).
Proof.
  induction n as [s|name attrs cs IH] using node_induction.
  - simpl. repeat constructor. by induction names.
  - cbn [decompose]. destruct (existsb (String.eqb name) names) eqn:Hname;
      [constructor|].
    cbn [flat_map descendants]. rewrite app_nil_r. constructor.
    + by rewrite named_tag.
    + induction IH as [|c cs Hc _ IHcs]; [constructor|].
      cbn [flat_map]. rewrite flat_map_app. apply Forall_app. by split.
Qed.

Lemma decompose_all_unnamed (names : list string) (soup : Soup) :
  Forall (unnamed names) (all_nodes (decompose_all names soup)).
Proof.
  unfold all_nodes, decompose_all. induction soup as [|n soup IH]; [constructor|].
  cbn [flat_map]. rewrite flat_map_app. apply Forall_app.
  split; [apply decompose_unnamed | exact IH].
Qed.

Lemma filter_none {A : Type} (f : A → bool) (l : list A) :
  Forall (fun x => f x = false) l → List.filter f l = [].
Proof. induction 1 as [|x l Hx _ IH]; [done|]. simpl. by rewrite Hx. Qed.

Lemma decompose_all_find_all (names : list string) (soup : Soup) (name : string) :
  name ∈ names → find_all (decompose_all names soup) name = [].
Proof.
  intros Hname. unfold find_all. apply filter_none.
  eapply Forall_impl; [apply decompose_all_unnamed|].
  intros n Hn. simpl in Hn. destruct (is_tag name n) eqn:Htag; [|done].
  assert (existsb (fun name' => is_tag name' n) names = true); [|congruence].
  apply existsb_exists. exists name. split; [by apply list_elem_of_In | done].
Qed.

Lemma decompose_twice (names : list string) (n : Node) :
  flat_map (decompose names) (decompose names n) = decompose names n.
Proof.
  induction n as [s|name attrs cs IH] using node_induction; [done|].
  cbn [decompose]. destruct (existsb (String.eqb name) names) eqn:Hname; [done|].
  cbn [flat_map decompose]. rewrite Hname, app_nil_r. do 2 f_equal.
  induction IH as [|c cs Hc _ IHcs]; [done|].
  cbn [flat_map]. by rewrite flat_map_app, Hc, IHcs.
Qed.

Lemma decompose_all_twice (names : list string) (soup : Soup) :
  decompose_all names (decompose_all names soup) = decompose_all names soup.
Proof.
  unfold decompose_all. induction soup as [|n soup IH]; [done|].
  cbn [flat_map]. by rewrite flat_map_app, decompose_twice, IH.
Qed.

Lemma decompose_nothing (names : list string) (n : Node) :
  Forall (unnamed names) (nodes_of n) → decompose names n = [n].
Proof.
  induction n as [s|name attrs cs IH] using node_induction; [done|].
  intros Hall. apply Forall_cons in Hall as [Hn Hcs].
  rewrite named_tag in Hn. cbn [decompose]. rewrite Hn. do 2 f_equal.
  cbn [descendants] in Hcs.
  induction IH as [|c cs Hc _ IHcs]; [done|].
  cbn [flat_map] in *. apply Forall_app in Hcs as [Hc' Hcs].
  by rewrite Hc, IHcs.
Qed.

Lemma decompose_all_nothing (names : list string) (soup : Soup) :
  find_all_names soup names = [] → decompose_all names soup = soup.
Proof.
  unfold find_all_names, decompose_all, all_nodes. intros Hnone.
  assert (Forall (unnamed names) (flat_map nodes_of soup)) as Hall.
  { apply Forall_forall. intros n Hn.
    destruct (existsb (fun name => is_tag name n) names) eqn:Hnamed; [|done].
    assert (n ∈ List.filter (fun n => existsb (fun name => is_tag name n) names)
                  (flat_map nodes_of soup)) as Hin.
    { apply list_elem_of_In, filter_In. split; [by apply list_elem_of_In | done]. }
    rewrite Hnone in Hin. by apply elem_of_nil in Hin. }
  clear Hnone. induction soup as [|n soup IH]; [done|].
  cbn [flat_map] in *. apply Forall_app in Hall as [Hn Hsoup].
  by rewrite decompose_nothing, IH.
Qed.

End Cleaners.

Section Extraction.

Import Bs4 ContentMethods.

Local Open Scope nat_scope.

Lemma fits_description_length (text : string) :
  fits_description text = true ↔ 50 < Py.len text < 300.
Proof.
  unfold fits_description. by rewrite andb_true_iff, !Nat.ltb_lt.
Qed.

(** [meta and meta.get("content")], then [meta["content"].strip()]. *)
Lemma meta_content_some (soup : Soup) (key value t : string) :
  meta_content soup key value = Some t ↔
  ∃ meta content,
    find_attrs soup "meta" key value = Some meta ∧
    get meta "content" = Some content ∧
    content ≠ "" ∧ t = Py.strip content.
Proof.
  unfold meta_content.
  destruct (find_attrs soup "meta" key value) as [meta|]; simpl;
    [|split; [done | by intros (? & ? & ? & _)]].
  destruct (get meta "content") as [content|] eqn:Hget; simpl;
    [|split; [done | intros (? & ? & [= <-] & ? & _); congruence]].
  destruct content as [|c content]; simpl.
  - split; [done | intros (? & ? & [= <-] & ? & ? & _); congruence].
  - split.
    + intros [= <-]. by eexists _, _.
    + intros (? & ? & [= <-] & ? & _ & ->). congruence.
Qed.

Lemma meta_content_none (soup : Soup) (key value : string) :
  (∀ content,
     ¬ ∃ meta, find_attrs soup "meta" key value = Some meta ∧
               get meta "content" = Some content ∧ content ≠ "") →
  meta_content soup key value = None.
Proof.
  intros Hnone. destruct (meta_content soup key value) as [t|] eqn:Hmeta; [|done].
  apply meta_content_some in Hmeta as (meta & content & ? & ? & ? & _).
  destruct (Hnone content). by exists meta.
Qed.

Lemma level_of_heading (name : string) :
  name ∈ heading_names → (1 ≤ level_of name ≤ 6)%Z.
Proof.
  unfold heading_names. intros Hname.
  repeat (apply elem_of_cons in Hname as [->|Hname]; [by vm_compute|]).
  by apply elem_of_nil in Hname.
Qed.

Lemma find_all_names_tag (soup : Soup) (names : list string) (n : Node) :
  n ∈ find_all_names soup names → tag_name n ∈ names.
Proof.
  unfold find_all_names. rewrite list_elem_of_In, filter_In.
  intros [_ (name & Hname & Htag)%existsb_exists].
  destruct n as [s|name' attrs cs]; [done|]. simpl in *.
  apply String.eqb_eq in Htag as ->. by apply list_elem_of_In.
Qed.

End Extraction.

(** X12.  After [_remove_scripts_and_styles] no script, style or
    noscript element is left in the tree, and after
    [_remove_navigation_elements] no nav, header, footer, aside or menu
    element; each cleaner applied a second time changes nothing, and a
    tree without such elements comes back as it went in. *)
Theorem X12_cleaners_remove_elements (soup : Bs4.Soup) (url : string) :
  (∀ name, name ∈ ["script"; "style"; "noscript"] →
     Bs4.find_all (ContentMethods._remove_scripts_and_styles soup url) name = []) ∧
  (∀ name, name ∈ ["nav"; "header"; "footer"; "aside"; "menu"] →
     Bs4.find_all (ContentMethods._remove_navigation_elements soup url) name = []) ∧
  ContentMethods._remove_scripts_and_styles
    (ContentMethods._remove_scripts_and_styles soup url) url
  = ContentMethods._remove_scripts_and_styles soup url ∧
  ContentMethods._remove_navigation_elements
    (ContentMethods._remove_navigation_elements soup url) url
  = ContentMethods._remove_navigation_elements soup url ∧
  (Bs4.find_all_names soup ["script"; "style"; "noscript"] = [] →
   ContentMethods._remove_scripts_and_styles soup url = soup) ∧
  (Bs4.find_all_names soup ["nav"; "header"; "footer"; "aside"; "menu"] = [] →
   ContentMethods._remove_navigation_elements soup url = soup).
Proof.
  unfold ContentMethods._remove_scripts_and_styles,
    ContentMethods._remove_navigation_elements.
  split; [intros name; apply decompose_all_find_all|].
  split; [intros name; apply decompose_all_find_all|].
  split; [apply decompose_all_twice|]. split; [apply decompose_all_twice|].
  split; apply decompose_all_nothing.
Qed.

(** X13.  The description of a page is the stripped content attribute of
    the first meta element named description, when that attribute is there
    and not empty, whatever else the page holds; failing that, the
    stripped content of the first meta element of property og:description,
    on the same condition; failing both, the stripped text of the first
    paragraph that has more than 50 and fewer than 300 characters (code
    points), and the empty string when there is no such paragraph. *)
Theorem X13_description_fallback (soup : Bs4.Soup) :
  let description := ContentMethods._extract_description soup in
  let usable key value content :=
    ∃ meta, Bs4.find_attrs soup "meta" key value = Some meta ∧
            Bs4.get meta "content" = Some content ∧ content ≠ "" in
  let paragraphs :=
    map (fun p => Py.strip (Bs4.get_text p)) (Bs4.find_all soup "p") in
  (∀ content, usable "name" "description" content →
              description = Py.strip content) ∧
  (∀ content, (∀ c, ¬ usable "name" "description" c) →
              usable "property" "og:description" content →
              description = Py.strip content) ∧
  ((∀ c, ¬ usable "name" "description" c) →
   (∀ c, ¬ usable "property" "og:description" c) →
   (description = "" ∧
    ∀ text, text ∈ paragraphs → ¬ (50 < Py.len text < 300)%nat) ∨
   ((50 < Py.len description < 300)%nat ∧
    ∃ earlier later,
      paragraphs = earlier ++ description :: later ∧
      ∀ text, text ∈ earlier → ¬ (50 < Py.len text < 300)%nat)).
Proof.
  intros description usable paragraphs.
  unfold description, ContentMethods._extract_description.
  split; [|split].
  - intros content (meta & Hfind & Hget & Hne).
    assert (ContentMethods.meta_content soup "name" "description"
            = Some (Py.strip content)) as ->; [|done].
    apply meta_content_some. by exists meta, content.
  - intros content Hnone (meta & Hfind & Hget & Hne).
    rewrite (meta_content_none soup "name" "description" Hnone).
    assert (ContentMethods.meta_content soup "property" "og:description"
            = Some (Py.strip content)) as ->; [|done].
    apply meta_content_some. by exists meta, content.
  - intros Hnone Hnone'.
    rewrite (meta_content_none soup "name" "description" Hnone).
    rewrite (meta_content_none soup "property" "og:description" Hnone').
    fold paragraphs.
    destruct (List.find _ _) as [text|] eqn:Hfind; simpl.
    + right.
      apply find_first in Hfind as (earlier & later & Hsplit & Hfits & Hearlier).
      split; [by apply fits_description_length|].
      exists earlier, later. split; [done|]. intros t Ht Hlen.
      apply fits_description_length in Hlen. specialize (Hearlier t Ht). congruence.
    + left. split; [done|]. intros text Htext Hlen.
      apply fits_description_length in Hlen.
      assert (ContentMethods.fits_description text = false); [|congruence].
      apply (find_none _ _ Hfind). by apply list_elem_of_In.
Qed.

(** X14.  Every heading [_extract_headings] returns has a level between
    1 and 6, the digit of its tag, and a text that is not empty: the text
    of its element with the white space around it stripped, that of
    Unicode (a no-break space, say) included.  Headings whose text is
    nothing but white space are left out, so the list is no longer than
    the list of the heading elements of the page. *)
Theorem X14_headings_levels (soup : Bs4.Soup) :
  (length (ContentMethods._extract_headings soup)
   ≤ length (Bs4.find_all_names soup ContentMethods.heading_names))%nat ∧
  (∀ h, h ∈ ContentMethods._extract_headings soup →
        (1 ≤ ContentProcessor.h_level h ≤ 6)%Z ∧
        ContentProcessor.h_text h ≠ "" ∧
        ∃ tag, tag ∈ Bs4.find_all_names soup ContentMethods.heading_names ∧
               ContentProcessor.h_level h
               = ContentMethods.level_of (ContentMethods.tag_name tag) ∧
               ContentProcessor.h_text h = Py.strip (Bs4.get_text tag) ∧
               ContentProcessor.h_id h = default "" (Bs4.get tag "id")).
Proof.
  unfold ContentMethods._extract_headings. split.
  - induction (Bs4.find_all_names soup ContentMethods.heading_names)
      as [|tag tags IH]; [done|].
    cbn [flat_map]. rewrite length_app. unfold ContentMethods.heading_of at 1.
    destruct (Py.truthy _); simpl; lia.
  - intros h (tag & Htag & Hh)%elem_of_flat_map.
    unfold ContentMethods.heading_of in Hh.
    destruct (Py.truthy _) eqn:Htext; [|by apply elem_of_nil in Hh].
    apply list_elem_of_singleton in Hh as ->. simpl.
    split; [by apply level_of_heading, (find_all_names_tag soup)|].
    split; [by apply truthy_spec|]. by exists tag.
Qed.

(** ** The traversal, further *)

Section FurtherTraversal.

Import Traverser.

Context (E : Env) (M : Methods) (max_pages max_depth : Z).

Lemma extract_documentation_links_match (html base_url : string)
    (doc_links : list string) :
  _extract_documentation_links E html base_url = Ok doc_links →
  Forall (fun link => Py.any_in doc_patterns (Py.lower link) = true) doc_links.
Proof.
  unfold _extract_documentation_links.
  destruct (html_parser E html) as [soup|]; [|done]. cbn [mbind result_bind].
  destruct (mapM _ _) as [full_urls|]; [|done]. cbn. intros [= <-].
  apply Forall_forall. intros link Hlink.
  apply list_elem_of_In, filter_In in Hlink. tauto.
Qed.

Lemma elem_of_enqueue (visited : gset string) (depth : Z)
    (doc_links : list string) (q : list (string * Z)) (url : string) (d : Z) :
  (url, d) ∈ enqueue visited depth doc_links q →
  (url, d) ∈ q ∨ (url ∈ doc_links ∧ d = (depth + 1)%Z ∧ url ∉ visited).
Proof.
  unfold enqueue. intros [Hq|Hnew]%elem_of_app; [by left|]. right.
  apply list_elem_of_fmap in Hnew as (link & [= -> ->] & Hlink).
  apply list_elem_of_In, filter_In in Hlink as [Hlink Hfresh].
  apply bool_decide_eq_true in Hfresh. split; [|done].
  apply list_elem_of_In in Hlink.
  rewrite <- (take_drop 10 doc_links). apply elem_of_app. by left.
Qed.

Lemma turn_docs_invariant (docs_url url : string) (depth : Z) (st : Loop) :
  Spec.documentation_url docs_url url → (0 ≤ depth)%Z →
  Spec.docs_invariant docs_url max_depth st →
  Spec.docs_invariant docs_url max_depth (turn E M max_depth url depth st).
Proof.
  intros Hurl Hdepth (Hq & Hr & Hp). unfold turn.
  destruct (_ || _) eqn:Hskip; [done|].
  apply orb_false_iff in Hskip as [Hdeep%Z.ltb_ge _].
  assert (∀ u, u ∈ requested st ++ [url] → Spec.documentation_url docs_url u)
    as Hr'.
  { intros u [Hu| ->%list_elem_of_singleton]%elem_of_app; [by apply Hr | done]. }
  destruct (_fetch_page E M url) as [fetched|]; [|done].
  split; [|split; [done|]]; cbn [queue pages].
  - destruct (depth <? max_depth)%Z; [|done].
    destruct (_extract_documentation_links E _ url) as [doc_links|] eqn:Hlinks;
      [|done].
    apply extract_documentation_links_match in Hlinks.
    rewrite Forall_forall in Hlinks.
    intros u d [Hin|(Hin & -> & _)]%elem_of_enqueue; [by apply Hq|].
    split; [right; by apply Hlinks | lia].
  - intros p [Hin| ->%list_elem_of_singleton]%elem_of_app; [by apply Hp|].
    simpl. split; [lia | done].
Qed.

Lemma loop_docs_invariant (docs_url : string) (fuel : nat) (st st' : Loop) :
  Spec.docs_invariant docs_url max_depth st →
  loop E M max_pages max_depth fuel st = Some st' →
  Spec.docs_invariant docs_url max_depth st'.
Proof.
  revert st. induction fuel as [|fuel IH]; intros st Hinv.
  - destruct st as [ps q vs rs]. destruct q as [|[url depth] q]; simpl.
    + by intros [= <-].
    + destruct (_ <? _)%Z; [done | by intros [= <-]].
  - destruct st as [ps q vs rs]. destruct q as [|[url depth] q]; simpl.
    + by intros [= <-].
    + destruct (_ <? _)%Z; [|by intros [= <-]].
      destruct Hinv as (Hq & Hr & Hp). destruct (Hq url depth) as [Hurl Hd]; [by left|].
      apply IH. apply turn_docs_invariant; [done..|].
      split; [|by split]. intros u d Hin. apply Hq. by right.
Qed.

Lemma loop_visited_mono (fuel : nat) (st st' : Loop) :
  loop E M max_pages max_depth fuel st = Some st' →
  visited_urls st ⊆ visited_urls st'.
Proof.
  revert st. induction fuel as [|fuel IH]; intros st.
  - destruct st as [ps q vs rs]. destruct q as [|[url depth] q]; simpl.
    + by intros [= <-].
    + destruct (_ <? _)%Z; [done | by intros [= <-]].
  - destruct st as [ps q vs rs]. destruct q as [|[url depth] q]; simpl.
    + by intros [= <-].
    + destruct (_ <? _)%Z; [|by intros [= <-]].
      intros Hloop%IH. etrans; [|exact Hloop].
      destruct (turn_cases E M max_depth url depth
                  {| pages := ps; queue := q; visited_urls := vs; requested := rs |})
        as [->|(_ & -> & _)]; [done|].
      simpl. intros u Hu. apply elem_of_union. by right.
Qed.

(** The traversal returns: the fuel of [_traverse_documentation] is
    enough for any run. *)
Lemma traverse_documentation_returns (visited : gset string) (docs_url : string) :
  is_Some (_traverse_documentation E M visited docs_url max_pages max_depth).
Proof.
  apply loop_terminates.
  unfold Spec.turns_left, enough_fuel. simpl. rewrite Z.sub_0_r. lia.
Qed.

End FurtherTraversal.

(** X15.  A docs-mode traversal requests the seed and, beyond it, only
    URLs whose lower-cased text holds one of the patterns /docs/,
    /documentation/, /guide/, /tutorial/, /api/ or /reference/; every page
    it returns is tagged "documentation" with a depth between 0 and
    max_depth. *)
Theorem X15_docs_traversal_stays_on_topic (E : Env) (M : Traverser.Methods)
    (visited : gset string) (docs_url : string) (max_pages max_depth : Z) :
  ∃ st,
    Traverser._traverse_documentation E M visited docs_url max_pages max_depth
    = Some st ∧
    (∀ url, url ∈ Traverser.requested st →
            url = docs_url ∨
            Py.any_in Traverser.doc_patterns (Py.lower url) = true) ∧
    (∀ p, p ∈ Traverser.pages st →
          (0 ≤ Traverser.depth p ≤ max_depth)%Z ∧
          Traverser.traversal_mode p = "documentation").
Proof.
  destruct (traverse_documentation_returns E M max_pages max_depth visited docs_url)
    as [st Hloop].
  exists st. split; [done|]. revert Hloop.
  unfold Traverser._traverse_documentation. intros Hloop.
  apply (loop_docs_invariant E M max_pages max_depth docs_url) in Hloop
    as (_ & Hr & Hp); [by split|].
  split; [|split]; simpl.
  - intros url depth [= -> ->]%list_elem_of_singleton. split; [by left | done].
  - by intros url ?%elem_of_nil.
  - by intros p ?%elem_of_nil.
Qed.

(** X16.  The visited set of a traverser is never reset: a second
    docs-mode traversal of the same seed on the same traverser, with the
    same bounds, requests nothing and returns no page, and leaves the
    visited set as it found it. *)
Theorem X16_second_traversal_is_empty (E : Env) (M : Traverser.Methods)
    (visited : gset string) (docs_url : string) (max_pages max_depth : Z) :
  ∃ st st',
    Traverser._traverse_documentation E M visited docs_url max_pages max_depth
    = Some st ∧
    Traverser._traverse_documentation E M (Traverser.visited_urls st) docs_url
      max_pages max_depth = Some st' ∧
    Traverser.pages st' = [] ∧
    Traverser.requested st' = [] ∧
    Traverser.visited_urls st' = Traverser.visited_urls st.
Proof.
  destruct (traverse_documentation_returns E M max_pages max_depth visited docs_url)
    as [st Hfirst].
  exists st. cut (∃ st',
    Traverser._traverse_documentation E M (Traverser.visited_urls st) docs_url
      max_pages max_depth = Some st' ∧
    Traverser.pages st' = [] ∧ Traverser.requested st' = [] ∧
    Traverser.visited_urls st' = Traverser.visited_urls st).
  { intros (st' & ?). by exists st'. }
  revert Hfirst.
  unfold Traverser._traverse_documentation, Traverser.enough_fuel. intros Hfirst.
  destruct (decide (0 < max_pages)%Z) as [Hroom|Hfull]; cycle 1.
  { eexists. split; [apply loop_done; right; simpl; lia | done]. }
  rewrite loop_turn by done. rewrite loop_turn in Hfirst by done.
  assert ((max_depth <? 0)%Z || bool_decide (docs_url ∈ Traverser.visited_urls st)
          = true) as Hskip.
  { destruct (max_depth <? 0)%Z eqn:Hdepth; [done|]. simpl.
    apply bool_decide_eq_true.
    apply loop_visited_mono in Hfirst. apply Hfirst.
    unfold Traverser.turn. rewrite Hdepth. simpl.
    destruct (bool_decide _) eqn:Hseen; [by apply bool_decide_eq_true in Hseen|].
    destruct (Traverser._fetch_page E M docs_url); simpl;
      apply elem_of_union; left; by apply elem_of_singleton. }
  unfold Traverser.turn at 1. cbn [Traverser.visited_urls]. rewrite Hskip.
  eexists. split; [apply loop_done; by left | done].
Qed.

(** ** The sitemap resolver on a site without sitemaps *)

Section NoSitemap.

Import SitemapExtractor.

Context (E : Env).

Hypothesis no_get : ∀ url timeout response,
  session_get E url timeout = Http.Responded response →
  Http.status_code response ≠ 200%Z.

Hypothesis no_head : ∀ url timeout response,
  session_head E url timeout = Http.Responded response →
  Http.status_code response ≠ 200%Z.

Lemma mapM_concat_nil {A B : Type} (f : A → result (list B)) (l : list A)
    (found : list (list B)) :
  (∀ a b, f a = Ok b → b = []) →
  mapM f l = Ok found → concat found = [].
Proof.
  intros Hf. revert found. induction l as [|a l IH]; intros found; simpl.
  - by intros [= <-].
  - destruct (f a) as [b|] eqn:Hb; [|done]. cbn [mbind result_bind].
    destruct (mapM f l) as [bs|]; [|done]. cbn. intros [= <-].
    simpl. by rewrite (Hf a b Hb), (IH bs).
Qed.

Lemma robots_txt_none (base_url : string) (sitemap_urls : list string) :
  _extract_from_robots_txt E base_url = Ok sitemap_urls → sitemap_urls = [].
Proof.
  unfold _extract_from_robots_txt.
  destruct (urljoin E base_url "/robots.txt") as [robots_url|]; [|done].
  cbn. intros [= <-].
  destruct (session_get E robots_url 10) as [response| |] eqn:Hget; [|done..].
  apply no_get in Hget. by apply Z.eqb_neq in Hget as ->.
Qed.

Lemma common_locations_none (base_url : string) (sitemap_urls : list string) :
  _try_common_sitemap_locations E base_url = Ok sitemap_urls → sitemap_urls = [].
Proof.
  unfold _try_common_sitemap_locations.
  destruct (mapM _ common_paths) as [found|] eqn:Hfound; [|done].
  cbn. intros [= <-]. refine (mapM_concat_nil _ _ _ _ Hfound).
  intros path b. cbn beta.
  destruct (urljoin E base_url path) as [sitemap_url|]; [|done].
  cbn. intros [= <-].
  destruct (session_head E sitemap_url 5) as [response| |] eqn:Hhead; [|done..].
  apply no_head in Hhead. by apply Z.eqb_neq in Hhead as ->.
Qed.

Lemma html_sitemap_none (base_url : string) (urls : list string) :
  _find_html_sitemap E base_url = Ok urls → urls = [].
Proof.
  unfold _find_html_sitemap.
  destruct (mapM _ html_sitemap_paths) as [found|] eqn:Hfound; [|done].
  cbn. intros [= <-]. refine (mapM_concat_nil _ _ _ _ Hfound).
  intros path b. cbn beta.
  destruct (urljoin E base_url path) as [sitemap_url|]; [|done].
  cbn. intros [= <-].
  destruct (session_get E sitemap_url 10) as [response| |] eqn:Hget; [|done..].
  apply no_get in Hget. by apply Z.eqb_neq in Hget as ->.
Qed.

Lemma sitemap_none (depth : nat) (base_url : string) (urls : list string) :
  extract_urls_from_sitemap E depth base_url = Ok urls → urls = [].
Proof.
  unfold extract_urls_from_sitemap, collect_urls.
  destruct (_extract_from_robots_txt E base_url) as [robots|] eqn:Hrobots; [|done].
  apply robots_txt_none in Hrobots as ->. cbn [mbind result_bind].
  destruct (_try_common_sitemap_locations E base_url) as [common|] eqn:Hcommon;
    [|done].
  apply common_locations_none in Hcommon as ->. cbn [mbind result_bind].
  destruct (_find_html_sitemap E base_url) as [html|] eqn:Hhtml; [|done].
  apply html_sitemap_none in Hhtml as ->. cbn. intros [= <-].
  unfold unique. simpl. by rewrite elements_empty.
Qed.

End NoSitemap.

(** X17.  On a site that answers no request with status 200 (every
    request raises or comes back with another status) the sitemap
    resolver finds nothing: when it returns, it returns the empty list.  A
    sitemap served with a status other than 200 is never read. *)
Theorem X17_no_sitemap_no_urls (E : Env) (depth : nat) (base_url : string)
    (urls : list string) :
  (∀ url timeout response,
     session_get E url timeout = Http.Responded response →
     Http.status_code response ≠ 200%Z) →
  (∀ url timeout response,
     session_head E url timeout = Http.Responded response →
     Http.status_code response ≠ 200%Z) →
  SitemapExtractor.extract_urls_from_sitemap E depth base_url = Ok urls →
  urls = [].
Proof. intros Hget Hhead. by apply sitemap_none. Qed.

(** ** The further properties at the scenarios *)

(** X2 at the site of the end-to-end scenario: the page under /api/ that
    discovery returns is in scope of the seed. *)
Lemma X2_api_foo_in_scope :
  ∃ base_url,
    base_url ∈ Generator.urls Scenarios.docs_config ∧
    ("https://docs.example.com/api/foo" = base_url ∨
     Spec.in_scope Scenarios.docs_site Scenarios.docs_config
       "https://docs.example.com/api/foo" base_url).
Proof.
  apply (X2_discover_pages_in_scope Scenarios.docs_site Scenarios.docs_config
           (Scenarios.discovered "https://docs.example.com/api/foo")).
  apply list_elem_of_In. vm_compute. tauto.
Defined.

(** X3 at the site of the end-to-end scenario. *)
Lemma X3_docs_seed_discovered :
  "https://docs.example.com"
  ∈ map Generator.d_url
      (Generator.discover_pages Scenarios.docs_site Scenarios.docs_config).
Proof.
  apply (X3_first_seed_discovered Scenarios.docs_site Scenarios.docs_config
           "https://docs.example.com" []).
  - reflexivity.
  - simpl. lia.
Defined.

(** X4 at a JSON file with an upper-case extension, which the marker .js
    rejects. *)
Lemma X4_upper_case_json_rejected :
  Generator._is_valid_url Scenarios.offline Scenarios.default_config
    "https://example.com/data.JSON" "https://example.com" = false.
Proof.
  apply (X4_denylist_any_case Scenarios.offline Scenarios.default_config
           "https://example.com/data.JSON" "https://example.com" ".js" ".JSON").
  - apply list_elem_of_In. vm_compute. tauto.
  - apply str_in_occurs. by vm_compute.
  - apply str_in_occurs. by vm_compute.
Defined.

(** X6 at a run with the default configuration, which has no rules. *)
Lemma X6_default_ctx_is_empty :
  Generator.llms_ctx Scenarios.default_config
    (Generator.pages_data
       (Generator.process_pages Scenarios.docs_site Scenarios.plain_processor
          (Scenarios.fresh Scenarios.default_config)
          [Scenarios.discovered "https://docs.example.com/api/foo";
           Scenarios.discovered "https://docs.example.com/guide/bar"]))
    false
  = "<project title=" +:+ Generator.quote +:+ "Website Documentation" +:+
    Generator.quote +:+ " summary=" +:+ Generator.quote +:+
    "Documentation generated from website" +:+ Generator.quote +:+
    ">" +:+ Py.nl +:+ "</project>".
Proof.
  apply (X6_ctx_without_rules_is_empty Scenarios.docs_site Scenarios.plain_processor
           (Scenarios.fresh Scenarios.default_config)).
  - reflexivity.
  - intros p Hp. simpl in Hp. by apply elem_of_nil in Hp.
Defined.

(** X7 at rules whose first one has an empty URL pattern: a page under
    /api/ is not in the category API. *)
Lemma X7_catch_all_takes_api_page :
  Generator._categorize_page Scenarios.offline Scenarios.catch_all_config
    Scenarios.api_guide
  = "Everything".
Proof.
  apply (X7_empty_pattern_matches_all Scenarios.offline Scenarios.catch_all_config
           Scenarios.api_guide "Everything"
           {| Generator.url_patterns := [""]; Generator.title_patterns := [] |}
           [("API", {| Generator.url_patterns := ["/api/"];
                       Generator.title_patterns := [] |})]).
  - reflexivity.
  - left. simpl. by left.
Defined.

(** X11 at the site whose sitemap lists an image and a page. *)
Lemma X11_assets_info :
  ∃ info,
    SitemapExtractor.extract_sitemap_info Scenarios.assets_site 5
      "https://example.com" = Ok info ∧
    SitemapExtractor.info_total_urls info = 2%nat ∧
    SitemapExtractor.info_total_urls info
    = length
        (SitemapExtractor.documentation (SitemapExtractor.info_urls_by_type info) ++
         SitemapExtractor.api (SitemapExtractor.info_urls_by_type info) ++
         SitemapExtractor.guides (SitemapExtractor.info_urls_by_type info) ++
         SitemapExtractor.tutorials (SitemapExtractor.info_urls_by_type info) ++
         SitemapExtractor.blog (SitemapExtractor.info_urls_by_type info) ++
         SitemapExtractor.other (SitemapExtractor.info_urls_by_type info)).
Proof.
  destruct (SitemapExtractor.extract_sitemap_info Scenarios.assets_site 5
              "https://example.com") as [info|] eqn:Hinfo;
    [|by vm_compute in Hinfo].
  exists info. split; [done|]. split.
  - vm_compute in Hinfo. by injection Hinfo as <-.
  - exact (proj1 (X11_sitemap_info_total Scenarios.assets_site 5
                    "https://example.com" info Hinfo)).
Defined.

(** X17 at the environment in which no host can be reached. *)
Lemma X17_offline_no_urls :
  ∃ urls,
    SitemapExtractor.extract_urls_from_sitemap Scenarios.offline 5
      "https://example.com" = Ok urls ∧
    urls = [].
Proof.
  destruct (SitemapExtractor.extract_urls_from_sitemap Scenarios.offline 5
              "https://example.com") as [urls|] eqn:Hurls;
    [|by vm_compute in Hurls].
  exists urls. split; [done|].
  by apply (X17_no_sitemap_no_urls Scenarios.offline 5 "https://example.com" urls).
Defined.
